(** * nanobot: the orchestration core, embedded and verified

    The first part follows the Python sources module by module:

    - [PyStr]      the [str] operations the sources rely on
    - [Effects]    returning or raising, over a threaded state
    - [Py]         the values of tool arguments
    - [Events]     nanobot/bus/events.py
    - [Helpers]    nanobot/utils/helpers.py
    - [Heartbeat]  nanobot/heartbeat/service.py
    - [Base]       nanobot/agent/tools/base.py
    - [Registry]   nanobot/agent/tools/registry.py
    - [Provider]   nanobot/providers/litellm_provider.py
    - [Bus]        the message bus
    - [Subagent]   nanobot/agent/subagent.py
    - [Cron]       nanobot/cron/types.py and the cron service
    - [PySlice]    slices and one-character replacement
    - [StringHelpers]  nanobot/utils/helpers.py, the string helpers
    - [Session]    nanobot/session/manager.py
    - [Channel]    nanobot/channels/base.py, with the sender ids of
                   telegram.py and whatsapp.py
    - [Dispatcher] nanobot/channels/manager.py
    - [Config]     nanobot/config/schema.py
    - [Spawn]      nanobot/agent/tools/spawn.py and the spawn of subagent.py

    The second part gives the vocabulary of the properties and sample data, the
    third part the properties themselves.

    A Python [str] is represented by its UTF-8 encoding, one [ascii] per byte.
    All separators the sources split on (newline, colon, bar, at-sign) are
    ASCII, so byte-wise splitting agrees with splitting on code points. *)

From Stdlib Require Import ZArith QArith String Ascii List Bool Lia.
From stdpp Require Import gmap strings list pretty.

Open Scope string_scope.
Set Warnings "-register-all,-clear-no-such-hyp".

(* ===================================================================== *)
(** * Python [str] primitives                                             *)
(* ===================================================================== *)

Module PyStr.

(** A byte that continues a multi-byte UTF-8 sequence (10xxxxxx). *)
Definition is_continuation (a : ascii) : bool :=
  let n := N_of_ascii a in (128 <=? n)%N && (n <? 192)%N.

(** [len(s)]: the number of code points. *)
Fixpoint len (s : string) : nat :=
  match s with
  | EmptyString => 0
  | String a r => if is_continuation a then len r else S (len r)
  end.

(** [s.startswith(p)] *)
Definition startswith (s p : string) : bool := String.prefix p s.

(** [s.split(sep)] for a one-character separator. *)
Fixpoint split (sep : ascii) (s : string) : list string :=
  match s with
  | EmptyString => [""]
  | String c r =>
      if Ascii.eqb c sep then "" :: split sep r
      else match split sep r with
           | h :: t => String c h :: t
           | [] => [String c ""]
           end
  end.

(** [s.split(sep, 1)]: at most one split, at the first separator. *)
Fixpoint split1 (sep : ascii) (s : string) : list string :=
  match s with
  | EmptyString => [""]
  | String c r =>
      if Ascii.eqb c sep then [""; r]
      else match split1 sep r with
           | h :: t => String c h :: t
           | [] => [String c ""]
           end
  end.

(** [sep.join(l)] *)
Fixpoint join (sep : string) (l : list string) : string :=
  match l with
  | [] => ""
  | [x] => x
  | x :: r => x ++ sep ++ join sep r
  end.

(** Whitespace for [str.strip()]: the code points for which [str.isspace]
    holds, given by their UTF-8 encodings.  One byte: U+0009..U+000D,
    U+001C..U+001F, U+0020. *)
Definition space1 (a : ascii) : bool :=
  let n := N_of_ascii a in
  ((9 <=? n) && (n <=? 13) || (28 <=? n) && (n <=? 32))%N.

(** Two bytes: U+0085 (C2 85), U+00A0 (C2 A0). *)
Definition space2 (a b : ascii) : bool :=
  let n := N_of_ascii a in
  let m := N_of_ascii b in
  ((n =? 194) && ((m =? 133) || (m =? 160)))%N.

(** Three bytes: U+1680 (E1 9A 80), U+2000..U+200A (E2 80 80..8A),
    U+2028, U+2029 (E2 80 A8, A9), U+202F (E2 80 AF), U+205F (E2 81 9F),
    U+3000 (E3 80 80). *)
Definition space3 (a b c : ascii) : bool :=
  let n := N_of_ascii a in
  let m := N_of_ascii b in
  let k := N_of_ascii c in
  ((n =? 225) && (m =? 154) && (k =? 128)
   || (n =? 226) && (m =? 128)
      && ((128 <=? k) && (k <=? 138) || (k =? 168) || (k =? 169) || (k =? 175))
   || (n =? 226) && (m =? 129) && (k =? 159)
   || (n =? 227) && (m =? 128) && (k =? 128))%N.

(** Drop leading whitespace.  With [fwd = false] the string is read
    backwards, so the bytes of a sequence arrive last-first. *)
Fixpoint lstrip_gen (fwd : bool) (s : string) : string :=
  match s with
  | EmptyString => s
  | String a r =>
      if space1 a then lstrip_gen fwd r
      else match r with
           | EmptyString => s
           | String b r2 =>
               if (if fwd then space2 a b else space2 b a) then lstrip_gen fwd r2
               else match r2 with
                    | EmptyString => s
                    | String c r3 =>
                        if (if fwd then space3 a b c else space3 c b a)
                        then lstrip_gen fwd r3
                        else s
                    end
           end
  end.

Definition lstrip (s : string) : string := lstrip_gen true s.

Definition rstrip (s : string) : string :=
  String.rev (lstrip_gen false (String.rev s)).

(** [s.strip()] *)
Definition strip (s : string) : string := rstrip (lstrip s).

(** Python truthiness of a string. *)
Definition truthy (s : string) : bool :=
  match s with EmptyString => false | _ => true end.

(** [sub in s] *)
Fixpoint contains (s sub : string) : bool :=
  String.prefix sub s
  || match s with
     | EmptyString => false
     | String _ r => contains r sub
     end.

(** [c in s] for one character. *)
Fixpoint mem (c : ascii) (s : string) : bool :=
  match s with
  | EmptyString => false
  | String a r => Ascii.eqb a c || mem c r
  end.

(** [s.lower()] on the ASCII letters; bytes of other code points are kept. *)
Definition lower_ascii (a : ascii) : ascii :=
  let n := N_of_ascii a in
  if ((65 <=? n) && (n <=? 90))%N then ascii_of_N (n + 32) else a.

Fixpoint lower (s : string) : string :=
  match s with
  | EmptyString => EmptyString
  | String a r => String (lower_ascii a) (lower r)
  end.

(** The newline character as a string. *)
Definition nl : string := String "010" EmptyString.

(** The double-quote character as a string. *)
Definition dquote : string := String (ascii_of_nat 34) EmptyString.

End PyStr.

(* ===================================================================== *)
(** * Exceptions and state                                                *)
(* ===================================================================== *)

(** A computation either returns or raises.  [Raise e] stands for a raised
    instance of [Exception], [e] being what [str(e)] yields: it is the only
    thing the handlers in the sources read.  The state is threaded through
    both outcomes, since what a call did before raising stays done. *)

Module Effects.

Inductive result (A : Type) : Type :=
| Ok (a : A)
| Raise (e : string).
Arguments Ok {A} a.
Arguments Raise {A} e.

Definition M (S A : Type) : Type := S -> result A * S.

Definition ret {S A} (a : A) : M S A := fun s => (Ok a, s).

Definition raise {S A} (e : string) : M S A := fun s => (Raise e, s).

Definition bind {S A B} (m : M S A) (k : A -> M S B) : M S B :=
  fun s =>
    match m s with
    | (Ok a, s') => k a s'
    | (Raise e, s') => (Raise e, s')
    end.

(** [try: body  except Exception as e: handler(str(e))] *)
Definition try_except {S A} (body : M S A) (handler : string -> M S A) : M S A :=
  fun s =>
    match body s with
    | (Ok a, s') => (Ok a, s')
    | (Raise e, s') => handler e s'
    end.

(** Run a computation on a component of the state. *)
Definition zoom {S T A} (get : S -> T) (set : T -> S -> S) (m : M T A) : M S A :=
  fun s => let (r, t') := m (get s) in (r, set t' s).

Definition modify {S} (f : S -> S) : M S unit := fun s => (Ok tt, f s).

End Effects.

Declare Scope py_scope.
Delimit Scope py_scope with py.
Notation "x <- m ;; k" := (Effects.bind m (fun x => k))
  (at level 100, m at next level, right associativity) : py_scope.
Notation "m ;;; k" := (Effects.bind m (fun _ => k))
  (at level 100, right associativity) : py_scope.

(* ===================================================================== *)
(** * Python values                                                       *)
(* ===================================================================== *)

(** The values a tool call carries: what [json.loads] produces.  A [dict] is
    an association list in insertion order, a finite [float] is the rational
    it denotes. *)
Module Py.
Inductive value :=
| VNone
| VBool (b : bool)
| VInt (z : Z)
| VFloat (q : Q)
| VStr (s : string)
| VList (l : list value)
| VDict (d : list (string * value)).

(** [d.get(k)] on a dict kept as an association list. *)
Fixpoint assoc {A} (k : string) (d : list (string * A)) : option A :=
  match d with
  | [] => None
  | (k', v) :: r => if String.eqb k k' then Some v else assoc k r
  end.

(** The number a numeric value denotes; [bool] is a subclass of [int]. *)
Definition as_Q (v : value) : option Q :=
  match v with
  | VBool b => Some (inject_Z (if b then 1 else 0))
  | VInt z => Some (inject_Z z)
  | VFloat q => Some q
  | _ => None
  end.

(** [a == b]: numbers compare by value across bool, int and float, lists
    element by element, dicts key by key whatever the order. *)
Fixpoint eq (a b : value) {struct a} : bool :=
  match as_Q a, as_Q b with
  | Some x, Some y => Qeq_bool x y
  | _, _ =>
    match a, b with
    | VNone, VNone => true
    | VStr s, VStr t => String.eqb s t
    | VList l, VList m =>
        (fix go (l m : list value) : bool :=
           match l, m with
           | [], [] => true
           | x :: l', y :: m' => eq x y && go l' m'
           | _, _ => false
           end) l m
    | VDict d, VDict e =>
        Nat.eqb (List.length d) (List.length e)
        && (fix go (d : list (string * value)) : bool :=
              match d with
              | [] => true
              | (k, x) :: d' =>
                  match assoc k e with
                  | Some y => eq x y && go d'
                  | None => false
                  end
              end) d
    | _, _ => false
    end
  end.

(** [v in l] for a list [l]. *)
Definition contains (l : list value) (v : value) : bool :=
  existsb (fun x => eq x v) l.
End Py.

(* ===================================================================== *)
(** * nanobot/bus/events.py                                               *)
(* ===================================================================== *)

Module Events.

Record InboundMessage := {
  channel : string;
  sender_id : string;
  chat_id : string;
  content : string;
  timestamp : Z;
  media : list string;
  metadata : list (string * Py.value);
}.

Record OutboundMessage := {
  out_channel : string;
  out_chat_id : string;
  out_content : string;
  reply_to : option string;
  out_media : list string;
  out_metadata : list (string * Py.value);
}.

(** [InboundMessage.session_key]: f"{self.channel}:{self.chat_id}" *)
Definition session_key (m : InboundMessage) : string :=
  channel m ++ ":" ++ chat_id m.

End Events.

(* ===================================================================== *)
(** * nanobot/utils/helpers.py                                            *)
(* ===================================================================== *)

Module Helpers.

(** [parse_session_key(key)] *)
Definition parse_session_key (key : string) : string * string :=
  match PyStr.split1 ":" key with
  | [p0; p1] => (p0, p1)
  | _ => (key, "")
  end.

End Helpers.

(* ===================================================================== *)
(** * nanobot/heartbeat/service.py                                        *)
(* ===================================================================== *)

Module Heartbeat.

Definition HEARTBEAT_PROMPT : string :=
  PyStr.join PyStr.nl
    ["读取你工作区中的 HEARTBEAT.md（如果存在）。";
     "遵循其中列出的任何指令或任务。";
     "如果不需要关注任何事情，只需回复：HEARTBEAT_OK"].

Definition skip_patterns : list string := ["- [ ]"; "* [ ]"; "- [x]"; "* [x]"].

(** The test made on each stripped line of the loop in
    [_is_heartbeat_empty]: true when the line is skipped. *)
Definition skipped (line : string) : bool :=
  negb (PyStr.truthy line)
  || PyStr.startswith line "#"
  || PyStr.startswith line "<!--"
  || bool_decide (line ∈ skip_patterns).

(** The [for line in content.split("\n")] loop: the first line that is not
    skipped returns False, running off the end returns True. *)
Fixpoint scan_lines (lines : list string) : bool :=
  match lines with
  | [] => true
  | line :: rest =>
      let line := PyStr.strip line in
      if skipped line then scan_lines rest else false
  end.

(** [_is_heartbeat_empty(content)], [content : str | None]. *)
Definition _is_heartbeat_empty (content : option string) : bool :=
  match content with
  | None => true
  | Some c =>
      if negb (PyStr.truthy c) then true
      else scan_lines (PyStr.split "010" c)
  end.

(** What the service finds at [workspace / "HEARTBEAT.md"]. *)
Inductive heartbeat_file :=
| Absent
| Unreadable
| Readable (text : string).

(** [_read_heartbeat_file]: [exists()] then [read_text()], any exception
    of the read gives [None]. *)
Definition _read_heartbeat_file (f : heartbeat_file) : option string :=
  match f with
  | Absent => None
  | Unreadable => None
  | Readable text => Some text
  end.

(** [_tick]: the list of prompts handed to [on_heartbeat] during one tick.
    [on_heartbeat] is the optional callback of the service; its response
    only selects a log line. *)
Definition _tick (on_heartbeat : option (string -> string)) (f : heartbeat_file)
  : list string :=
  let content := _read_heartbeat_file f in
  if _is_heartbeat_empty content then []
  else match on_heartbeat with
       | Some _ => [HEARTBEAT_PROMPT]
       | None => []
       end.

End Heartbeat.

(* ===================================================================== *)
(** * nanobot/agent/tools/base.py                                         *)
(* ===================================================================== *)

Module Base.
Import Py.

(** A number written in a schema: an [int] or a [float]. *)
Inductive number := NInt (z : Z) | NFloat (q : Q).

Definition num_value (n : number) : value :=
  match n with NInt z => VInt z | NFloat q => VFloat q end.

Definition num_Q (n : number) : Q :=
  match n with NInt z => inject_Z z | NFloat q => q end.

(** The JSON-Schema-shaped dict a tool gives as [parameters], by the keys
    [_validate] reads; a key the dict lacks is [None].  Each key holds what
    JSON Schema puts there: a type name, a list of values, numbers, lengths,
    a dict of schemas, a list of names, a schema. *)
Inductive schema := Schema {
  s_type : option string;
  s_enum : option (list value);
  s_minimum : option number;
  s_maximum : option number;
  s_minLength : option Z;
  s_maxLength : option Z;
  s_properties : option (list (string * schema));
  s_required : option (list string);
  s_items : option schema;
}.

Definition empty_schema : schema :=
  Schema None None None None None None None None None.

(** [Tool._TYPE_MAP], each class given by its [isinstance] test; [bool]
    is a subclass of [int], so a boolean is an instance of "integer" and
    of "number". *)
Definition _TYPE_MAP (t : string) : option (value -> bool) :=
  if String.eqb t "string" then Some (fun v => match v with VStr _ => true | _ => false end)
  else if String.eqb t "integer" then
    Some (fun v => match v with VInt _ | VBool _ => true | _ => false end)
  else if String.eqb t "number" then
    Some (fun v => match v with VInt _ | VBool _ | VFloat _ => true | _ => false end)
  else if String.eqb t "boolean" then Some (fun v => match v with VBool _ => true | _ => false end)
  else if String.eqb t "array" then Some (fun v => match v with VList _ => true | _ => false end)
  else if String.eqb t "object" then Some (fun v => match v with VDict _ => true | _ => false end)
  else None.

(** [t == name] *)
Definition type_is (t : option string) (name : string) : bool :=
  match t with Some s => String.eqb s name | None => false end.

(** [t in self._TYPE_MAP and not isinstance(val, self._TYPE_MAP[t])] *)
Definition type_mismatch (t : option string) (val : value) : bool :=
  match t with
  | Some s => match _TYPE_MAP s with
              | Some isinst => negb (isinst val)
              | None => false
              end
  | None => false
  end.

(** [path + '.' + k if path else k] *)
Definition sub_path (path k : string) : string :=
  if PyStr.truthy path then path ++ "." ++ k else k.

(** The path of item [i]: the index in brackets, after [path] if any. *)
Definition item_path (path : string) (i : nat) : string :=
  if PyStr.truthy path then path ++ "[" ++ pretty i ++ "]" else "[" ++ pretty i ++ "]".

Section Validate.
(** How an f-string renders a value of the schema. *)
Variable py_str : value -> string.

(** The enum check. *)
Definition enum_errors (sch : schema) (val : value) (label : string) : list string :=
  match s_enum sch with
  | Some e => if negb (contains e val) then [label ++ " 必须是 " ++ py_str (VList e) ++ " 之一"] else []
  | None => []
  end.

(** [val < n] and [val > n] on numbers. *)
Definition lt_num (val : value) (n : number) : bool :=
  match as_Q val with
  | Some q => negb (Qle_bool (num_Q n) q)
  | None => false
  end.

Definition gt_num (val : value) (n : number) : bool :=
  match as_Q val with
  | Some q => negb (Qle_bool q (num_Q n))
  | None => false
  end.

(** The minimum and maximum checks. *)
Definition bound_errors (sch : schema) (val : value) (label : string) : list string :=
  (match s_minimum sch with
   | Some m => if lt_num val m then [label ++ " 必须 >= " ++ py_str (num_value m)] else []
   | None => []
   end) ++
  (match s_maximum sch with
   | Some m => if gt_num val m then [label ++ " 必须 <= " ++ py_str (num_value m)] else []
   | None => []
   end).

Definition str_len (val : value) : Z :=
  match val with VStr s => Z.of_nat (PyStr.len s) | _ => 0 end.

(** The minLength and maxLength checks. *)
Definition length_errors (sch : schema) (val : value) (label : string) : list string :=
  (match s_minLength sch with
   | Some m => if (str_len val <? m)%Z then [label ++ " 至少 " ++ py_str (VInt m) ++ " 个字符"] else []
   | None => []
   end) ++
  (match s_maxLength sch with
   | Some m => if (m <? str_len val)%Z then [label ++ " 最多 " ++ py_str (VInt m) ++ " 个字符"] else []
   | None => []
   end).

Definition has_key (k : string) (d : list (string * value)) : bool :=
  match assoc k d with Some _ => true | None => false end.

(** The loop over [schema.get("required", [])]. *)
Fixpoint required_errors (req : list string) (d : list (string * value)) (path : string)
  : list string :=
  match req with
  | [] => []
  | k :: r =>
      (if negb (has_key k d) then ["缺少必需的 " ++ sub_path path k] else [])
      ++ required_errors r d path
  end.

(** [Tool._validate].  The two inner loops run over [val.items()] and over
    [enumerate(val)]. *)
Fixpoint _validate (val : value) (sch : schema) (path : string) {struct val} : list string :=
  let t := s_type sch in
  let label := if PyStr.truthy path then path else "parameter" in
  if type_mismatch t val then [label ++ " 应该是 " ++ default "" t ++ " 类型"]
  else
    (enum_errors sch val label
     ++ (if type_is t "integer" || type_is t "number" then bound_errors sch val label else [])
     ++ (if type_is t "string" then length_errors sch val label else []))
    ++ (if type_is t "object" then
          match val with
          | VDict d =>
              let props := default [] (s_properties sch) in
              required_errors (default [] (s_required sch)) d path
              ++ (fix each (items : list (string * value)) : list string :=
                    match items with
                    | [] => []
                    | (k, v) :: rest =>
                        (match assoc k props with
                         | Some sk => _validate v sk (sub_path path k)
                         | None => []
                         end ++ each rest)%list
                    end) d
          | _ => []
          end
        else [])
    ++ (if type_is t "array" then
          match s_items sch, val with
          | Some si, VList l =>
              (fix each (i : nat) (items : list value) : list string :=
                 match items with
                 | [] => []
                 | item :: rest =>
                     (_validate item si (item_path path i) ++ each (S i) rest)%list
                 end) 0%nat l
          | _, _ => []
          end
        else []).
End Validate.
(** The classes of tools.  The orchestration core names seven subclasses of
    [Tool]: the six it imports for a subagent and [SpawnTool] of
    nanobot/agent/tools/spawn.py.  [MessageTool] stands for the end-user
    messaging capability of the spec, [OtherTool] for any other subclass. *)
Inductive tool_class :=
| ReadFileTool | WriteFileTool | ListDirTool
| ExecTool
| WebSearchTool | WebFetchTool
| SpawnTool
| MessageTool
| OtherTool.

#[global] Instance tool_class_eq_dec : EqDecision tool_class.
Proof. solve_decision. Defined.

(** An instance of a subclass of [Tool].  [execute] receives the keyword
    arguments and acts on the world [W] outside the orchestration core (files,
    processes, network); it returns its text or raises. *)
Record Tool (W : Type) := {
  cls : tool_class;
  name : string;
  description : string;
  parameters : option schema;
  execute : list (string * value) -> Effects.M W string;
}.
Arguments cls {W} _.
Arguments name {W} _.
Arguments description {W} _.
Arguments parameters {W} _.
Arguments execute {W} _ _ _.

(** The schema with its "type" key set to [t]. *)
Definition with_type (sch : schema) (t : string) : schema :=
  Schema (Some t) (s_enum sch) (s_minimum sch) (s_maximum sch) (s_minLength sch)
         (s_maxLength sch) (s_properties sch) (s_required sch) (s_items sch).

Section ValidateParams.
Variable py_str : value -> string.
(** What the conversion [!r] of an f-string gives. *)
Variable py_repr : value -> string.

(** [Tool.validate_params]: the list of errors, or [ValueError]. *)
Definition validate_params {W} (self : Tool W) (params : value)
  : Effects.result (list string) :=
  let sch := default empty_schema (parameters self) in
  if negb (String.eqb (default "object" (s_type sch)) "object") then
    Effects.Raise ("Schema 必须是 object 类型，当前为 "
                   ++ py_repr (match s_type sch with Some t => VStr t | None => VNone end))
  else Effects.Ok (_validate py_str params (with_type sch "object") "").
End ValidateParams.

(** [Tool.to_schema]: the OpenAI function descriptor. *)
Record tool_definition := {
  d_type : string;
  d_name : string;
  d_description : string;
  d_parameters : option schema;
}.

Definition to_schema {W} (self : Tool W) : tool_definition :=
  {| d_type := "function";
     d_name := name self;
     d_description := description self;
     d_parameters := parameters self |}.

End Base.

(* ===================================================================== *)
(** * nanobot/agent/tools/registry.py                                     *)
(* ===================================================================== *)

Module Registry.
Import Py Base Effects.

(** What a run leaves behind besides the world: every call of a tool's
    [execute], in order, with the keyword arguments it received. *)
Record invocation := { inv_tool : string; inv_kwargs : list (string * value) }.

Record store (W : Type) := {
  world : W;
  invoked : list invocation;
}.
Arguments world {W} _.
Arguments invoked {W} _.

Section ToolRegistry.
Context {W : Type}.
Variable py_str : value -> string.
Variable py_repr : value -> string.

(** [self._tools : dict[str, Tool]] *)
Abbreviation ToolRegistry := (gmap string (Tool W)).

Definition new : ToolRegistry := ∅.

Definition register (tool : Tool W) (self : ToolRegistry) : ToolRegistry :=
  <[name tool := tool]> self.

Definition unregister (n : string) (self : ToolRegistry) : ToolRegistry :=
  delete n self.

Definition get (n : string) (self : ToolRegistry) : option (Tool W) := self !! n.

Definition has (n : string) (self : ToolRegistry) : bool :=
  bool_decide (is_Some (self !! n)).

(** The definitions come in the order of the map, not in the order of
    registration the Python dict keeps; nothing below depends on it. *)
Definition get_definitions (self : ToolRegistry) : list tool_definition :=
  (fun kv => to_schema kv.2) <$> map_to_list self.

Definition tool_names (self : ToolRegistry) : list string :=
  (map_to_list self).*1.

Definition len (self : ToolRegistry) : nat := size self.

(** [await tool.execute] on the unpacked [params]: the call is recorded,
    then the tool acts on the world.  Unpacking anything but a dict raises
    [TypeError]. *)
Definition call_execute (tool : Tool W) (params : value) : M (store W) string :=
  match params with
  | VDict kwargs =>
      (modify (fun s => {| world := world s;
                           invoked := invoked s ++ [{| inv_tool := name tool;
                                                       inv_kwargs := kwargs |}] |}) ;;;
       zoom world (fun w s => {| world := w; invoked := invoked s |})
            (execute tool kwargs))%py
  | _ => raise "argument after ** must be a mapping"
  end.

(** [ToolRegistry.execute] *)
Definition execute (self : ToolRegistry) (n : string) (params : value)
  : M (store W) string :=
  match self !! n with
  | None => ret ("错误：未找到工具 '" ++ n ++ "'")
  | Some tool =>
      try_except
        (match validate_params py_str py_repr tool params with
         | Raise e => raise e
         | Ok errors =>
             match errors with
             | _ :: _ =>
                 ret ("错误：工具 '" ++ n ++ "' 的参数无效：" ++ PyStr.join "；" errors)
             | [] => call_execute tool params
             end
         end)
        (fun e => ret ("执行 " ++ n ++ " 时出错：" ++ e))
  end.

End ToolRegistry.
End Registry.

(* ===================================================================== *)
(** * nanobot/providers                                                   *)
(* ===================================================================== *)

Module Provider.
Import Py Base Effects.

(** Modelled from the spec: the declarations of nanobot/providers/base.py,
    which is not among the sources.  Section 6 gives the response as
    {content, tool_calls[], finish_reason, usage}, each tool call with an id,
    a capability name and a parsed argument mapping; the constructor calls in
    litellm_provider.py fix the defaults (no tool calls, no usage). *)
Record ToolCallRequest := {
  tc_id : string;
  tc_name : string;
  tc_arguments : value;
}.

Record LLMResponse := {
  content : option string;
  tool_calls : list ToolCallRequest;
  finish_reason : string;
  usage : list (string * Z);
}.

(** Modelled from the spec: [LLMResponse.has_tool_calls] of the same missing
    file; "the response carries capability-invocation requests". *)
Definition has_tool_calls (r : LLMResponse) : bool :=
  match tool_calls r with [] => false | _ :: _ => true end.

(** ** nanobot/providers/litellm_provider.py *)

(** The object LiteLLM's [acompletion] returns, as far as [_parse_response]
    reads it. *)
Record raw_function := {
  f_name : string;
  f_arguments : string + value;
}.

Record raw_tool_call := {
  r_id : string;
  r_function : raw_function;
}.

Record raw_message := {
  m_content : option string;
  m_tool_calls : option (list raw_tool_call);
}.

Record raw_choice := {
  c_message : raw_message;
  c_finish_reason : option string;
}.

Record raw_usage := {
  prompt_tokens : Z;
  completion_tokens : Z;
  total_tokens : Z;
}.

Record raw_response := {
  choices : list raw_choice;
  r_usage : option raw_usage;
}.

(** The keyword arguments handed to [acompletion]. *)
Record completion_kwargs := {
  k_model : string;
  k_messages : list value;
  k_max_tokens : Z;
  k_temperature : Q;
  k_api_base : option string;
  k_tools : option (list tool_definition);
  k_tool_choice : option string;
}.

Record LiteLLMProvider := {
  api_key : option string;
  api_base : option string;
  default_model : string;
  is_openrouter : bool;
  is_vllm : bool;
}.

Definition opt_truthy (o : option string) : bool :=
  match o with Some s => PyStr.truthy s | None => false end.

(** [LiteLLMProvider.__init__], without the environment variables it sets. *)
Definition init (key base : option string) (model : string) : LiteLLMProvider :=
  let openrouter :=
    match key with
    | Some k => PyStr.truthy k && PyStr.startswith k "sk-or-"
    | None => false
    end
    || match base with
       | Some b => PyStr.truthy b && PyStr.contains b "openrouter"
       | None => false
       end in
  {| api_key := key;
     api_base := base;
     default_model := model;
     is_openrouter := openrouter;
     is_vllm := opt_truthy base && negb openrouter |}.

(** The model-name rewriting at the head of [chat]. *)
Definition resolve_model (self : LiteLLMProvider) (model : option string) : string :=
  let model := if opt_truthy model then default "" model else default_model self in
  let model :=
    if is_openrouter self && negb (PyStr.startswith model "openrouter/")
    then "openrouter/" ++ model else model in
  let model :=
    if (PyStr.contains (PyStr.lower model) "glm" || PyStr.contains (PyStr.lower model) "zhipu")
       && negb (PyStr.startswith model "zhipu/" || PyStr.startswith model "zai/"
                || PyStr.startswith model "openrouter/")
    then "zai/" ++ model else model in
  let model :=
    if (PyStr.contains (PyStr.lower model) "qwen"
        || PyStr.contains (PyStr.lower model) "dashscope")
       && negb (PyStr.startswith model "dashscope/" || PyStr.startswith model "openrouter/")
    then "dashscope/" ++ model else model in
  let model :=
    if (PyStr.contains (PyStr.lower model) "moonshot"
        || PyStr.contains (PyStr.lower model) "kimi")
       && negb (PyStr.startswith model "moonshot/" || PyStr.startswith model "openrouter/")
    then "moonshot/" ++ model else model in
  let model :=
    if PyStr.contains (PyStr.lower model) "gemini" && negb (PyStr.startswith model "gemini/")
    then "gemini/" ++ model else model in
  if is_vllm self then "hosted_vllm/" ++ model else model.

Definition build_kwargs (self : LiteLLMProvider) (messages : list value)
    (tools : option (list tool_definition)) (model : option string)
    (max_tokens : Z) (temperature : Q) : completion_kwargs :=
  let model := resolve_model self model in
  let temperature :=
    if PyStr.contains (PyStr.lower model) "kimi-k2.5" then 1%Q else temperature in
  let has_tools := match tools with Some (_ :: _) => true | _ => false end in
  {| k_model := model;
     k_messages := messages;
     k_max_tokens := max_tokens;
     k_temperature := temperature;
     k_api_base := if opt_truthy (api_base self) then api_base self else None;
     k_tools := if has_tools then tools else None;
     k_tool_choice := if has_tools then Some "auto" else None |}.

Section LiteLLM.
Context {W : Type}.
(** [json.loads]; [None] stands for [JSONDecodeError]. *)
Variable json_loads : string -> option value.
(** [litellm.acompletion], the completion backend. *)
Variable acompletion : completion_kwargs -> M W raw_response.

Definition parse_tool_call (tc : raw_tool_call) : ToolCallRequest :=
  let args :=
    match f_arguments (r_function tc) with
    | inl text =>
        match json_loads text with
        | Some v => v
        | None => VDict [("raw", VStr text)]
        end
    | inr v => v
    end in
  {| tc_id := r_id tc; tc_name := f_name (r_function tc); tc_arguments := args |}.

(** [LiteLLMProvider._parse_response]; [response.choices[0]] raises
    [IndexError] on an empty list. *)
Definition _parse_response (response : raw_response) : result LLMResponse :=
  match choices response with
  | [] => Raise "list index out of range"
  | choice :: _ =>
      let message := c_message choice in
      let calls :=
        match m_tool_calls message with
        | Some tcs => parse_tool_call <$> tcs
        | None => []
        end in
      let usage :=
        match r_usage response with
        | Some u => [("prompt_tokens", prompt_tokens u);
                     ("completion_tokens", completion_tokens u);
                     ("total_tokens", total_tokens u)]
        | None => []
        end in
      Ok {| content := m_content message;
            tool_calls := calls;
            finish_reason :=
              match c_finish_reason choice with
              | Some r => if PyStr.truthy r then r else "stop"
              | None => "stop"
              end;
            usage := usage |}
  end.

(** [LiteLLMProvider.chat] *)
Definition chat (self : LiteLLMProvider) (messages : list value)
    (tools : option (list tool_definition)) (model : option string)
    (max_tokens : Z) (temperature : Q) : M W LLMResponse :=
  let kwargs := build_kwargs self messages tools model max_tokens temperature in
  try_except
    (response <- acompletion kwargs ;;
     match _parse_response response with
     | Ok r => ret r
     | Raise e => raise e
     end)%py
    (fun e => ret {| content := Some ("调用 LLM 时出错：" ++ e);
                     tool_calls := [];
                     finish_reason := "error";
                     usage := [] |}).
End LiteLLM.
End Provider.

(* ===================================================================== *)
(** * nanobot/bus                                                         *)
(* ===================================================================== *)

Module Bus.
Import Events.

(** Modelled from the spec: [MessageBus] of nanobot/bus/queue.py, which is
    not among the sources.  Section 4.2: an inbound and an outbound queue,
    each delivered in publish order; publishing appends and cannot fail. *)
Record MessageBus := {
  inbound : list InboundMessage;
  outbound : list OutboundMessage;
}.

Definition empty : MessageBus := {| inbound := []; outbound := [] |}.

Definition publish_inbound (msg : InboundMessage) (bus : MessageBus) : MessageBus :=
  {| inbound := inbound bus ++ [msg]; outbound := outbound bus |}.

Definition publish_outbound (msg : OutboundMessage) (bus : MessageBus) : MessageBus :=
  {| inbound := inbound bus; outbound := outbound bus ++ [msg] |}.

End Bus.

(* ===================================================================== *)
(** * nanobot/agent/subagent.py                                           *)
(* ===================================================================== *)

Module Subagent.
Import Py Base Effects Provider.

(** The arguments of the constructor calls in [_run_subagent]. *)
Inductive ctor_args :=
| FsArgs (allowed_dir : option string)
| ExecArgs (working_dir : string) (timeout : Z) (restrict_to_workspace : bool)
| WebSearchArgs (api_key : option string)
| NoArgs.

Record origin := {
  o_channel : string;
  o_chat_id : string;
}.

(** The state a subagent run acts on: the world and the record of tool
    invocations, the message bus, and the transcripts sent to the
    completion backend, one per call of [provider.chat]. *)
Record state (W : Type) := {
  store : Registry.store W;
  bus : Bus.MessageBus;
  chats : list (list value);
}.
Arguments store {W} _.
Arguments bus {W} _.
Arguments chats {W} _.

Record SubagentManager (W : Type) := {
  provider : list value -> list tool_definition -> string -> M W LLMResponse;
  workspace : string;
  model : string;
  brave_api_key : option string;
  exec_timeout : Z;
  restrict_to_workspace : bool;
}.
Arguments provider {W} _ _ _ _ _.
Arguments workspace {W} _.
Arguments model {W} _.
Arguments brave_api_key {W} _.
Arguments exec_timeout {W} _.
Arguments restrict_to_workspace {W} _.

Definition max_iterations : nat := 15.

Definition no_final_response : string := "任务已完成，但未生成最终响应。".

Section Manager.
Context {W : Type}.
Variable py_str : value -> string.
Variable py_repr : value -> string.
(** [json.dumps] *)
Variable json_dumps : value -> string.
(** [datetime.now()] *)
Variable now : W -> Z.
(** The bodies of the tool classes of nanobot/agent/tools/filesystem.py,
    shell.py and web.py, which are not among the sources: what an instance
    of the class built with these arguments is named, describes and does. *)
Variable class_body : tool_class -> ctor_args -> Tool W.

(** [C(args)]: an instance of class [C]. *)
Definition construct (c : tool_class) (a : ctor_args) : Tool W :=
  let b := class_body c a in
  {| cls := c;
     name := name b;
     description := description b;
     parameters := parameters b;
     execute := execute b |}.

Definition on_store {A} (m : M (Registry.store W) A) : M (state W) A :=
  zoom store (fun st s => {| store := st; bus := bus s; chats := chats s |}) m.

Definition on_world {A} (m : M W A) : M (state W) A :=
  on_store (zoom Registry.world
              (fun w st => {| Registry.world := w;
                              Registry.invoked := Registry.invoked st |}) m).

(** The registry built at the head of [_run_subagent]. *)
Definition build_tools (self : SubagentManager W) : gmap string (Tool W) :=
  let allowed_dir :=
    if restrict_to_workspace self then Some (workspace self) else None in
  let tools := Registry.new in
  let tools := Registry.register (construct ReadFileTool (FsArgs allowed_dir)) tools in
  let tools := Registry.register (construct WriteFileTool (FsArgs allowed_dir)) tools in
  let tools := Registry.register (construct ListDirTool (FsArgs allowed_dir)) tools in
  let tools :=
    Registry.register
      (construct ExecTool (ExecArgs (workspace self) (exec_timeout self)
                                    (restrict_to_workspace self))) tools in
  let tools :=
    Registry.register (construct WebSearchTool (WebSearchArgs (brave_api_key self))) tools in
  Registry.register (construct WebFetchTool NoArgs) tools.

(** [_build_subagent_prompt] *)
Definition _build_subagent_prompt (self : SubagentManager W) (task : string) : string :=
  PyStr.join PyStr.nl
    ["# 子代理";
     "";
     "你是由主代理生成来完成特定任务的子代理。";
     "";
     "## 你的任务";
     task;
     "";
     "## 规则";
     "1. 保持专注 - 只完成分配的任务，不做其他事情";
     "2. 你的最终响应将报告回主代理";
     "3. 不要发起对话或承担旁支任务";
     "4. 在你的发现中要简洁但信息丰富";
     "";
     "## 你能做什么";
     "- 在工作区中读写文件";
     "- 执行 shell 命令";
     "- 搜索网页并获取网页内容";
     "- 彻底完成任务";
     "";
     "## 你不能做什么";
     "- 直接向用户发送消息（无消息工具可用）";
     "- 生成其他子代理";
     "- 访问主代理的对话历史";
     "";
     "## 工作区";
     "你的工作区位于：" ++ workspace self;
     "";
     "当你完成任务时，提供你的发现或行动的清晰总结。"].

Definition status_text (status : string) : string :=
  if String.eqb status "ok" then "成功完成" else "失败".

Definition announce_content (label task result status : string) : string :=
  PyStr.join PyStr.nl
    ["[子代理 '" ++ label ++ "' " ++ status_text status ++ "]";
     "";
     "任务：" ++ task;
     "";
     "结果：";
     result;
     "";
     "自然地为用户总结。保持简短（1-2 句话）。不要提及技术细节如" ++ PyStr.dquote
       ++ "子代理" ++ PyStr.dquote ++ "或任务 ID。"].

(** [_announce_result] *)
Definition _announce_result (task_id label task result : string) (o : origin)
    (status : string) : M (state W) unit :=
  fun s =>
    let msg :=
      {| Events.channel := "system";
         Events.sender_id := "subagent";
         Events.chat_id := o_channel o ++ ":" ++ o_chat_id o;
         Events.content := announce_content label task result status;
         Events.timestamp := now (Registry.world (store s));
         Events.media := [];
         Events.metadata := [] |} in
    (Ok tt, {| store := store s;
               bus := Bus.publish_inbound msg (bus s);
               chats := chats s |}).

(** One entry of [tool_call_dicts]. *)
Definition tool_call_dict (tc : ToolCallRequest) : value :=
  VDict [("id", VStr (tc_id tc));
         ("type", VStr "function");
         ("function", VDict [("name", VStr (tc_name tc));
                             ("arguments", VStr (json_dumps (tc_arguments tc)))])].

Definition assistant_message (response : LLMResponse) : value :=
  VDict [("role", VStr "assistant");
         ("content", VStr (default "" (content response)));
         ("tool_calls", VList (tool_call_dict <$> tool_calls response))].

Definition tool_message (tc : ToolCallRequest) (result : string) : value :=
  VDict [("role", VStr "tool");
         ("tool_call_id", VStr (tc_id tc));
         ("name", VStr (tc_name tc));
         ("content", VStr result)].

(** [for tool_call in response.tool_calls: ...] *)
Fixpoint execute_tool_calls (tools : gmap string (Tool W)) (calls : list ToolCallRequest)
    (messages : list value) : M (state W) (list value) :=
  match calls with
  | [] => ret messages
  | tool_call :: rest =>
      (result <- on_store (Registry.execute py_str py_repr tools
                             (tc_name tool_call) (tc_arguments tool_call)) ;;
       execute_tool_calls tools rest (messages ++ [tool_message tool_call result]))%py
  end.

(** [await self.provider.chat(messages=..., tools=..., model=...)] *)
Definition provider_chat (self : SubagentManager W) (tools : gmap string (Tool W))
    (messages : list value) : M (state W) LLMResponse :=
  (modify (fun s => {| store := store s; bus := bus s;
                       chats := chats s ++ [messages] |}) ;;;
   on_world (provider self messages (Registry.get_definitions tools) (model self)))%py.

(** [while iteration < max_iterations: ...], by recursion on
    [max_iterations - iteration].  Returns the final value of [iteration]
    and of [final_result]. *)
Fixpoint agent_loop (self : SubagentManager W) (tools : gmap string (Tool W))
    (remaining iteration : nat) (messages : list value)
  : M (state W) (nat * option string) :=
  match remaining with
  | O => ret (iteration, None)
  | S remaining' =>
      let iteration := S iteration in
      (response <- provider_chat self tools messages ;;
       if has_tool_calls response then
         messages <- execute_tool_calls tools (tool_calls response)
                       (messages ++ [assistant_message response]) ;;
         agent_loop self tools remaining' iteration messages
       else ret (iteration, content response))%py
  end.

(** The two-message transcript a run starts from. *)
Definition initial_messages (self : SubagentManager W) (task : string) : list value :=
  let system_prompt := _build_subagent_prompt self task in
  [VDict [("role", VStr "system"); ("content", VStr system_prompt)];
   VDict [("role", VStr "user"); ("content", VStr task)]].

(** The body of the [try] in [_run_subagent], up to the number of
    iterations made and the result announced. *)
Definition run_body (self : SubagentManager W) (task_id task label : string) (o : origin)
  : M (state W) nat :=
  let tools := build_tools self in
  let messages := initial_messages self task in
  (out <- agent_loop self tools max_iterations 0 messages ;;
   let iteration := out.1 in
   let final_result := default no_final_response out.2 in
   _announce_result task_id label task final_result o "ok" ;;;
   ret iteration)%py.

(** [_run_subagent] *)
Definition _run_subagent (self : SubagentManager W) (task_id task label : string)
    (o : origin) : M (state W) unit :=
  try_except
    (run_body self task_id task label o ;;; ret tt)%py
    (fun e => _announce_result task_id label task ("错误：" ++ e) o "error").

End Manager.
End Subagent.

(* ===================================================================== *)
(** * nanobot/cron                                                        *)
(* ===================================================================== *)

Module Cron.
Import Effects.

(** ** nanobot/cron/types.py *)

Inductive schedule_kind := At | Every | CronExpr.

Record CronSchedule := {
  kind : schedule_kind;
  at_ms : option Z;
  every_ms : option Z;
  expr : option string;
  tz : option string;
}.

Inductive payload_kind := system_event | agent_turn.

Record CronPayload := {
  p_kind : payload_kind;
  message : string;
  deliver : bool;
  p_channel : option string;
  to : option string;
}.

Inductive run_status := ok | error | skipped.

Record CronJobState := {
  next_run_at_ms : option Z;
  last_run_at_ms : option Z;
  last_status : option run_status;
  last_error : option string;
}.

Record CronJob := {
  id : string;
  name : string;
  enabled : bool;
  schedule : CronSchedule;
  payload : CronPayload;
  state : CronJobState;
  created_at_ms : Z;
  updated_at_ms : Z;
  delete_after_run : bool;
}.

Record CronStore := {
  version : Z;
  jobs : list CronJob;
}.

(** ** The service *)

Section Service.
(** The next fire time of a cron expression after a given instant, in a
    time zone; the evaluation of cron expressions is outside the core. *)
Variable cron_next : string -> option string -> Z -> option Z.
(** The registered callback [on_job]: the optional text it returns, or the
    error it raises. *)
Variable on_job : CronJob -> result (option string).

(** Modelled from the spec: the next-fire computation of [CronService] in
    nanobot/cron/service.py, which is not among the sources.  Section 4.4:
    for [at], next-run equals the absolute timestamp; for [every], next-run
    is now + interval; for [cron], it is computed from the expression
    relative to now in the job's time zone. *)
Definition compute_next_run (sch : CronSchedule) (now_ms : Z) : option Z :=
  match kind sch with
  | At => at_ms sch
  | Every => (fun p => now_ms + p)%Z <$> every_ms sch
  | CronExpr =>
      match expr sch with
      | Some e => cron_next e (tz sch) now_ms
      | None => None
      end
  end.

Definition with_state (job : CronJob) (en : bool) (st : CronJobState) (now_ms : Z)
  : CronJob :=
  {| id := id job; name := name job; enabled := en; schedule := schedule job;
     payload := payload job; state := st; created_at_ms := created_at_ms job;
     updated_at_ms := now_ms; delete_after_run := delete_after_run job |}.

(** Modelled from the spec: one fire of a job at time [now_ms], from the
    same missing file.  Section 4.4: the callback is invoked; last-run and
    last-status are updated, a failing callback giving status error with
    the captured text; a job of kind [at] is deleted if so flagged and
    disabled otherwise; any other job stays as enabled as it was and is
    re-armed from its schedule.  [None] stands for the deleted job. *)
Definition execute_job (job : CronJob) (now_ms : Z) : option CronJob :=
  let outcome := on_job job in
  let status := match outcome with Ok _ => ok | Raise _ => error end in
  let err := match outcome with Ok _ => None | Raise e => Some e end in
  match kind (schedule job) with
  | At =>
      if delete_after_run job then None
      else Some (with_state job false
                   {| next_run_at_ms := None; last_run_at_ms := Some now_ms;
                      last_status := Some status; last_error := err |} now_ms)
  | _ =>
      Some (with_state job (enabled job)
              {| next_run_at_ms := compute_next_run (schedule job) now_ms;
                 last_run_at_ms := Some now_ms;
                 last_status := Some status; last_error := err |} now_ms)
  end.

Definition find_job (job_id : string) (st : CronStore) : option CronJob :=
  List.find (fun j => String.eqb (id j) job_id) (jobs st).

Definition replace_job (job_id : string) (new : option CronJob) (st : CronStore)
  : CronStore :=
  {| version := version st;
     jobs := List.flat_map
               (fun j => if String.eqb (id j) job_id
                         then match new with Some j' => [j'] | None => [] end
                         else [j]) (jobs st) |}.

(** Modelled from the spec: [run_job(id, force)] of the same missing file.
    Section 4.4: with [force] the enabled flag is bypassed; the run updates
    last-run and last-status and re-arms the schedule.  The result says
    whether the job ran. *)
Definition run_job (job_id : string) (force : bool) (now_ms : Z) (st : CronStore)
  : bool * CronStore :=
  match find_job job_id st with
  | None => (false, st)
  | Some job =>
      if negb force && negb (enabled job) then (false, st)
      else (true, replace_job job_id (execute_job job now_ms) st)
  end.

(** Modelled from the spec: [add_job] of the same missing file.  Section 8:
    immediately after [add_job] the next-run of an [every] job equals the
    creation time plus its period. *)
Definition add_job (job_id job_name : string) (sch : CronSchedule) (msg : string)
    (dlv : bool) (recipient chan : option string) (now_ms : Z) (st : CronStore)
  : CronJob * CronStore :=
  let job :=
    {| id := job_id; name := job_name; enabled := true; schedule := sch;
       payload := {| p_kind := agent_turn; message := msg; deliver := dlv;
                     p_channel := chan; to := recipient |};
       state := {| next_run_at_ms := compute_next_run sch now_ms;
                   last_run_at_ms := None; last_status := None; last_error := None |};
       created_at_ms := now_ms; updated_at_ms := now_ms;
       delete_after_run := false |} in
  (job, {| version := version st; jobs := jobs st ++ [job] |}).

End Service.
End Cron.

(* ===================================================================== *)
(** * Slices and replacement on [str] and [list]                          *)
(* ===================================================================== *)

Module PySlice.

(** The first [n] code points of [s]: bytes are kept up to, and without,
    the lead byte of code point [n]. *)
Fixpoint take (n : nat) (s : string) : string :=
  match s with
  | EmptyString => EmptyString
  | String a r =>
      if PyStr.is_continuation a then String a (take n r)
      else match n with
           | O => EmptyString
           | S n' => String a (take n' r)
           end
  end.

(** [s[:k]]: a negative [k] counts from the end, and a bound before the
    start gives the empty string. *)
Definition upto (k : Z) (s : string) : string :=
  if (0 <=? k)%Z then take (Z.to_nat k) s
  else take (Z.to_nat (Z.of_nat (PyStr.len s) + k)) s.

(** [l[i:]] on a list, with the same reading of a negative [i]. *)
Definition list_from {A} (i : Z) (l : list A) : list A :=
  if (0 <=? i)%Z then drop (Z.to_nat i) l
  else drop (Z.to_nat (Z.of_nat (List.length l) + i)) l.

(** [s.replace(c, new)] for a one-character [c]. *)
Fixpoint replace_char (c : ascii) (new : string) (s : string) : string :=
  match s with
  | EmptyString => EmptyString
  | String a r =>
      if Ascii.eqb a c then new ++ replace_char c new r
      else String a (replace_char c new r)
  end.

End PySlice.

(* ===================================================================== *)
(** * nanobot/utils/helpers.py, the string helpers                        *)
(* ===================================================================== *)

Module StringHelpers.

(** [truncate_string(s, max_len, suffix)] *)
Definition truncate_string (s : string) (max_len : Z) (suffix : string) : string :=
  if (Z.of_nat (PyStr.len s) <=? max_len)%Z then s
  else PySlice.upto (max_len - Z.of_nat (PyStr.len suffix)) s ++ suffix.

(** The characters [safe_filename] replaces, in the order of its loop:
    the string of the source has these nine. *)
Definition unsafe : list ascii :=
  ["<"; ">"; ":"; ascii_of_nat 34; "/"; "\"; "|"; "?"; "*"]%char.

(** [safe_filename(name)] *)
Definition safe_filename (name : string) : string :=
  PyStr.strip (foldl (fun name char => PySlice.replace_char char "_" name) name unsafe).

Definition truncation_mark : string := PyStr.nl ++ "... (内容已截断)".

(** [sanitize_content(content, max_length)] *)
Definition sanitize_content (content : string) (max_length : Z) : string :=
  if (max_length <? Z.of_nat (PyStr.len content))%Z
  then PySlice.upto max_length content ++ truncation_mark
  else content.

End StringHelpers.

(* ===================================================================== *)
(** * nanobot/session/manager.py                                          *)
(* ===================================================================== *)

Module Session.
Import Py Effects.

(** [d[k] = v] on a dict: an existing key keeps its place. *)
Fixpoint dict_set (k : string) (v : value) (d : list (string * value))
  : list (string * value) :=
  match d with
  | [] => [(k, v)]
  | (k', v') :: r =>
      if String.eqb k k' then (k, v) :: r else (k', v') :: dict_set k v r
  end.

(** [{**d, **kwargs}] *)
Definition dict_update (d kwargs : list (string * value)) : list (string * value) :=
  foldl (fun d kv => dict_set kv.1 kv.2 d) d kwargs.

(** The dataclass [Session]; a datetime is its number of milliseconds. *)
Record Session := {
  key : string;
  messages : list (list (string * value));
  created_at : Z;
  updated_at : Z;
  metadata : list (string * value);
}.

(** [Session(key=key)], both default datetimes being [now]. *)
Definition new (k : string) (now : Z) : Session :=
  {| key := k; messages := []; created_at := now; updated_at := now; metadata := [] |}.

Section Methods.
(** [datetime.isoformat] *)
Variable isoformat : Z -> string.

(** [Session.add_message(role, content, **kwargs)], the clock being read
    at [t_msg] and then at [t_upd].  A keyword named like a positional
    parameter is refused by the call itself. *)
Definition add_message (t_msg t_upd : Z) (role content : string)
    (kwargs : list (string * value)) (self : Session) : result Session :=
  if existsb (fun kv => String.eqb kv.1 "role" || String.eqb kv.1 "content"
                        || String.eqb kv.1 "self") kwargs
  then Raise "add_message() got multiple values for argument"
  else
    let msg :=
      dict_update [("role", VStr role); ("content", VStr content);
                   ("timestamp", VStr (isoformat t_msg))] kwargs in
    Ok {| key := key self;
          messages := messages self ++ [msg];
          created_at := created_at self;
          updated_at := t_upd;
          metadata := metadata self |}.

(** One step of the comprehension of [get_history]; a missing key raises
    [KeyError], whose text is the key quoted. *)
Definition llm_format (m : list (string * value)) : result value :=
  match assoc "role" m with
  | None => Raise "'role'"
  | Some r =>
      match assoc "content" m with
      | None => Raise "'content'"
      | Some c => Ok (VDict [("role", r); ("content", c)])
      end
  end.

Fixpoint llm_format_all (l : list (list (string * value))) : result (list value) :=
  match l with
  | [] => Ok []
  | m :: rest =>
      match llm_format m with
      | Raise e => Raise e
      | Ok v =>
          match llm_format_all rest with
          | Raise e => Raise e
          | Ok vs => Ok (v :: vs)
          end
      end
  end.

(** [Session.get_history(max_messages)] *)
Definition get_history (max_messages : Z) (self : Session) : result (list value) :=
  let recent :=
    if (max_messages <? Z.of_nat (List.length (messages self)))%Z
    then PySlice.list_from (- max_messages) (messages self)
    else messages self in
  llm_format_all recent.

(** [Session.clear()] *)
Definition clear (now : Z) (self : Session) : Session :=
  {| key := key self; messages := []; created_at := created_at self;
     updated_at := now; metadata := metadata self |}.

End Methods.

(** [SessionManager._get_session_path(key)], up to the directory and the
    extension: the safe key, which is the stem of the file name when it is
    not empty. *)
Definition session_file_stem (k : string) : string :=
  StringHelpers.safe_filename (PySlice.replace_char ":" "_" k).

(** The key [list_sessions] shows for a file: [path.stem.replace("_", ":")]. *)
Definition listed_key (stem : string) : string :=
  PySlice.replace_char "_" ":" stem.

End Session.

(* ===================================================================== *)
(** * nanobot/channels/base.py                                            *)
(* ===================================================================== *)

Module Channel.
Import Py Events.

(** A channel as [is_allowed] and [_handle_message] see it: its name and
    the [allow_from] of its config, absent when the config has none. *)
Record BaseChannel := {
  name : string;
  allow_from : option (list string);
}.

(** [part in allow_list] *)
Definition listed (allow_list : list string) (s : string) : bool :=
  existsb (String.eqb s) allow_list.

(** The loop over [sender_str.split("|")]. *)
Fixpoint any_part_listed (allow_list : list string) (parts : list string) : bool :=
  match parts with
  | [] => false
  | part :: rest =>
      if PyStr.truthy part && listed allow_list part then true
      else any_part_listed allow_list rest
  end.

(** [BaseChannel.is_allowed(sender_id)] *)
Definition is_allowed (self : BaseChannel) (sender_id : string) : bool :=
  let allow_list := default [] (allow_from self) in
  match allow_list with
  | [] => true
  | _ :: _ =>
      if listed allow_list sender_id then true
      else if PyStr.mem "|" sender_id
           then any_part_listed allow_list (PyStr.split "|" sender_id)
           else false
  end.

(** [BaseChannel._handle_message]: what it does to the bus.  [now] is the
    default timestamp of the event. *)
Definition _handle_message (self : BaseChannel) (now : Z) (sender_id chat_id content : string)
    (media : option (list string)) (meta : option (list (string * value)))
    (bus : Bus.MessageBus) : Bus.MessageBus :=
  if negb (is_allowed self sender_id) then bus
  else
    let msg :=
      {| channel := name self;
         sender_id := sender_id;
         chat_id := chat_id;
         content := content;
         timestamp := now;
         media := default [] media;
         metadata := default [] meta |} in
    Bus.publish_inbound msg bus.

(** The sender id [TelegramChannel._on_message] builds from the numeric id
    of the user, already a string, and the username if any. *)
Definition telegram_sender_id (user_id : string) (username : option string) : string :=
  match username with
  | Some u => if PyStr.truthy u then user_id ++ "|" ++ u else user_id
  | None => user_id
  end.

(** The sender id [WhatsAppChannel._handle_bridge_message] takes from the
    JID: [sender.split("@")[0] if "@" in sender else sender]. *)
Definition whatsapp_sender_id (sender : string) : string :=
  if PyStr.mem "@" sender
  then match PyStr.split "@" sender with
       | first :: _ => first
       | [] => sender
       end
  else sender.

End Channel.

(* ===================================================================== *)
(** * nanobot/channels/manager.py                                         *)
(* ===================================================================== *)

Module Dispatcher.
Import Effects Events.

(** What the dispatcher acts on: the world the channels send into, and the
    record of the calls of [send], each with the name the channel is
    registered under. *)
Record state (W : Type) := {
  world : W;
  sent : list (string * OutboundMessage);
}.
Arguments world {W} _.
Arguments sent {W} _.

(** What one wait of at most a second on [bus.consume_outbound()] gives:
    a message, or [asyncio.TimeoutError]. *)
Inductive consumed :=
| Message (msg : OutboundMessage)
| Timeout.

Section ChannelManager.
Context {W : Type}.
(** [self.channels]: each channel by its [send], which may raise. *)
Variable channels : gmap string (OutboundMessage -> M W unit).

(** The routing of one consumed message: an exception of [send] is
    logged and dropped, an unknown channel is logged. *)
Definition route (msg : OutboundMessage) (s : state W) : state W :=
  match channels !! out_channel msg with
  | Some send =>
      {| world := (send msg (world s)).2;
         sent := sent s ++ [(out_channel msg, msg)] |}
  | None => s
  end.

(** One turn of the loop of [_dispatch_outbound]; after a timeout the
    loop continues. *)
Definition dispatch_turn (c : consumed) (s : state W) : state W :=
  match c with
  | Message msg => route msg s
  | Timeout => s
  end.

(** [ChannelManager._dispatch_outbound], over the waits it makes until
    it is cancelled. *)
Definition _dispatch_outbound (waits : list consumed) (s : state W) : state W :=
  foldl (fun s c => dispatch_turn c s) s waits.

End ChannelManager.
End Dispatcher.

(* ===================================================================== *)
(** * nanobot/config/schema.py                                            *)
(* ===================================================================== *)

Module Config.

Record ProviderConfig := {
  api_key : string;
  api_base : option string;
}.

Record ProvidersConfig := {
  anthropic : ProviderConfig;
  openai : ProviderConfig;
  openrouter : ProviderConfig;
  deepseek : ProviderConfig;
  groq : ProviderConfig;
  zhipu : ProviderConfig;
  dashscope : ProviderConfig;
  vllm : ProviderConfig;
  gemini : ProviderConfig;
  moonshot : ProviderConfig;
}.

(** [Config], by the two fields its methods below read:
    [agents.defaults.model] and [providers]. *)
Record Config := {
  default_model : string;
  providers : ProvidersConfig;
}.

Section Methods.
(** [str.lower] *)
Variable lower : string -> string.

(** The dict of [_match_provider], in its order. *)
Definition keyword_providers (p : ProvidersConfig) : list (string * ProviderConfig) :=
  [("openrouter", openrouter p); ("deepseek", deepseek p);
   ("anthropic", anthropic p); ("claude", anthropic p);
   ("openai", openai p); ("gpt", openai p);
   ("gemini", gemini p);
   ("zhipu", zhipu p); ("glm", zhipu p); ("zai", zhipu p);
   ("dashscope", dashscope p); ("qwen", dashscope p);
   ("groq", groq p);
   ("moonshot", moonshot p); ("kimi", moonshot p);
   ("vllm", vllm p)].

Definition model_name (self : Config) (model : option string) : string :=
  lower (match model with
         | Some m => if PyStr.truthy m then m else default_model self
         | None => default_model self
         end).

(** [Config._match_provider(model)] *)
Definition _match_provider (self : Config) (model : option string)
  : option ProviderConfig :=
  let model := model_name self model in
  snd <$> List.find (fun kp => PyStr.contains model kp.1 && PyStr.truthy (api_key kp.2))
            (keyword_providers (providers self)).

(** The list of the fallback loop of [get_api_key], in its order. *)
Definition fallback_providers (p : ProvidersConfig) : list ProviderConfig :=
  [openrouter p; deepseek p; anthropic p; openai p; gemini p; zhipu p;
   dashscope p; moonshot p; vllm p; groq p].

(** [Config.get_api_key(model)] *)
Definition get_api_key (self : Config) (model : option string) : option string :=
  match _match_provider self model with
  | Some matched => Some (api_key matched)
  | None =>
      api_key <$> List.find (fun p => PyStr.truthy (api_key p))
                    (fallback_providers (providers self))
  end.

(** [Config.get_api_base(model)] *)
Definition get_api_base (self : Config) (model : option string) : option string :=
  let model := model_name self model in
  if PyStr.contains model "openrouter" then
    match api_base (openrouter (providers self)) with
    | Some b => if PyStr.truthy b then Some b else Some "https://openrouter.ai/api/v1"
    | None => Some "https://openrouter.ai/api/v1"
    end
  else if PyStr.contains model "zhipu" || PyStr.contains model "glm"
          || PyStr.contains model "zai"
  then api_base (zhipu (providers self))
  else if PyStr.contains model "vllm" then api_base (vllm (providers self))
  else None.

End Methods.
End Config.

(* ===================================================================== *)
(** * Spawning: nanobot/agent/subagent.py and nanobot/agent/tools/spawn.py *)
(* ===================================================================== *)

Module Spawn.
Import Py Base Effects.

(** A background task as [spawn] creates it: the call of [_run_subagent]
    it will make, not yet begun. *)
Record background_task := {
  bg_task_id : string;
  bg_task : string;
  bg_label : string;
  bg_origin : Subagent.origin;
}.

(** The part of the manager [spawn] acts on: the live map
    [_running_tasks], and the identifiers [uuid.uuid4] will give, each
    already cut to its first eight characters, with the number drawn so
    far. *)
Record manager := {
  _running_tasks : gmap string background_task;
  uuid_source : nat -> string;
  uuid_drawn : nat;
}.

(** [label or task[:30] + ("..." if len(task) > 30 else "")] *)
Definition display_label (task : string) (label : option string) : string :=
  if Provider.opt_truthy label then default "" label
  else PySlice.take 30 task ++ (if (30 <? PyStr.len task)%nat then "..." else "").

Definition started_text (label task_id : string) : string :=
  "子代理 [" ++ label ++ "] 已启动（id：" ++ task_id ++ "）。完成后我会通知你。".

(** [SubagentManager.spawn], up to the start of the background task. *)
Definition spawn (task : string) (label : option string)
    (origin_channel origin_chat_id : string) : M manager string :=
  fun self =>
    let task_id := uuid_source self (uuid_drawn self) in
    let label := display_label task label in
    let origin := {| Subagent.o_channel := origin_channel;
                     Subagent.o_chat_id := origin_chat_id |} in
    let bg := {| bg_task_id := task_id; bg_task := task;
                 bg_label := label; bg_origin := origin |} in
    (Ok (started_text label task_id),
     {| _running_tasks := <[task_id := bg]> (_running_tasks self);
        uuid_source := uuid_source self;
        uuid_drawn := S (uuid_drawn self) |}).


(** [SubagentManager.get_running_count] *)
Definition get_running_count (self : manager) : nat := size (_running_tasks self).

(** ** nanobot/agent/tools/spawn.py *)

(** [SpawnTool], by its origin context. *)
Record SpawnTool := {
  _origin_channel : string;
  _origin_chat_id : string;
}.

(** [SpawnTool.__init__] *)
Definition init : SpawnTool := {| _origin_channel := "cli"; _origin_chat_id := "direct" |}.

(** [SpawnTool.set_context] *)
Definition set_context (channel chat_id : string) (self : SpawnTool) : SpawnTool :=
  {| _origin_channel := channel; _origin_chat_id := chat_id |}.

(** [SpawnTool.parameters]; the "description" entries are not keys that
    [_validate] reads. *)
Definition parameters : schema :=
  Schema (Some "object") None None None None None
    (Some [("task", Schema (Some "string") None None None None None None None None);
           ("label", Schema (Some "string") None None None None None None None None)])
    (Some ["task"]) None.

(** The call of [SpawnTool.execute], whose parameters are [self], [task],
    [label = None] and a catch-all for further keywords, on the unpacked
    arguments: the keywords are bound to the parameters, and the manager's
    [spawn] is awaited.  The call itself refuses a keyword named [self],
    which the bound method has already filled, and a missing [task]; any
    other keyword goes to the catch-all.  Values that are no strings are
    outside this typing of [spawn]; the registry never passes them, since
    it validates first. *)
Definition execute (self : SpawnTool) (kwargs : list (string * value)) : M manager string :=
  match assoc "self" kwargs with
  | Some _ => raise "SpawnTool.execute() got multiple values for argument 'self'"
  | None =>
      match assoc "task" kwargs with
      | None => raise "SpawnTool.execute() missing 1 required positional argument: 'task'"
      | Some (VStr task) =>
          match assoc "label" kwargs with
          | None | Some VNone =>
              spawn task None (_origin_channel self) (_origin_chat_id self)
          | Some (VStr label) =>
              spawn task (Some label) (_origin_channel self) (_origin_chat_id self)
          | Some _ => raise "label: not a str"
          end
      | Some _ => raise "task: not a str"
      end
  end.

(** The tool as the registry holds it. *)
Definition as_tool (self : SpawnTool) : Tool manager :=
  {| cls := Base.SpawnTool;
     name := "spawn";
     description := "生成一个子代理在后台处理任务。"
                    ++ "用于可以独立运行的复杂或耗时任务。"
                    ++ "子代理将完成任务并在完成后报告。";
     Base.parameters := Some parameters;
     Base.execute := execute self |}.

End Spawn.

(* ===================================================================== *)
(** * Vocabulary of the properties                                        *)
(* ===================================================================== *)

Module HeartbeatSpec.

(** A line the emptiness check passes over, as the service documents it:
    after trimming it is blank, a heading, an HTML comment, or a bare
    checkbox. *)
Definition ignorable (line : string) : Prop :=
  let l := PyStr.strip line in
  l = ""
  \/ PyStr.startswith l "#" = true
  \/ PyStr.startswith l "<!--" = true
  \/ l = "- [ ]" \/ l = "* [ ]" \/ l = "- [x]" \/ l = "* [x]".

End HeartbeatSpec.

Module ValidationSpec.
Import Py Base.

Definition label_of (path : string) : string :=
  if PyStr.truthy path then path else "parameter".

(** Whether a check is made at a node.  The checks particular to some
    types (bounds, lengths, fields, items) are made under a schema that
    declares one of these types; the enum check is made under any schema.
    As the checks are listed, nothing else is asked ([gated = false]).  As
    [_validate] is written ([gated = true]), a check other than the type
    check is made only on a value that matches the declared type. *)
Definition applies (gated : bool) (sch : schema) (val : value) (types : list string)
  : Prop :=
  (types = [] \/ exists t, s_type sch = Some t /\ t ∈ types)
  /\ (gated = true -> type_mismatch (s_type sch) val = false).

Section Violations.
Variable py_str : value -> string.

(** [violation gated val sch path msg]: the value breaks the schema at or
    below [path], and [msg] is the text that says so.  One rule per check:
    type match, enum membership, numeric minimum and maximum, string length
    bounds, required fields and properties of objects, items of arrays. *)
Inductive violation (gated : bool) : value -> schema -> string -> string -> Prop :=
| V_type val sch path t :
    s_type sch = Some t ->
    type_mismatch (Some t) val = true ->
    violation gated val sch path (label_of path ++ " 应该是 " ++ t ++ " 类型")
| V_enum val sch path e :
    applies gated sch val [] ->
    s_enum sch = Some e ->
    contains e val = false ->
    violation gated val sch path (label_of path ++ " 必须是 " ++ py_str (VList e) ++ " 之一")
| V_minimum val sch path m :
    applies gated sch val ["integer"; "number"] ->
    s_minimum sch = Some m ->
    lt_num val m = true ->
    violation gated val sch path (label_of path ++ " 必须 >= " ++ py_str (num_value m))
| V_maximum val sch path m :
    applies gated sch val ["integer"; "number"] ->
    s_maximum sch = Some m ->
    gt_num val m = true ->
    violation gated val sch path (label_of path ++ " 必须 <= " ++ py_str (num_value m))
| V_minLength s sch path m :
    applies gated sch (VStr s) ["string"] ->
    s_minLength sch = Some m ->
    (Z.of_nat (PyStr.len s) < m)%Z ->
    violation gated (VStr s) sch path
      (label_of path ++ " 至少 " ++ py_str (VInt m) ++ " 个字符")
| V_maxLength s sch path m :
    applies gated sch (VStr s) ["string"] ->
    s_maxLength sch = Some m ->
    (m < Z.of_nat (PyStr.len s))%Z ->
    violation gated (VStr s) sch path
      (label_of path ++ " 最多 " ++ py_str (VInt m) ++ " 个字符")
| V_required d sch path req k :
    applies gated sch (VDict d) ["object"] ->
    s_required sch = Some req ->
    k ∈ req ->
    has_key k d = false ->
    violation gated (VDict d) sch path ("缺少必需的 " ++ sub_path path k)
| V_property d sch path props k v sk msg :
    applies gated sch (VDict d) ["object"] ->
    s_properties sch = Some props ->
    (k, v) ∈ d ->
    assoc k props = Some sk ->
    violation gated v sk (sub_path path k) msg ->
    violation gated (VDict d) sch path msg
| V_item l sch path si i item msg :
    applies gated sch (VList l) ["array"] ->
    s_items sch = Some si ->
    l !! i = Some item ->
    violation gated item si (item_path path i) msg ->
    violation gated (VList l) sch path msg.

(** The parts [_validate] concatenates, named. *)
Definition property_errors (props : list (string * schema)) (path : string)
    (d : list (string * value)) : list string :=
  List.flat_map
    (fun kv => match assoc kv.1 props with
               | Some sk => _validate py_str kv.2 sk (sub_path path kv.1)
               | None => []
               end) d.

Fixpoint item_errors (si : schema) (path : string) (i : nat) (items : list value)
  : list string :=
  match items with
  | [] => []
  | item :: rest =>
      (_validate py_str item si (item_path path i) ++ item_errors si path (S i) rest)%list
  end.

Definition node_errors (val : value) (sch : schema) (path : string) : list string :=
  let t := s_type sch in
  let label := label_of path in
  (enum_errors py_str sch val label
   ++ (if type_is t "integer" || type_is t "number"
       then bound_errors py_str sch val label else [])
   ++ (if type_is t "string" then length_errors py_str sch val label else []))%list.

Definition object_errors (val : value) (sch : schema) (path : string) : list string :=
  if type_is (s_type sch) "object" then
    match val with
    | VDict d =>
        (required_errors (default [] (s_required sch)) d path
         ++ property_errors (default [] (s_properties sch)) path d)%list
    | _ => []
    end
  else [].

Definition array_errors (val : value) (sch : schema) (path : string) : list string :=
  if type_is (s_type sch) "array" then
    match s_items sch, val with
    | Some si, VList l => item_errors si path 0 l
    | _, _ => []
    end
  else [].

End Violations.
End ValidationSpec.

Module RegistrySpec.
Import Py Base Registry.

(** The three texts [ToolRegistry.execute] builds. *)
Definition not_found (n : string) : string := "错误：未找到工具 '" ++ n ++ "'".

Definition invalid (n : string) (errors : list string) : string :=
  "错误：工具 '" ++ n ++ "' 的参数无效：" ++ PyStr.join "；" errors.

Definition failed (n e : string) : string := "执行 " ++ n ++ " 时出错：" ++ e.

Definition record_call {W} (tool : Tool W) (kwargs : list (string * value)) (s : store W)
  : store W :=
  {| world := world s;
     invoked := invoked s ++ [{| inv_tool := name tool; inv_kwargs := kwargs |}] |}.

End RegistrySpec.

Module ProviderSpec.
Import Provider.

(** The response [chat] builds from the message of an exception. *)
Definition error_response (e : string) : LLMResponse :=
  {| content := Some ("调用 LLM 时出错：" ++ e);
     tool_calls := [];
     finish_reason := "error";
     usage := [] |}.

End ProviderSpec.

Module SubagentSpec.
Import Py Base Effects Provider Subagent.

Definition subagent_classes : list tool_class :=
  [ReadFileTool; WriteFileTool; ListDirTool; ExecTool; WebSearchTool; WebFetchTool].

Section Manager.
Context {W : Type}.
Variable class_body : tool_class -> ctor_args -> Tool W.

(** The tools [_run_subagent] constructs, in the order it registers them. *)
Definition subagent_tools (self : SubagentManager W) : list (Tool W) :=
  let allowed_dir :=
    if restrict_to_workspace self then Some (workspace self) else None in
  [construct class_body ReadFileTool (FsArgs allowed_dir);
   construct class_body WriteFileTool (FsArgs allowed_dir);
   construct class_body ListDirTool (FsArgs allowed_dir);
   construct class_body ExecTool
     (ExecArgs (workspace self) (exec_timeout self) (restrict_to_workspace self));
   construct class_body WebSearchTool (WebSearchArgs (brave_api_key self));
   construct class_body WebFetchTool NoArgs].

Definition register_all (l : list (Tool W)) (reg : gmap string (Tool W))
  : gmap string (Tool W) :=
  foldl (fun r t => Registry.register t r) reg l.

(** Every answer of the completion backend is a response that carries
    tool calls. *)
Definition always_requests_tools (self : SubagentManager W) : Prop :=
  forall messages defs m w,
    exists r w', provider self messages defs m w = (Ok r, w')
                 /\ has_tool_calls r = true.

End Manager.

Section Run.
Context {W : Type}.
Variable py_str : value -> string.
Variable py_repr : value -> string.
Variable json_dumps : value -> string.

(** Each of the next [rounds] answers a run gets from the completion
    backend is a response that carries tool calls: the answer to
    [messages] in state [s] is one, and so are the following ones, each
    asked on the transcript and in the state the run has reached once the
    tools of the answer before it have run. *)
Fixpoint requests_tools_during (self : SubagentManager W)
    (tools : gmap string (Tool W)) (rounds : nat) (messages : list value)
    (s : state W) : Prop :=
  match rounds with
  | O => True
  | S rounds' =>
      exists r w1,
        provider self messages (Registry.get_definitions tools) (model self)
          (Registry.world (store s)) = (Ok r, w1)
        /\ has_tool_calls r = true
        /\ forall messages' s2,
             execute_tool_calls py_str py_repr tools (tool_calls r)
               (messages ++ [assistant_message json_dumps r])%list
               {| store := {| Registry.world := w1;
                              Registry.invoked := Registry.invoked (store s) |};
                  bus := bus s;
                  chats := (chats s ++ [messages])%list |}
             = (Ok messages', s2) ->
             requests_tools_during self tools rounds' messages' s2
  end.

End Run.

(** The transcript a run starts from: the system prompt, then the task. *)
Definition opening_transcript (prompt task : string) : list value :=
  [VDict [("role", VStr "system"); ("content", VStr prompt)];
   VDict [("role", VStr "user"); ("content", VStr task)]].

(** The announcement, written out: the label and the outcome in brackets,
    the task, the result, and the instruction to summarise. *)
Definition announce_template (label outcome task result : string) : string :=
  "[子代理 '" ++ label ++ "' " ++ outcome ++ "]" ++ PyStr.nl
  ++ PyStr.nl
  ++ "任务：" ++ task ++ PyStr.nl
  ++ PyStr.nl
  ++ "结果：" ++ PyStr.nl
  ++ result ++ PyStr.nl
  ++ PyStr.nl
  ++ "自然地为用户总结。保持简短（1-2 句话）。不要提及技术细节如" ++ PyStr.dquote
  ++ "子代理" ++ PyStr.dquote ++ "或任务 ID。".

Definition success_text (label task result : string) : string :=
  announce_template label "成功完成" task result.

Definition failure_text (label task result : string) : string :=
  announce_template label "失败" task result.

(** The result announced when the loop ends without a final response. *)
Definition canned_result : string := "任务已完成，但未生成最终响应。".

(** The inbound event that announces [text] to the origin [o]. *)
Definition announcement (text : string) (o : origin) (t : Z) : Events.InboundMessage :=
  {| Events.channel := "system";
     Events.sender_id := "subagent";
     Events.chat_id := o_channel o ++ ":" ++ o_chat_id o;
     Events.content := text;
     Events.timestamp := t;
     Events.media := [];
     Events.metadata := [] |}.

End SubagentSpec.

(* ===================================================================== *)
(** * Sample data                                                         *)
(* ===================================================================== *)

Module Samples.
Import Py Base Effects.

(** A rendering of values in the manner of Python's [repr]: exact on None,
    booleans, integers, strings free of quotes and escapes, and lists and
    dicts of these.  A float is shown as its fraction. *)
Fixpoint show (v : value) : string :=
  match v with
  | VNone => "None"
  | VBool b => if b then "True" else "False"
  | VInt z => pretty z
  | VFloat q => pretty (Qnum q) ++ "/" ++ pretty (Z.pos (Qden q))
  | VStr s => "'" ++ s ++ "'"
  | VList l =>
      "[" ++ PyStr.join ", "
               ((fix each (l : list value) : list string :=
                   match l with
                   | [] => []
                   | x :: r => show x :: each r
                   end) l) ++ "]"
  | VDict d =>
      "{" ++ PyStr.join ", "
               ((fix each (d : list (string * value)) : list string :=
                   match d with
                   | [] => []
                   | (k, x) :: r => ("'" ++ k ++ "': " ++ show x) :: each r
                   end) d) ++ "}"
  end.

Definition string_schema : schema :=
  Schema (Some "string") None None None None None None None None.

Definition object_schema (props : list (string * schema)) (req : list string) : schema :=
  Schema (Some "object") None None None None None (Some props) (Some req) None.

(** A tool that returns its [text] argument and counts its calls in the
    world. *)
Definition echo_tool : Tool nat :=
  {| cls := OtherTool;
     name := "echo";
     description := "repeat the text";
     parameters := Some (object_schema [("text", string_schema)] ["text"]);
     execute := fun kwargs w =>
                  match assoc "text" kwargs with
                  | Some (VStr s) => (Ok s, S w)
                  | _ => (Raise "echo() missing 1 required positional argument: 'text'", w)
                  end |}.

Definition echo_registry : gmap string (Tool nat) :=
  Registry.register echo_tool Registry.new.

Definition fresh_store : Registry.store nat :=
  {| Registry.world := 0; Registry.invoked := [] |}.

(** A schema with an enumerated string and a bounded integer, and arguments
    that break it in three ways: [mode] is no string, [mode] is none of the
    listed values, [n] is below the minimum. *)
Definition mode_schema : schema :=
  object_schema
    [("mode", Schema (Some "string") (Some [VStr "fast"; VStr "slow"])
                None None None None None None None);
     ("n", Schema (Some "integer") None (Some (NInt 0)) None None None None None None)]
    ["mode"].

Definition mode_args : value := VDict [("mode", VInt 5); ("n", VInt (-1))].

Definition sample_message : Events.InboundMessage :=
  {| Events.channel := "telegram"; Events.sender_id := "u1";
     Events.chat_id := "12:34:56"; Events.content := "hi";
     Events.timestamp := 0; Events.media := []; Events.metadata := [] |}.

Definition digest : Cron.CronJob :=
  (Cron.add_job (fun _ _ _ => None) "j1" "daily-digest"
     {| Cron.kind := Cron.Every; Cron.at_ms := None; Cron.every_ms := Some 3600000%Z;
        Cron.expr := None; Cron.tz := None |}
     "summarize today" false None None 1000 {| Cron.version := 1; Cron.jobs := [] |}).1.

Definition sample_provider : Provider.LiteLLMProvider :=
  Provider.init (Some "sk-or-abc") None "anthropic/claude-opus-4-5".

(** Stand-ins for the tool classes of the subagent: each instance is named
    after its class and answers "done". *)
Definition sample_class_body (c : tool_class) (a : Subagent.ctor_args) : Tool nat :=
  {| cls := c;
     name := match c with
             | ReadFileTool => "read_file"
             | WriteFileTool => "write_file"
             | ListDirTool => "list_dir"
             | ExecTool => "exec"
             | WebSearchTool => "web_search"
             | WebFetchTool => "web_fetch"
             | SpawnTool => "spawn"
             | MessageTool => "message"
             | OtherTool => "other"
             end;
     description := "";
     parameters := None;
     execute := fun _ w => (Ok "done", S w) |}.

(** A backend that asks for the same file on every call. *)
Definition insistent_manager : Subagent.SubagentManager nat :=
  {| Subagent.provider := fun _ _ _ w =>
       (Ok {| Provider.content := None;
              Provider.tool_calls :=
                [{| Provider.tc_id := "call_1"; Provider.tc_name := "read_file";
                    Provider.tc_arguments := VDict [("path", VStr "notes.txt")] |}];
              Provider.finish_reason := "tool_calls";
              Provider.usage := [] |}, w);
     Subagent.workspace := "/ws";
     Subagent.model := "m";
     Subagent.brave_api_key := None;
     Subagent.exec_timeout := 60;
     Subagent.restrict_to_workspace := false |}.

(** A backend that asks for the same file as long as the transcript has
    fewer than a thousand messages, and answers in words after that. *)
Definition bounded_manager : Subagent.SubagentManager nat :=
  {| Subagent.provider := fun messages _ _ w =>
       if (List.length messages <? 1000)%nat then
         (Ok {| Provider.content := None;
                Provider.tool_calls :=
                  [{| Provider.tc_id := "call_1"; Provider.tc_name := "read_file";
                      Provider.tc_arguments := VDict [("path", VStr "notes.txt")] |}];
                Provider.finish_reason := "tool_calls";
                Provider.usage := [] |}, w)
       else
         (Ok {| Provider.content := Some "enough";
                Provider.tool_calls := [];
                Provider.finish_reason := "stop";
                Provider.usage := [] |}, w);
     Subagent.workspace := "/ws";
     Subagent.model := "m";
     Subagent.brave_api_key := None;
     Subagent.exec_timeout := 60;
     Subagent.restrict_to_workspace := false |}.

Definition cli_origin : Subagent.origin :=
  {| Subagent.o_channel := "cli"; Subagent.o_chat_id := "direct" |}.

Definition fresh_state : Subagent.state nat :=
  {| Subagent.store := fresh_store; Subagent.bus := Bus.empty; Subagent.chats := [] |}.

End Samples.

(* ===================================================================== *)
(** * Vocabulary of the further properties                                *)
(* ===================================================================== *)

Module SessionSpec.
Import Py Session.

(** Every stored message has a role and a content. *)
Definition well_formed (self : Session) : Prop :=
  Forall (fun m => is_Some (assoc "role" m) /\ is_Some (assoc "content" m))
         (messages self).

(** A message reduced to its role and its content. *)
Definition llm_view (m : list (string * value)) : value :=
  VDict [("role", default VNone (assoc "role" m));
         ("content", default VNone (assoc "content" m))].

(** No keyword is named like a parameter of [add_message]. *)
Definition free_keywords (kwargs : list (string * value)) : Prop :=
  Forall (fun kv => kv.1 <> "role" /\ kv.1 <> "content" /\ kv.1 <> "self") kwargs.

End SessionSpec.

Module RegistryInv.
Import Base.

(** Every tool is stored under its own name: what [register] keeps. *)
Definition keyed_by_name {W} (reg : gmap string (Tool W)) : Prop :=
  forall n t, reg !! n = Some t -> name t = n.

End RegistryInv.

Module DispatcherSpec.
Import Effects Events Dispatcher.

(** The messages among the waits, in order. *)
Definition messages_of (waits : list consumed) : list OutboundMessage :=
  omap (fun c => match c with Message m => Some m | Timeout => None end) waits.

(** The messages of a list that have a channel to go to, each with the
    name of that channel. *)
Definition deliverable {A} (channels : gmap string A) (queue : list OutboundMessage)
  : list (string * OutboundMessage) :=
  (fun m => (out_channel m, m))
    <$> List.filter (fun m => bool_decide (is_Some (channels !! out_channel m))) queue.

(** The world after each of these messages was sent on its channel. *)
Definition send_all {W} (channels : gmap string (OutboundMessage -> M W unit))
    (l : list (string * OutboundMessage)) (w : W) : W :=
  foldl (fun w cm => match channels !! cm.1 with
                     | Some send => (send cm.2 w).2
                     | None => w
                     end) w l.

End DispatcherSpec.

Module ChannelSpec.
Import Channel.

(** The condition under which a sender passes: no allow list, or the
    sender listed, or one of the parts of the sender between bars listed. *)
Definition passes (self : BaseChannel) (sender_id : string) : Prop :=
  default [] (allow_from self) = []
  \/ sender_id ∈ default [] (allow_from self)
  \/ exists part, part ∈ PyStr.split "|" sender_id /\ part <> ""
                  /\ part ∈ default [] (allow_from self).

End ChannelSpec.

Module SpawnSpec.
Import Py Spawn.

(** The arguments the schema of the spawn tool lets through: a task is
    given, and what is given under "task" or "label" is a string. *)
Definition valid_arguments (kwargs : list (string * value)) : Prop :=
  is_Some (assoc "task" kwargs)
  /\ Forall (fun kv => kv.1 = "task" \/ kv.1 = "label" -> exists s, kv.2 = VStr s) kwargs.

(** The arguments the call of [SpawnTool.execute] can bind: none is named
    like the receiver. *)
Definition bindable (kwargs : list (string * value)) : Prop :=
  assoc "self" kwargs = None.

(** The label among the arguments, if one is given. *)
Definition label_argument (kwargs : list (string * value)) : option string :=
  match assoc "label" kwargs with
  | Some (VStr label) => Some label
  | _ => None
  end.

(** The text that reports a started subagent. *)
Definition started_report (label task_id : string) : string :=
  "子代理 [" ++ label ++ "] 已启动（id：" ++ task_id ++ "）。完成后我会通知你。".

End SpawnSpec.

Module SubagentLoopSpec.
Import Py Base Effects Provider Subagent.

(** The message that answers a tool call with [text]. *)
Definition tool_reply (tc : ToolCallRequest) (text : string) : value :=
  VDict [("role", VStr "tool");
         ("tool_call_id", VStr (tc_id tc));
         ("name", VStr (tc_name tc));
         ("content", VStr text)].

(** The messages a round of tool calls appends, given the text each call
    was answered with. *)
Definition tool_messages (calls : list ToolCallRequest) (results : list string)
  : list value :=
  zip_with tool_reply calls results.

Section Registry.
Context {W : Type}.
Variable py_str : value -> string.
Variable py_repr : value -> string.

(** [answered tools calls st results st']: executing the calls through
    the registry one after the other, from the store [st], returns the
    texts [results], in this order, and leaves the store [st']. *)
Inductive answered (tools : gmap string (Tool W))
  : list ToolCallRequest -> Registry.store W -> list string -> Registry.store W -> Prop :=
| answered_nil st : answered tools [] st [] st
| answered_cons tc rest st text st1 results st2 :
    Registry.execute py_str py_repr tools (tc_name tc) (tc_arguments tc) st
    = (Ok text, st1) ->
    answered tools rest st1 results st2 ->
    answered tools (tc :: rest) st (text :: results) st2.

End Registry.

End SubagentLoopSpec.

(** ** Sample data of the further properties *)

Module MoreSamples.
Import Py Base Effects.

Definition two_messages : Session.Session :=
  {| Session.key := "telegram:42";
     Session.messages :=
       [[("role", VStr "user"); ("content", VStr "hi"); ("timestamp", VStr "t0")];
        [("role", VStr "assistant"); ("content", VStr "hello"); ("timestamp", VStr "t1")]];
     Session.created_at := 0;
     Session.updated_at := 1;
     Session.metadata := [] |}.

Definition guarded_channel : Channel.BaseChannel :=
  {| Channel.name := "telegram"; Channel.allow_from := Some ["alice"; "1001"] |}.

(** A manager with nothing running, whose identifiers are "task0000",
    "task0001", ... *)
Definition idle_manager : Spawn.manager :=
  {| Spawn._running_tasks := ∅;
     Spawn.uuid_source := fun n => "task000" ++ pretty n;
     Spawn.uuid_drawn := 0 |}.

Definition telegram_spawn_tool : Spawn.SpawnTool :=
  Spawn.set_context "telegram" "42" Spawn.init.

Definition spawn_registry : gmap string (Tool Spawn.manager) :=
  Registry.register (Spawn.as_tool telegram_spawn_tool) Registry.new.

Definition idle_store : Registry.store Spawn.manager :=
  {| Registry.world := idle_manager; Registry.invoked := [] |}.

(** A backend that answers at once, without asking for a tool. *)
Definition direct_manager : Subagent.SubagentManager nat :=
  {| Subagent.provider := fun _ _ _ w =>
       (Ok {| Provider.content := Some "the notes are empty";
              Provider.tool_calls := [];
              Provider.finish_reason := "stop";
              Provider.usage := [] |}, S w);
     Subagent.workspace := "/ws";
     Subagent.model := "m";
     Subagent.brave_api_key := None;
     Subagent.exec_timeout := 60;
     Subagent.restrict_to_workspace := false |}.

End MoreSamples.

(* ===================================================================== *)
(** * Verified properties                                                 *)
(* ===================================================================== *)

(** ** Session keys *)

Module SessionKeyFacts.
Import Events Helpers Samples.

Lemma split1_at_first_separator (sep : ascii) (a b : string) :
  PyStr.mem sep a = false ->
  PyStr.split1 sep (a ++ String sep b) = [a; b].
Proof.
  induction a as [|c a IH]; simpl; intros Hmem.
  - by rewrite Ascii.eqb_refl.
  - apply orb_false_elim in Hmem as [Hc Ha].
    rewrite Hc, (IH Ha). reflexivity.
Qed.

Example parse_keeps_later_colons :
  parse_session_key "telegram:12:34" = ("telegram", "12:34").
Proof. reflexivity. Qed.

Example parse_without_colon : parse_session_key "telegram" = ("telegram", "").
Proof. reflexivity. Qed.

(** C10: for a message whose channel contains no colon, parsing its session
    key gives back exactly (channel, chat_id), whatever the chat id is,
    colons included: the key is split at its first colon only. *)
Theorem parse_session_key_round_trip (m : InboundMessage) :
  PyStr.mem ":" (channel m) = false ->
  parse_session_key (session_key m) = (channel m, chat_id m).
Proof.
  intros Hch. unfold parse_session_key, session_key.
  change (channel m ++ ":" ++ chat_id m) with (channel m ++ String ":" (chat_id m)).
  by rewrite (split1_at_first_separator _ _ _ Hch).
Qed.

Lemma parse_session_key_round_trip_witness :
  PyStr.mem ":" (channel sample_message) = false
  /\ parse_session_key (session_key sample_message) = ("telegram", "12:34:56").
Proof.
  split; [reflexivity|].
  apply (parse_session_key_round_trip sample_message). reflexivity.
Defined.

End SessionKeyFacts.

(** ** Heartbeat *)

Module HeartbeatFacts.
Import Heartbeat HeartbeatSpec.

Lemma skipped_ignorable (line : string) :
  skipped (PyStr.strip line) = true <-> ignorable line.
Proof.
  unfold skipped, ignorable, skip_patterns. cbv zeta.
  generalize (PyStr.strip line) as l. intros l.
  rewrite !orb_true_iff, negb_true_iff, bool_decide_eq_true.
  rewrite !elem_of_cons, elem_of_nil.
  split.
  - intros [[[H|H]|H]|H]; [left; by destruct l | tauto | tauto | tauto].
  - intros [H|[H|[H|H]]]; [subst; tauto | tauto | tauto | tauto].
Qed.

Lemma scan_lines_all (lines : list string) :
  scan_lines lines = true <-> Forall ignorable lines.
Proof.
  induction lines as [|line rest IH]; simpl.
  - split; [constructor | reflexivity].
  - destruct (skipped (PyStr.strip line)) eqn:Hs.
    + rewrite IH. apply skipped_ignorable in Hs.
      split; [by constructor | by inversion 1].
    + split; [discriminate|]. inversion 1 as [|? ? Hi _]; subst.
      apply skipped_ignorable in Hi. congruence.
Qed.

Lemma empty_text_lines : Forall ignorable (PyStr.split "010" "").
Proof. repeat constructor. Qed.

Example headings_and_boxes_are_empty :
  _is_heartbeat_empty
    (Some (PyStr.join PyStr.nl ["# Heading"; ""; "- [ ]"; "  * [x] "; "<!-- note -->"]))
  = true.
Proof. reflexivity. Qed.

Example a_task_is_actionable :
  _is_heartbeat_empty (Some (PyStr.join PyStr.nl ["# Heading"; "- [ ] water the plants"]))
  = false.
Proof. reflexivity. Qed.

(** C8: the task file is classified as empty exactly when it is absent,
    unreadable, or every one of its lines is, after trimming, blank, a line
    starting with '#', a line starting with the HTML comment opener, or one
    of the four bare checkboxes (the empty file being the case of one blank
    line); with a callback registered, the tick hands it the heartbeat
    prompt exactly when the file is not so classified, and otherwise does
    nothing. *)
Theorem heartbeat_tick_classification (f : heartbeat_file) (cb : string -> string) :
  (_is_heartbeat_empty (_read_heartbeat_file f) = true
   <-> f = Absent \/ f = Unreadable
       \/ exists text, f = Readable text /\ Forall ignorable (PyStr.split "010" text))
  /\ _tick (Some cb) f
     = if _is_heartbeat_empty (_read_heartbeat_file f) then [] else [HEARTBEAT_PROMPT].
Proof.
  split; [|reflexivity].
  destruct f as [| |text]; simpl.
  - tauto.
  - tauto.
  - destruct text as [|c r].
    + simpl. split; [|done]. intros _. right; right.
      exists "". split; [done | apply empty_text_lines].
    + cbn [PyStr.truthy negb]. rewrite scan_lines_all. split.
      * intros H. right; right. by exists (String c r).
      * intros [H|[H|[t [Ht H]]]]; [done | done |]. by inversion Ht; subst.
Qed.

Example tick_on_a_task :
  _tick (Some (fun _ => "HEARTBEAT_OK")) (Readable "- [ ] call Ada") = [HEARTBEAT_PROMPT].
Proof. reflexivity. Qed.

Example tick_on_placeholders :
  _tick (Some (fun _ => "HEARTBEAT_OK")) (Readable "- [ ]") = [].
Proof. reflexivity. Qed.

End HeartbeatFacts.

(** ** Cron schedules *)

Module CronFacts.
Import Effects Cron Samples.

Section Service.
Variable cron_next : string -> option string -> Z -> option Z.
Variable on_job : CronJob -> result (option string).

Lemma find_job_id (job_id : string) (st : CronStore) (job : CronJob) :
  find_job job_id st = Some job -> id job = job_id.
Proof.
  unfold find_job. intros H. apply List.find_some in H as [_ H].
  by apply String.eqb_eq.
Qed.

Lemma find_replace_job (job_id : string) (st : CronStore) (job job' : CronJob) :
  find_job job_id st = Some job ->
  id job' = job_id ->
  find_job job_id (replace_job job_id (Some job') st) = Some job'.
Proof.
  unfold find_job, replace_job. cbn [jobs]. intros Hfind Hid.
  induction (jobs st) as [|j rest IH]; [discriminate|].
  cbn [List.find List.flat_map] in *.
  destruct (String.eqb (id j) job_id) eqn:E; cbn [app List.find].
  - rewrite Hid, String.eqb_refl. reflexivity.
  - rewrite E. auto.
Qed.

(** C7: a job whose schedule is of kind [every] with period P, fired at
    time T, comes out with next-run exactly T + P, whatever its next-run,
    its last-run and its creation time were before, and whether or not
    the callback failed; a forced run at time T does the same to the
    stored job, enabled or not. *)
Theorem every_rearmed_from_fire_time (job : CronJob) (P T : Z) :
  kind (schedule job) = Every ->
  every_ms (schedule job) = Some P ->
  (exists job',
     execute_job cron_next on_job job T = Some job'
     /\ next_run_at_ms (state job') = Some (T + P)%Z
     /\ last_run_at_ms (state job') = Some T
     /\ enabled job' = enabled job)
  /\ (forall st,
        find_job (id job) st = Some job ->
        exists job',
          run_job cron_next on_job (id job) true T st
          = (true, replace_job (id job) (Some job') st)
          /\ find_job (id job) (run_job cron_next on_job (id job) true T st).2 = Some job'
          /\ next_run_at_ms (state job') = Some (T + P)%Z).
Proof.
  intros Hkind Hevery.
  assert (Hexec : exists job',
             execute_job cron_next on_job job T = Some job'
             /\ id job' = id job
             /\ next_run_at_ms (state job') = Some (T + P)%Z
             /\ last_run_at_ms (state job') = Some T
             /\ enabled job' = enabled job).
  { unfold execute_job. rewrite Hkind. eexists. split; [reflexivity|].
    cbn. unfold compute_next_run. rewrite Hkind, Hevery. cbn. auto. }
  destruct Hexec as (job' & Hrun & Hid & Hnext & Hlast & Hen).
  split; [by exists job'|].
  intros st Hfind. exists job'. unfold run_job. rewrite Hfind. cbn [negb andb].
  rewrite Hrun. cbn [snd]. split; [reflexivity|]. split; [|done].
  by apply find_replace_job with (job := job).
Qed.

End Service.

Example digest_next_run_after_add :
  next_run_at_ms (state digest) = Some 3601000%Z.
Proof. reflexivity. Qed.

Lemma every_rearmed_from_fire_time_witness :
  kind (schedule digest) = Every
  /\ every_ms (schedule digest) = Some 3600000%Z
  /\ exists job',
       execute_job (fun _ _ _ => None) (fun _ => Ok None) digest 5000 = Some job'
       /\ next_run_at_ms (state job') = Some (5000 + 3600000)%Z
       /\ last_run_at_ms (state job') = Some 5000%Z
       /\ enabled job' = enabled digest.
Proof.
  split; [reflexivity|]. split; [reflexivity|].
  apply (every_rearmed_from_fire_time (fun _ _ _ => None) (fun _ => Ok None)
           digest 3600000 5000); reflexivity.
Defined.

End CronFacts.

(** ** The completion backend *)

Module ProviderFacts.
Import Py Base Effects Provider ProviderSpec Samples.

Section LiteLLM.
Context {W : Type}.
Variable json_loads : string -> option value.
Variable acompletion : completion_kwargs -> M W raw_response.

(** C9: [chat] always returns a response.  When the backend call raises,
    the response has the error string built from the exception's message
    as content and finish_reason "error", and the world is as the failed
    call left it; the same holds when reading the backend's answer raises;
    otherwise the response is the parsed answer. *)
Theorem chat_never_raises (self : LiteLLMProvider) (messages : list value)
    (tools : option (list tool_definition)) (model : option string)
    (max_tokens : Z) (temperature : Q) (w : W) :
  let kwargs := build_kwargs self messages tools model max_tokens temperature in
  exists r,
    chat json_loads acompletion self messages tools model max_tokens temperature w
    = (Ok r, (acompletion kwargs w).2)
    /\ match (acompletion kwargs w).1 with
       | Raise e => r = error_response e
       | Ok raw =>
           match _parse_response json_loads raw with
           | Ok parsed => r = parsed
           | Raise e => r = error_response e
           end
       end.
Proof.
  intros kwargs. unfold chat, try_except, bind. fold kwargs.
  destruct (acompletion kwargs w) as [[raw|e] w'] eqn:Hcall; cbn [fst snd].
  - destruct (_parse_response json_loads raw) as [parsed|e]; cbn.
    + by exists parsed.
    + by exists (error_response e).
  - by exists (error_response e).
Qed.

End LiteLLM.

Example openrouter_prefix :
  resolve_model sample_provider None = "openrouter/anthropic/claude-opus-4-5".
Proof. reflexivity. Qed.

Example chat_on_timeout :
  chat (fun _ => None) (fun _ => raise "timeout") sample_provider [] None None 4096 (7 # 10) tt
  = (Ok (error_response "timeout"), tt).
Proof. reflexivity. Qed.

End ProviderFacts.

(** ** Schema validation *)

Module ValidationFacts.
Import Py Base ValidationSpec.

(** Induction on values, through the lists and dicts they nest. *)
Lemma value_nested_ind (P : value -> Prop) :
  P VNone ->
  (forall b, P (VBool b)) ->
  (forall z, P (VInt z)) ->
  (forall q, P (VFloat q)) ->
  (forall s, P (VStr s)) ->
  (forall l, Forall P l -> P (VList l)) ->
  (forall d, Forall (fun kv => P kv.2) d -> P (VDict d)) ->
  forall v, P v.
Proof.
  intros HNone HBool HInt HFloat HStr HList HDict.
  fix IH 1. intros [| b | z | q | s | l | d].
  - exact HNone.
  - apply HBool.
  - apply HInt.
  - apply HFloat.
  - apply HStr.
  - apply HList. induction l as [|x l IHl]; constructor; [apply IH | exact IHl].
  - apply HDict. induction d as [|[k x] d IHd]; constructor; [apply IH | exact IHd].
Qed.

Section Validate.
Variable py_str : value -> string.

Lemma _validate_unfold (val : value) (sch : schema) (path : string) :
  _validate py_str val sch path =
    if type_mismatch (s_type sch) val
    then [label_of path ++ " 应该是 " ++ default "" (s_type sch) ++ " 类型"]
    else (node_errors py_str val sch path ++ object_errors py_str val sch path
          ++ array_errors py_str val sch path)%list.
Proof.
  unfold node_errors, object_errors, array_errors, label_of.
  destruct val as [| b | z | q | s | l | d]; try reflexivity.
  - cbn [_validate]. destruct (type_mismatch _ _); [reflexivity|].
    do 2 f_equal. destruct (type_is (s_type sch) "array"); [|reflexivity].
    destruct (s_items sch) as [si|]; [|reflexivity].
    generalize 0%nat. induction l as [|x l IHl]; intros i; [reflexivity|].
    cbn [item_errors]. by rewrite <- IHl.
  - cbn [_validate]. destruct (type_mismatch _ _); [reflexivity|].
    f_equal. f_equal. destruct (type_is (s_type sch) "object"); [|reflexivity].
    f_equal. unfold property_errors.
    induction d as [|[k x] d IHd]; [reflexivity|].
    cbn [List.flat_map fst snd]. by rewrite <- IHd.
Qed.

Lemma elem_of_enum_errors (sch : schema) (val : value) (label msg : string) :
  msg ∈ enum_errors py_str sch val label
  <-> exists e, s_enum sch = Some e /\ contains e val = false
                /\ msg = label ++ " 必须是 " ++ py_str (VList e) ++ " 之一".
Proof.
  unfold enum_errors. destruct (s_enum sch) as [e|].
  - destruct (contains e val) eqn:Hc; cbn [negb].
    + rewrite elem_of_nil. split; [done|]. intros (e' & [= <-] & Hc' & _). congruence.
    + rewrite list_elem_of_singleton. split; [intros ->; eauto|].
      by intros (e' & [= <-] & _ & ->).
  - rewrite elem_of_nil. split; [done|]. by intros (e' & [=] & _).
Qed.

Lemma elem_of_bound_errors (sch : schema) (val : value) (label msg : string) :
  msg ∈ bound_errors py_str sch val label
  <-> (exists m, s_minimum sch = Some m /\ lt_num val m = true
                 /\ msg = label ++ " 必须 >= " ++ py_str (num_value m))
      \/ (exists m, s_maximum sch = Some m /\ gt_num val m = true
                    /\ msg = label ++ " 必须 <= " ++ py_str (num_value m)).
Proof.
  unfold bound_errors. rewrite elem_of_app. apply ZifyClasses.or_morph.
  - destruct (s_minimum sch) as [m|].
    + destruct (lt_num val m) eqn:Hc.
      * rewrite list_elem_of_singleton. split; [intros ->; eauto|].
        by intros (m' & [= <-] & _ & ->).
      * rewrite elem_of_nil. split; [done|]. intros (m' & [= <-] & Hc' & _). congruence.
    + rewrite elem_of_nil. split; [done|]. by intros (m' & [=] & _).
  - destruct (s_maximum sch) as [m|].
    + destruct (gt_num val m) eqn:Hc.
      * rewrite list_elem_of_singleton. split; [intros ->; eauto|].
        by intros (m' & [= <-] & _ & ->).
      * rewrite elem_of_nil. split; [done|]. intros (m' & [= <-] & Hc' & _). congruence.
    + rewrite elem_of_nil. split; [done|]. by intros (m' & [=] & _).
Qed.

Lemma elem_of_length_errors (sch : schema) (val : value) (label msg : string) :
  msg ∈ length_errors py_str sch val label
  <-> (exists m, s_minLength sch = Some m /\ (str_len val < m)%Z
                 /\ msg = label ++ " 至少 " ++ py_str (VInt m) ++ " 个字符")
      \/ (exists m, s_maxLength sch = Some m /\ (m < str_len val)%Z
                    /\ msg = label ++ " 最多 " ++ py_str (VInt m) ++ " 个字符").
Proof.
  unfold length_errors. rewrite elem_of_app. apply ZifyClasses.or_morph.
  - destruct (s_minLength sch) as [m|].
    + destruct (Z.ltb_spec (str_len val) m) as [Hc|Hc].
      * rewrite list_elem_of_singleton. split; [intros ->; eauto|].
        by intros (m' & [= <-] & _ & ->).
      * rewrite elem_of_nil. split; [done|]. intros (m' & [= <-] & Hc' & _). lia.
    + rewrite elem_of_nil. split; [done|]. by intros (m' & [=] & _).
  - destruct (s_maxLength sch) as [m|].
    + destruct (Z.ltb_spec m (str_len val)) as [Hc|Hc].
      * rewrite list_elem_of_singleton. split; [intros ->; eauto|].
        by intros (m' & [= <-] & _ & ->).
      * rewrite elem_of_nil. split; [done|]. intros (m' & [= <-] & Hc' & _). lia.
    + rewrite elem_of_nil. split; [done|]. by intros (m' & [=] & _).
Qed.

Lemma elem_of_required_errors (req : list string) (d : list (string * value))
    (path msg : string) :
  msg ∈ required_errors req d path
  <-> exists k, k ∈ req /\ has_key k d = false /\ msg = "缺少必需的 " ++ sub_path path k.
Proof.
  induction req as [|k req IH]; cbn [required_errors].
  - rewrite elem_of_nil. split; [done|]. intros (k & Hk & _). by apply elem_of_nil in Hk.
  - rewrite elem_of_app, IH. split.
    + intros [H|(k' & Hk' & Hrest)].
      * destruct (has_key k d) eqn:Hc; cbn [negb] in H; [by apply elem_of_nil in H|].
        apply list_elem_of_singleton in H as ->. exists k. by rewrite elem_of_cons; auto.
      * exists k'. rewrite elem_of_cons. tauto.
    + intros (k' & Hk' & Hc & ->). apply elem_of_cons in Hk' as [->|Hk'].
      * left. rewrite Hc. by apply list_elem_of_singleton.
      * right. eauto.
Qed.

Lemma elem_of_property_errors (props : list (string * schema)) (path : string)
    (d : list (string * value)) (msg : string) :
  msg ∈ property_errors py_str props path d
  <-> exists k v sk, (k, v) ∈ d /\ assoc k props = Some sk
                     /\ msg ∈ _validate py_str v sk (sub_path path k).
Proof.
  unfold property_errors. rewrite list_elem_of_In, in_flat_map. split.
  - intros ([k v] & Hin & Hmsg). cbn [fst snd] in Hmsg.
    destruct (assoc k props) as [sk|] eqn:Hsk; [|done].
    exists k, v, sk. by rewrite !list_elem_of_In.
  - intros (k & v & sk & Hin & Hsk & Hmsg). exists (k, v). cbn [fst snd].
    rewrite Hsk, <- !list_elem_of_In. done.
Qed.

Lemma elem_of_item_errors (si : schema) (path : string) (i : nat) (l : list value)
    (msg : string) :
  msg ∈ item_errors py_str si path i l
  <-> exists j item, l !! j = Some item
                     /\ msg ∈ _validate py_str item si (item_path path (i + j)).
Proof.
  revert i. induction l as [|x l IH]; intros i; cbn [item_errors].
  - rewrite elem_of_nil. split; [done|]. by intros (j & item & Hj & _).
  - rewrite elem_of_app, IH. split.
    + intros [H|(j & item & Hj & H)].
      * exists 0%nat, x. by rewrite Nat.add_0_r.
      * exists (S j), item. by rewrite Nat.add_succ_r.
    + intros ([|j] & item & Hj & H).
      * left. cbn in Hj. injection Hj as <-. by rewrite Nat.add_0_r in H.
      * right. exists j, item. by rewrite Nat.add_succ_r in H.
Qed.

Lemma type_is_spec (t : option string) (n : string) :
  type_is t n = true <-> t = Some n.
Proof.
  destruct t as [s|]; cbn; [|done]. rewrite String.eqb_eq. split; congruence.
Qed.

Lemma applies_intro (sch : schema) (val : value) (types : list string) :
  type_mismatch (s_type sch) val = false ->
  (types = [] \/ exists t, s_type sch = Some t /\ t ∈ types) ->
  applies true sch val types.
Proof. by split. Qed.

Lemma type_error_violation (val : value) (sch : schema) (path msg : string) :
  type_mismatch (s_type sch) val = true ->
  msg ∈ [label_of path ++ " 应该是 " ++ default "" (s_type sch) ++ " 类型"] ->
  violation py_str true val sch path msg.
Proof.
  intros Hmm ->%list_elem_of_singleton.
  destruct (s_type sch) as [t|] eqn:Ht; [by apply V_type | discriminate].
Qed.

Lemma node_errors_violation (val : value) (sch : schema) (path msg : string) :
  type_mismatch (s_type sch) val = false ->
  msg ∈ node_errors py_str val sch path ->
  violation py_str true val sch path msg.
Proof.
  intros Hmm. unfold node_errors. rewrite !elem_of_app. intros [Henum|[Hbound|Hlen]].
  - apply elem_of_enum_errors in Henum as (e & He & Hc & ->).
    apply V_enum; [apply applies_intro; auto | done | done].
  - destruct (type_is (s_type sch) "integer" || type_is (s_type sch) "number") eqn:Hty;
      [|by apply elem_of_nil in Hbound].
    assert (Happ : applies true sch val ["integer"; "number"]).
    { apply applies_intro; [exact Hmm|]. right.
      apply orb_true_iff in Hty as [Hty|Hty]; apply type_is_spec in Hty;
        eexists; (split; [exact Hty | set_unfold; auto]). }
    destruct (proj1 (elem_of_bound_errors _ _ _ _) Hbound)
      as [(m & Hm & Hc & ->)|(m & Hm & Hc & ->)].
    + by eapply V_minimum.
    + by eapply V_maximum.
  - destruct (type_is (s_type sch) "string") eqn:Hty; [|by apply elem_of_nil in Hlen].
    apply type_is_spec in Hty.
    assert (Happ : applies true sch val ["string"]).
    { apply applies_intro; [exact Hmm|]. right. exists "string". split; [done | set_unfold; auto]. }
    rewrite Hty in Hmm. destruct val; try discriminate Hmm.
    destruct (proj1 (elem_of_length_errors _ _ _ _) Hlen)
      as [(m & Hm & Hc & ->)|(m & Hm & Hc & ->)].
    + by eapply V_minLength.
    + by eapply V_maxLength.
Qed.

Lemma object_errors_violation (d : list (string * value)) (sch : schema)
    (path msg : string) :
  Forall (fun kv => forall sch path msg,
            msg ∈ _validate py_str kv.2 sch path ->
            violation py_str true kv.2 sch path msg) d ->
  type_mismatch (s_type sch) (VDict d) = false ->
  msg ∈ object_errors py_str (VDict d) sch path ->
  violation py_str true (VDict d) sch path msg.
Proof.
  intros IH Hmm. unfold object_errors.
  destruct (type_is (s_type sch) "object") eqn:Hty; [|by intros ?%elem_of_nil].
  apply type_is_spec in Hty.
  assert (Happ : applies true sch (VDict d) ["object"]).
  { apply applies_intro; [done|]. right. exists "object". split; [done | set_unfold; auto]. }
  intros [Hreq|Hprop]%elem_of_app.
  - apply elem_of_required_errors in Hreq as (k & Hk & Hc & ->).
    destruct (s_required sch) as [req|] eqn:Hreq; [|by apply elem_of_nil in Hk].
    by eapply V_required.
  - apply elem_of_property_errors in Hprop as (k & v & sk & Hin & Hsk & Hmsg).
    destruct (s_properties sch) as [props|] eqn:Hprops; [|discriminate].
    eapply V_property; [done | done | exact Hin | exact Hsk |].
    rewrite Forall_forall in IH. by apply (IH (k, v)).
Qed.

Lemma array_errors_violation (l : list value) (sch : schema) (path msg : string) :
  Forall (fun item => forall sch path msg,
            msg ∈ _validate py_str item sch path ->
            violation py_str true item sch path msg) l ->
  type_mismatch (s_type sch) (VList l) = false ->
  msg ∈ array_errors py_str (VList l) sch path ->
  violation py_str true (VList l) sch path msg.
Proof.
  intros IH Hmm. unfold array_errors.
  destruct (type_is (s_type sch) "array") eqn:Hty; [|by intros ?%elem_of_nil].
  apply type_is_spec in Hty.
  destruct (s_items sch) as [si|] eqn:Hsi; [|by intros ?%elem_of_nil].
  assert (Happ : applies true sch (VList l) ["array"]).
  { apply applies_intro; [done|]. right. exists "array". split; [done | set_unfold; auto]. }
  intros (j & item & Hj & Hmsg)%elem_of_item_errors.
  eapply V_item; [done | done | exact Hj |].
  rewrite Forall_forall in IH. apply IH; [|done].
  by eapply list_elem_of_lookup_2.
Qed.

Lemma object_errors_of_scalar (val : value) (sch : schema) (path : string) :
  (forall d, val <> VDict d) -> object_errors py_str val sch path = [].
Proof.
  intros Hval. unfold object_errors. destruct (type_is _ _); [|done].
  destruct val; try done. by destruct (Hval d).
Qed.

Lemma array_errors_of_scalar (val : value) (sch : schema) (path : string) :
  (forall l, val <> VList l) -> array_errors py_str val sch path = [].
Proof.
  intros Hval. unfold array_errors. destruct (type_is _ _); [|done].
  destruct (s_items sch); [|done].
  destruct val; try done. by destruct (Hval l).
Qed.

Lemma validate_reports_violation (val : value) :
  forall sch path msg,
    msg ∈ _validate py_str val sch path -> violation py_str true val sch path msg.
Proof.
  induction val as [| b | z | q | s | l IHl | d IHd] using value_nested_ind;
    intros sch path msg; rewrite _validate_unfold;
    (destruct (type_mismatch (s_type sch) _) eqn:Hmm;
     [ by apply type_error_violation
     | intros [Hnode|[Hobj|Harr]%elem_of_app]%elem_of_app;
       [ by apply node_errors_violation | | ] ]).
  all: try (rewrite object_errors_of_scalar in Hobj by done; by apply elem_of_nil in Hobj).
  all: try (rewrite array_errors_of_scalar in Harr by done; by apply elem_of_nil in Harr).
  - by apply array_errors_violation.
  - by apply object_errors_violation.
Qed.

Lemma applies_elim (sch : schema) (val : value) (types : list string) :
  applies true sch val types ->
  type_mismatch (s_type sch) val = false
  /\ (types = [] \/ exists t, s_type sch = Some t /\ t ∈ types).
Proof. intros [Hty Hmm]. split; [by apply Hmm | exact Hty]. Qed.

Lemma applies_ungated (sch : schema) (val : value) (types : list string) :
  applies true sch val types -> applies false sch val types.
Proof. intros [Hty _]. split; [exact Hty | discriminate]. Qed.

Lemma violation_reported (val : value) (sch : schema) (path msg : string) :
  violation py_str true val sch path msg -> msg ∈ _validate py_str val sch path.
Proof.
  induction 1 as [val sch path t Ht Hmm
                 | val sch path e Happ He Hc
                 | val sch path m Happ Hm Hc
                 | val sch path m Happ Hm Hc
                 | s sch path m Happ Hm Hc
                 | s sch path m Happ Hm Hc
                 | d sch path req k Happ Hreq Hk Hc
                 | d sch path props k v sk msg Happ Hprops Hin Hsk _ IH
                 | l sch path si i item msg Happ Hsi Hi _ IH];
    rewrite _validate_unfold.
  - rewrite Ht, Hmm. by apply list_elem_of_singleton.
  - apply applies_elim in Happ as [-> _].
    apply elem_of_app; left. unfold node_errors. apply elem_of_app; left.
    apply elem_of_enum_errors. eauto.
  - apply applies_elim in Happ as [-> [[=]|(t & Ht & Hin)]].
    apply elem_of_app; left. unfold node_errors.
    apply elem_of_app; right. apply elem_of_app; left.
    replace (type_is (s_type sch) "integer" || type_is (s_type sch) "number") with true.
    + apply elem_of_bound_errors. left. eauto.
    + rewrite Ht. set_unfold. by destruct Hin as [->|[->|[]]].
  - apply applies_elim in Happ as [-> [[=]|(t & Ht & Hin)]].
    apply elem_of_app; left. unfold node_errors.
    apply elem_of_app; right. apply elem_of_app; left.
    replace (type_is (s_type sch) "integer" || type_is (s_type sch) "number") with true.
    + apply elem_of_bound_errors. right. eauto.
    + rewrite Ht. set_unfold. by destruct Hin as [->|[->|[]]].
  - apply applies_elim in Happ as [-> [[=]|(t & Ht & Hin)]].
    apply elem_of_app; left. unfold node_errors.
    apply elem_of_app; right. apply elem_of_app; right.
    replace (type_is (s_type sch) "string") with true.
    + apply elem_of_length_errors. left. eauto.
    + rewrite Ht. set_unfold. by destruct Hin as [->|[]].
  - apply applies_elim in Happ as [-> [[=]|(t & Ht & Hin)]].
    apply elem_of_app; left. unfold node_errors.
    apply elem_of_app; right. apply elem_of_app; right.
    replace (type_is (s_type sch) "string") with true.
    + apply elem_of_length_errors. right. eauto.
    + rewrite Ht. set_unfold. by destruct Hin as [->|[]].
  - apply applies_elim in Happ as [-> [[=]|(t & Ht & Hin)]].
    apply elem_of_app; right. apply elem_of_app; left. unfold object_errors.
    replace (type_is (s_type sch) "object") with true.
    + apply elem_of_app; left. apply elem_of_required_errors.
      exists k. by rewrite Hreq.
    + rewrite Ht. set_unfold. by destruct Hin as [->|[]].
  - apply applies_elim in Happ as [-> [[=]|(t & Ht & Hin')]].
    apply elem_of_app; right. apply elem_of_app; left. unfold object_errors.
    replace (type_is (s_type sch) "object") with true.
    + apply elem_of_app; right. apply elem_of_property_errors.
      exists k, v, sk. by rewrite Hprops.
    + rewrite Ht. set_unfold. by destruct Hin' as [->|[]].
  - apply applies_elim in Happ as [-> [[=]|(t & Ht & Hin)]].
    apply elem_of_app; right. apply elem_of_app; right. unfold array_errors.
    replace (type_is (s_type sch) "array") with true.
    + rewrite Hsi. apply elem_of_item_errors. by exists i, item.
    + rewrite Ht. set_unfold. by destruct Hin as [->|[]].
Qed.

(** Whatever the code reports is a violation as the checks are listed. *)
Lemma gated_violation_is_violation (val : value) (sch : schema) (path msg : string) :
  violation py_str true val sch path msg -> violation py_str false val sch path msg.
Proof.
  induction 1; econstructor; try eassumption; by apply applies_ungated.
Qed.

(** C3, as amended: the errors [_validate] returns are exactly the
    violations of the checks listed (type match; enum membership; minimum
    and maximum under a declared type integer or number; length bounds
    under string; required fields and, property by property, the schemas
    of the properties under object; item by item, the items schema under
    array), all of them and at every depth, except that a value that does
    not match its declared type gives the type error and nothing else for
    that value. *)
Theorem validate_enumerates_gated_violations (val : value) (sch : schema)
    (path msg : string) :
  msg ∈ _validate py_str val sch path <-> violation py_str true val sch path msg.
Proof.
  split; [apply validate_reports_violation | apply violation_reported].
Qed.

End Validate.

Import Samples.

Example mode_args_errors :
  _validate show mode_args mode_schema "" = ["mode 应该是 string 类型"; "n 必须 >= 0"].
Proof. reflexivity. Qed.

Example nested_errors_are_collected :
  _validate show
    (VDict [("cfg", VDict [("level", VInt 11)]); ("tags", VList [VStr "a"; VInt 2; VStr ""])])
    (object_schema
       [("cfg", object_schema
                  [("level", Schema (Some "integer") None None (Some (NInt 10))
                               None None None None None)]
                  ["level"; "name"]);
        ("tags", Schema (Some "array") None None None None None None None
                   (Some (Schema (Some "string") None None None (Some 1%Z) None
                            None None None)))]
       ["cfg"; "tags"; "owner"])
    ""
  = ["缺少必需的 owner"; "缺少必需的 cfg.name"; "cfg.level 必须 <= 10";
     "tags[1] 应该是 string 类型"; "tags[2] 至少 1 个字符"].
Proof. reflexivity. Qed.

(** C3, as stated, fails: [mode_args] breaks [mode_schema] in three ways,
    and the enum violation of [mode] is not among the errors returned. *)
Lemma enum_violation_not_enumerated :
  violation show false mode_args mode_schema "" "mode 必须是 ['fast', 'slow'] 之一"
  /\ ~ "mode 必须是 ['fast', 'slow'] 之一" ∈ _validate show mode_args mode_schema "".
Proof.
  split.
  - eapply (V_property show false _ mode_schema "" _ "mode" (VInt 5)).
    + split; [|discriminate]. right. exists "object". split; [done | set_unfold; auto].
    + reflexivity.
    + set_unfold. auto.
    + reflexivity.
    + apply (V_enum show false (VInt 5) _ "mode" [VStr "fast"; VStr "slow"]);
        [split; [by left | discriminate] | reflexivity | reflexivity].
  - rewrite mode_args_errors. set_unfold. intros [H|[H|[]]]; discriminate H.
Qed.

End ValidationFacts.

(** ** The tool registry *)

Module RegistryFacts.
Import Py Base Effects Registry RegistrySpec.

Section ToolRegistry.
Context {W : Type}.
Variable py_str : value -> string.
Variable py_repr : value -> string.

(** Validation against an object schema accepts dicts only. *)
Lemma validate_object_accepts_dict (val : value) (sch : schema) (path : string) :
  _validate py_str val (with_type sch "object") path = [] ->
  exists kwargs, val = VDict kwargs.
Proof.
  destruct val; try (cbn; discriminate). intros _. by eexists.
Qed.

Lemma validate_params_accepts_dict (tool : Tool W) (params : value) :
  validate_params py_str py_repr tool params = Ok [] ->
  exists kwargs, params = VDict kwargs.
Proof.
  unfold validate_params.
  destruct (negb _); [discriminate|].
  intros [= H]. by apply validate_object_accepts_dict in H.
Qed.

(** What [execute] does on a registered tool, case by case. *)
Lemma execute_registered (self : gmap string (Tool W)) (n : string) (tool : Tool W)
    (params : value) (s : store W) :
  self !! n = Some tool ->
  execute py_str py_repr self n params s =
    match validate_params py_str py_repr tool params with
    | Raise e => (Ok (failed n e), s)
    | Ok (e :: es) => (Ok (invalid n (e :: es)), s)
    | Ok [] =>
        match params with
        | VDict kwargs =>
            let out := Base.execute tool kwargs (world s) in
            (Ok match out.1 with Ok text => text | Raise e => failed n e end,
             {| world := out.2; invoked := invoked (record_call tool kwargs s) |})
        | _ => (Ok (failed n "argument after ** must be a mapping"), s)
        end
    end.
Proof.
  intros Hget. unfold execute. rewrite Hget. unfold try_except.
  destruct (validate_params py_str py_repr tool params) as [[|e es]|e]; try reflexivity.
  destruct params; try reflexivity.
  unfold call_execute, bind, modify, zoom. cbn.
  destruct (Base.execute tool d (world s)) as [[text|e] w']; reflexivity.
Qed.

(** [execute] returns a text from every state. *)
Lemma execute_returns (self : gmap string (Tool W)) (n : string) (params : value)
    (s : store W) :
  exists text, (execute py_str py_repr self n params s).1 = Ok text.
Proof.
  destruct (self !! n) as [tool|] eqn:Hget.
  - rewrite (execute_registered _ _ _ _ _ Hget).
    destruct (validate_params py_str py_repr tool params) as [[|e es]|e];
      [|by eexists..].
    destruct params; by eexists.
  - unfold execute. rewrite Hget. by eexists.
Qed.

(** C1: on a registered tool, [execute] calls the tool's own execute
    exactly when validation reports no violation.  With violations the
    result is the error text, prefixed as an error and listing them, and
    nothing is invoked: the state is untouched.  With none, the tool is
    invoked exactly once, on the given arguments, and what it returns is
    the result, unchanged. *)
Theorem execute_invokes_iff_valid (self : gmap string (Tool W)) (n : string)
    (tool : Tool W) (params : value) (s : store W) :
  self !! n = Some tool ->
  let out := execute py_str py_repr self n params s in
  (forall e es,
     validate_params py_str py_repr tool params = Ok (e :: es) ->
     out = (Ok ("错误：" ++ "工具 '" ++ n ++ "' 的参数无效：" ++ PyStr.join "；" (e :: es)), s))
  /\ (validate_params py_str py_repr tool params = Ok [] ->
      exists kwargs,
        params = VDict kwargs
        /\ invoked out.2
           = (invoked s ++ [{| inv_tool := name tool; inv_kwargs := kwargs |}])%list
        /\ world out.2 = (Base.execute tool kwargs (world s)).2
        /\ forall text,
             (Base.execute tool kwargs (world s)).1 = Ok text -> out.1 = Ok text)
  /\ (invoked out.2 <> invoked s
      <-> validate_params py_str py_repr tool params = Ok []).
Proof.
  intros Hget out. subst out. rewrite (execute_registered _ _ _ _ _ Hget).
  destruct (validate_params py_str py_repr tool params) as [[|e es]|e] eqn:Hv.
  - destruct (validate_params_accepts_dict _ _ Hv) as [kwargs ->].
    cbn [fst snd invoked world record_call].
    split; [discriminate|]. split.
    + intros _. exists kwargs. repeat split; try reflexivity.
      intros text Ht. by rewrite Ht.
    + split; [done|]. intros _ Heq.
      apply (f_equal List.length) in Heq. rewrite length_app in Heq. cbn in Heq. lia.
  - split; [by intros ? ? [= <- <-]|]. split; [discriminate|].
    cbn. split; [done | discriminate].
  - split; [discriminate|]. split; [discriminate|].
    cbn. split; [done | discriminate].
Qed.

(** C2: [execute] never raises, whatever the name and the arguments.  For
    a name that is not registered the text names the missing tool and
    nothing else happens.  When validation raises, and when the tool's
    execute raises, the text carries the name and the exception's
    message. *)
Theorem execute_never_raises (self : gmap string (Tool W)) (n : string)
    (params : value) (s : store W) :
  exists text s',
    execute py_str py_repr self n params s = (Ok text, s')
    /\ match self !! n with
       | None => text = "错误：未找到工具 '" ++ n ++ "'" /\ s' = s
       | Some tool =>
           match validate_params py_str py_repr tool params with
           | Raise e => text = "执行 " ++ n ++ " 时出错：" ++ e
           | Ok (_ :: _) => True
           | Ok [] =>
               forall kwargs e,
                 params = VDict kwargs ->
                 (Base.execute tool kwargs (world s)).1 = Raise e ->
                 text = "执行 " ++ n ++ " 时出错：" ++ e
           end
       end.
Proof.
  destruct (self !! n) as [tool|] eqn:Hget.
  - rewrite (execute_registered _ _ _ _ _ Hget).
    destruct (validate_params py_str py_repr tool params) as [[|e es]|e] eqn:Hv.
    + destruct (validate_params_accepts_dict _ _ Hv) as [kwargs ->].
      do 2 eexists. split; [reflexivity|].
      intros kw e [= <-] He. by rewrite He.
    + by do 2 eexists.
    + by do 2 eexists.
  - unfold execute. rewrite Hget. by do 2 eexists.
Qed.

End ToolRegistry.

Import Samples.

Example execute_valid_call :
  execute show show echo_registry "echo" (VDict [("text", VStr "hi")]) fresh_store
  = (Ok "hi", {| world := 1;
                 invoked := [{| inv_tool := "echo";
                                inv_kwargs := [("text", VStr "hi")] |}] |}).
Proof. vm_compute. reflexivity. Qed.

Example execute_invalid_call :
  execute show show echo_registry "echo" (VDict [("text", VInt 3)]) fresh_store
  = (Ok "错误：工具 'echo' 的参数无效：text 应该是 string 类型", fresh_store).
Proof. vm_compute. reflexivity. Qed.

Example execute_unknown_tool :
  execute show show echo_registry "nope" (VDict []) fresh_store
  = (Ok "错误：未找到工具 'nope'", fresh_store).
Proof. vm_compute. reflexivity. Qed.

Lemma execute_invokes_iff_valid_witness :
  echo_registry !! "echo" = Some echo_tool
  /\ (invoked (execute show show echo_registry "echo"
                 (VDict [("text", VStr "hi")]) fresh_store).2
      <> invoked fresh_store
      <-> validate_params show show echo_tool (VDict [("text", VStr "hi")]) = Ok []).
Proof.
  assert (H : echo_registry !! "echo" = Some echo_tool) by (vm_compute; reflexivity).
  split; [exact H|].
  apply (execute_invokes_iff_valid show show echo_registry "echo" echo_tool
           (VDict [("text", VStr "hi")]) fresh_store H).
Defined.

End RegistryFacts.

(** ** The subagent manager *)

Module SubagentFacts.
Import Py Base Effects Provider Subagent SubagentSpec.

Section Manager.
Context {W : Type}.
Variable py_str : value -> string.
Variable py_repr : value -> string.
Variable json_dumps : value -> string.
Variable now : W -> Z.
Variable class_body : tool_class -> ctor_args -> Tool W.

Lemma build_tools_register_all (self : SubagentManager W) :
  build_tools class_body self = register_all (subagent_tools class_body self) Registry.new.
Proof. reflexivity. Qed.

Lemma register_all_lookup (l : list (Tool W)) (reg : gmap string (Tool W))
    (n : string) (t : Tool W) :
  register_all l reg !! n = Some t ->
  (t ∈ l /\ n = name t) \/ reg !! n = Some t.
Proof.
  revert reg. induction l as [|x l IH]; intros reg; cbn [register_all foldl].
  - auto.
  - intros H. apply IH in H as [[Hin Hn]|H].
    + left. split; [by apply elem_of_cons; right | done].
    + unfold Registry.register in H. apply lookup_insert_Some in H as [[<- <-]|[_ H]].
      * left. split; [by apply elem_of_cons; left | done].
      * by right.
Qed.

Lemma register_all_dom (l : list (Tool W)) (reg : gmap string (Tool W)) :
  dom (register_all l reg) = dom reg ∪ list_to_set (name <$> l).
Proof.
  revert reg. induction l as [|x l IH]; intros reg; cbn [register_all foldl].
  - cbn. set_solver.
  - fold (register_all l (Registry.register x reg)). rewrite IH.
    unfold Registry.register. rewrite dom_insert_L. cbn. set_solver.
Qed.

(** C6: the registry built for a subagent run holds the six tools built
    for it and nothing else: its names are exactly the names of the file
    read, file write, directory list, shell, web search and web fetch
    tools, and every tool in it is one of these six instances, so none is
    the spawn tool and none is the messaging tool. *)
Theorem subagent_registry_is_restricted (self : SubagentManager W) :
  dom (build_tools class_body self) = list_to_set (name <$> subagent_tools class_body self)
  /\ cls <$> subagent_tools class_body self = subagent_classes
  /\ forall n t,
       build_tools class_body self !! n = Some t ->
       t ∈ subagent_tools class_body self /\ n = name t
       /\ cls t ∈ subagent_classes /\ cls t <> SpawnTool /\ cls t <> MessageTool.
Proof.
  rewrite build_tools_register_all. split; [|split].
  - rewrite register_all_dom. unfold Registry.new. rewrite dom_empty_L. set_solver.
  - reflexivity.
  - intros n t H. apply register_all_lookup in H as [[Hin Hn]|H].
    + split; [done|]. split; [done|].
      assert (Hcls : cls t ∈ subagent_classes).
      { change subagent_classes with (cls <$> subagent_tools class_body self).
        by apply list_elem_of_fmap_2. }
      split; [done|].
      unfold subagent_classes in Hcls. set_unfold.
      split; intros Heq; rewrite Heq in Hcls; naive_solver.
    + unfold Registry.new in H. by rewrite lookup_empty in H.
Qed.

(** *** The reasoning loop *)

Lemma execute_tool_calls_returns (tools : gmap string (Tool W))
    (calls : list ToolCallRequest) (messages : list value) (s : state W) :
  exists msgs s',
    execute_tool_calls py_str py_repr tools calls messages s = (Ok msgs, s')
    /\ bus s' = bus s /\ chats s' = chats s.
Proof.
  revert messages s. induction calls as [|tc rest IH]; intros messages s.
  - by exists messages, s.
  - cbn [execute_tool_calls]. unfold bind, on_store, zoom.
    destruct (RegistryFacts.execute_returns py_str py_repr tools
                (tc_name tc) (tc_arguments tc) (store s)) as [text Htext].
    destruct (Registry.execute py_str py_repr tools (tc_name tc) (tc_arguments tc)
                (store s)) as [r st'].
    cbn [fst] in Htext. subst r.
    destruct (IH (messages ++ [tool_message tc text])%list
                 {| store := st'; bus := bus s; chats := chats s |})
      as (msgs & s' & Hrun & Hbus & Hchats).
    exists msgs, s'. by rewrite Hrun.
Qed.

Lemma provider_chat_frame (self : SubagentManager W) (tools : gmap string (Tool W))
    (messages : list value) (s : state W) :
  let out := provider_chat self tools messages s in
  out.1 = (provider self messages (Registry.get_definitions tools) (model self)
             (Registry.world (store s))).1
  /\ bus out.2 = bus s
  /\ chats out.2 = (chats s ++ [messages])%list.
Proof.
  unfold provider_chat, bind, modify, on_world, on_store, zoom. cbn.
  by destruct (provider self messages _ _ _) as [r w'].
Qed.

(** The loop leaves the bus alone, whatever the backend and the tools do. *)
Lemma agent_loop_bus (self : SubagentManager W) (tools : gmap string (Tool W))
    (remaining iteration : nat) (messages : list value) (s : state W) :
  bus (agent_loop py_str py_repr json_dumps self tools remaining iteration messages s).2
  = bus s.
Proof.
  revert iteration messages s.
  induction remaining as [|remaining IH]; intros iteration messages s; [reflexivity|].
  cbn [agent_loop]. unfold bind at 1.
  destruct (provider_chat_frame self tools messages s) as (_ & Hbus & _).
  destruct (provider_chat self tools messages s) as [[response|e] s1]; cbn [snd] in *;
    [|done].
  destruct (has_tool_calls response); [|done].
  unfold bind.
  destruct (execute_tool_calls_returns tools (tool_calls response)
              (messages ++ [assistant_message json_dumps response])%list s1)
    as (msgs & s2 & Hrun & Hbus2 & _).
  rewrite Hrun, IH. congruence.
Qed.

Lemma requests_tools_during_step (self : SubagentManager W)
    (tools : gmap string (Tool W)) (rounds : nat) (messages : list value)
    (s : state W) (r : LLMResponse) (w1 : W) :
  provider self messages (Registry.get_definitions tools) (model self)
    (Registry.world (store s)) = (Ok r, w1) ->
  has_tool_calls r = true ->
  (forall messages' s2,
     execute_tool_calls py_str py_repr tools (tool_calls r)
       (messages ++ [assistant_message json_dumps r])%list
       {| store := {| Registry.world := w1;
                      Registry.invoked := Registry.invoked (store s) |};
          bus := bus s;
          chats := (chats s ++ [messages])%list |}
     = (Ok messages', s2) ->
     requests_tools_during py_str py_repr json_dumps self tools rounds messages' s2) ->
  requests_tools_during py_str py_repr json_dumps self tools (S rounds) messages s.
Proof. intros Hcall Htc Hnext. by exists r, w1. Qed.

(** A backend that asks for tools whatever it is sent does so during
    every run. *)
Lemma always_requests_tools_during (self : SubagentManager W)
    (tools : gmap string (Tool W)) (rounds : nat) (messages : list value)
    (s : state W) :
  always_requests_tools self ->
  requests_tools_during py_str py_repr json_dumps self tools rounds messages s.
Proof.
  intros Hprov. revert messages s.
  induction rounds as [|rounds IH]; intros messages s; [exact I|].
  destruct (Hprov messages (Registry.get_definitions tools) (model self)
              (Registry.world (store s))) as (r & w1 & Hcall & Htc).
  apply (requests_tools_during_step _ _ _ _ _ r w1 Hcall Htc).
  intros messages' s2 _. apply IH.
Qed.

Lemma provider_chat_run (self : SubagentManager W) (tools : gmap string (Tool W))
    (messages : list value) (s : state W) (r : LLMResponse) (w1 : W) :
  provider self messages (Registry.get_definitions tools) (model self)
    (Registry.world (store s)) = (Ok r, w1) ->
  provider_chat self tools messages s
  = (Ok r, {| store := {| Registry.world := w1;
                          Registry.invoked := Registry.invoked (store s) |};
              bus := bus s;
              chats := (chats s ++ [messages])%list |}).
Proof.
  intros Hcall. unfold provider_chat, bind, modify, on_world, on_store, zoom.
  cbn [fst snd store bus chats Registry.world Registry.invoked]. by rewrite Hcall.
Qed.

(** When each answer of the run carries tool calls, the loop runs its
    full count and ends without a final result. *)
Lemma agent_loop_exhausts (self : SubagentManager W) (tools : gmap string (Tool W))
    (remaining iteration : nat) (messages : list value) (s : state W) :
  requests_tools_during py_str py_repr json_dumps self tools remaining messages s ->
  exists s',
    agent_loop py_str py_repr json_dumps self tools remaining iteration messages s
    = (Ok ((iteration + remaining)%nat, None), s')
    /\ List.length (chats s') = (List.length (chats s) + remaining)%nat.
Proof.
  revert iteration messages s.
  induction remaining as [|remaining IH]; intros iteration messages s Hrun.
  - exists s. cbn. by rewrite !Nat.add_0_r.
  - destruct Hrun as (r & w1 & Hcall & Htc & Hnext).
    cbn [agent_loop]. unfold bind at 1.
    rewrite (provider_chat_run self tools messages s r w1 Hcall), Htc. unfold bind.
    destruct (execute_tool_calls_returns tools (tool_calls r)
                (messages ++ [assistant_message json_dumps r])%list
                {| store := {| Registry.world := w1;
                               Registry.invoked := Registry.invoked (store s) |};
                   bus := bus s;
                   chats := (chats s ++ [messages])%list |})
      as (msgs & s2 & Hexec & _ & Hchats2).
    rewrite Hexec.
    destruct (IH (S iteration) msgs s2 (Hnext msgs s2 Hexec)) as (s' & Hloop & Hlen).
    exists s'. rewrite Hloop. split; [do 3 f_equal; lia|].
    rewrite Hlen, Hchats2. cbn [chats]. rewrite length_app. cbn. lia.
Qed.

Lemma append_associative (a b c : string) : (a ++ b) ++ c = a ++ (b ++ c).
Proof.
  induction a as [|x a IH]; [reflexivity|].
  change (String x ((a ++ b) ++ c) = String x (a ++ (b ++ c))). by rewrite IH.
Qed.

Lemma announce_content_ok (label task result : string) :
  announce_content label task result "ok" = success_text label task result.
Proof.
  unfold announce_content, success_text, announce_template, status_text.
  cbn [String.eqb Ascii.eqb Bool.eqb PyStr.join].
  by rewrite !append_associative.
Qed.

Lemma announce_content_error (label task result : string) :
  announce_content label task result "error" = failure_text label task result.
Proof.
  unfold announce_content, failure_text, announce_template, status_text.
  cbn [String.eqb Ascii.eqb Bool.eqb PyStr.join].
  by rewrite !append_associative.
Qed.

(** C4: in a run where each of the fifteen answers of the completion
    backend carries tool calls, the loop makes exactly 15 iterations, the
    ceiling, calling the backend 15 times, and then returns: the one
    event it publishes is the announcement of a success, "成功完成", whose
    result is the canned message that no final response was produced. *)
Theorem subagent_stops_at_iteration_ceiling (self : SubagentManager W)
    (task_id task label : string) (o : origin) (s : state W) :
  requests_tools_during py_str py_repr json_dumps self (build_tools class_body self) 15
    (opening_transcript (_build_subagent_prompt self task) task) s ->
  exists s',
    _run_subagent py_str py_repr json_dumps now class_body self task_id task label o s
    = (Ok tt, s')
    /\ (run_body py_str py_repr json_dumps now class_body self task_id task label o s).1
       = Ok 15%nat
    /\ List.length (chats s') = (List.length (chats s) + 15)%nat
    /\ Bus.inbound (bus s')
       = (Bus.inbound (bus s)
          ++ [announcement (success_text label task "任务已完成，但未生成最终响应。") o
                (now (Registry.world (store s')))])%list
    /\ Bus.outbound (bus s') = Bus.outbound (bus s).
Proof.
  intros Hrun.
  destruct (agent_loop_exhausts self (build_tools class_body self) max_iterations 0
              (initial_messages self task) s Hrun) as (s1 & Hloop & Hlen).
  pose proof (agent_loop_bus self (build_tools class_body self) max_iterations 0
                (initial_messages self task) s) as Hbus.
  rewrite Hloop in Hbus. cbn [snd] in Hbus.
  unfold _run_subagent, try_except, run_body, bind. rewrite Hloop.
  cbn [fst snd default from_option id]. unfold _announce_result, ret.
  eexists. split; [reflexivity|]. split; [reflexivity|].
  cbn [chats bus store Bus.publish_inbound Bus.inbound Bus.outbound]. rewrite Hbus.
  split; [exact Hlen|]. split; [|reflexivity].
  unfold no_final_response. by rewrite announce_content_ok.
Qed.

(** C5: every run returns, and publishes exactly one inbound event.  Its
    channel is "system", its chat id is the origin's channel and chat id
    joined by a colon, so that its session key is "system:" followed by
    them, and the origin is read back from the chat id when the origin's
    channel has no colon; the outbound queue is untouched.  Its content is
    the announcement written out: the label with the words for success,
    the task and the loop's result (the canned message when there is
    none), or, when the loop raised, the label with the word for failure,
    the task and "错误：" followed by the exception's message; in both
    cases followed by the instruction to summarise. *)
Theorem subagent_announces_exactly_once (self : SubagentManager W)
    (task_id task label : string) (o : origin) (s : state W) :
  exists s' msg,
    _run_subagent py_str py_repr json_dumps now class_body self task_id task label o s
    = (Ok tt, s')
    /\ Bus.inbound (bus s') = (Bus.inbound (bus s) ++ [msg])%list
    /\ Bus.outbound (bus s') = Bus.outbound (bus s)
    /\ Events.channel msg = "system"
    /\ Events.chat_id msg = o_channel o ++ ":" ++ o_chat_id o
    /\ Events.session_key msg = "system:" ++ o_channel o ++ ":" ++ o_chat_id o
    /\ (PyStr.mem ":" (o_channel o) = false ->
        Helpers.parse_session_key (Events.chat_id msg) = (o_channel o, o_chat_id o))
    /\ Events.content msg =
         match (agent_loop py_str py_repr json_dumps self (build_tools class_body self)
                  max_iterations 0 (initial_messages self task) s).1 with
         | Ok out =>
             success_text label task (default "任务已完成，但未生成最终响应。" out.2)
         | Raise e => failure_text label task ("错误：" ++ e)
         end.
Proof.
  pose proof (agent_loop_bus self (build_tools class_body self) max_iterations 0
                (initial_messages self task) s) as Hbus.
  unfold _run_subagent, try_except, run_body, bind.
  destruct (agent_loop py_str py_repr json_dumps self (build_tools class_body self)
              max_iterations 0 (initial_messages self task) s) as [[out|e] s1];
    cbn [fst snd] in *; unfold _announce_result, ret;
    do 2 eexists; (split; [reflexivity|]);
    cbn [bus Bus.publish_inbound Bus.inbound Bus.outbound]; rewrite Hbus;
    (split; [reflexivity|]); (split; [reflexivity|]); (split; [reflexivity|]);
    (split; [reflexivity|]); (split; [reflexivity|]); split.
  1, 3: intros Hch; unfold Helpers.parse_session_key; cbn [Events.chat_id];
    change (o_channel o ++ ":" ++ o_chat_id o)
      with (o_channel o ++ String ":" (o_chat_id o));
    by rewrite (SessionKeyFacts.split1_at_first_separator _ _ _ Hch).
  - cbn [Events.content]. unfold no_final_response. apply announce_content_ok.
  - cbn [Events.content]. apply announce_content_error.
Qed.

End Manager.

Import Samples.

Example fifteen_rounds_then_the_canned_message :
  let run := _run_subagent show show (fun _ => "{}") Z.of_nat sample_class_body
               insistent_manager "a1b2c3d4" "read the notes" "notes" cli_origin
               fresh_state in
  run.1 = Ok tt
  /\ List.length (chats run.2) = 15%nat
  /\ List.length (Registry.invoked (store run.2)) = 15%nat
  /\ Bus.inbound (bus run.2)
     = [announcement (success_text "notes" "read the notes" canned_result) cli_origin 15].
Proof. vm_compute. repeat split. Qed.

(** A failing backend is announced as a failure, with its message. *)
Example backend_failure_is_announced :
  let failing := {| provider := fun _ _ _ w => (Raise "connection refused", w);
                    workspace := "/ws"; model := "m"; brave_api_key := None;
                    exec_timeout := 60; restrict_to_workspace := false |} in
  Bus.inbound
    (bus (_run_subagent show show (fun _ => "{}") Z.of_nat sample_class_body failing
            "a1b2c3d4" "read the notes" "notes" cli_origin fresh_state).2)
  = [announcement (failure_text "notes" "read the notes" "错误：connection refused")
       cli_origin 0].
Proof. vm_compute. reflexivity. Qed.

(** The bounded backend would answer in words on a long transcript, but
    during a run each of its fifteen answers asks for a tool. *)
Lemma bounded_manager_requests_tools :
  requests_tools_during show show (fun _ => "{}") bounded_manager
    (build_tools sample_class_body bounded_manager) 15
    (opening_transcript (_build_subagent_prompt bounded_manager "read the notes")
       "read the notes")
    fresh_state.
Proof.
  do 15 (eapply requests_tools_during_step;
         [reflexivity | reflexivity
          | intros messages' s2 Hexec; vm_compute in Hexec; injection Hexec as <- <-]).
  exact I.
Qed.

Lemma subagent_stops_at_iteration_ceiling_witness :
  exists s',
    _run_subagent show show (fun _ => "{}") Z.of_nat sample_class_body
      bounded_manager "a1b2c3d4" "read the notes" "notes" cli_origin fresh_state
    = (Ok tt, s')
    /\ (run_body show show (fun _ => "{}") Z.of_nat sample_class_body
          bounded_manager "a1b2c3d4" "read the notes" "notes" cli_origin
          fresh_state).1 = Ok 15%nat
    /\ List.length (chats s') = (List.length (chats fresh_state) + 15)%nat
    /\ Bus.inbound (bus s')
       = (Bus.inbound (bus fresh_state)
          ++ [announcement (success_text "notes" "read the notes" "任务已完成，但未生成最终响应。")
                cli_origin (Z.of_nat (Registry.world (store s')))])%list
    /\ Bus.outbound (bus s') = Bus.outbound (bus fresh_state).
Proof.
  apply (subagent_stops_at_iteration_ceiling show show (fun _ => "{}") Z.of_nat
           sample_class_body bounded_manager "a1b2c3d4" "read the notes" "notes"
           cli_origin fresh_state bounded_manager_requests_tools).
Defined.

End SubagentFacts.
(* ===================================================================== *)
(** * Further properties                                                  *)
(* ===================================================================== *)

(** ** Strings *)

Module PyStrFacts.

Lemma len_app (a b : string) : PyStr.len (a ++ b) = (PyStr.len a + PyStr.len b)%nat.
Proof.
  induction a as [|c a IH]; [reflexivity|].
  simpl. rewrite IH. by destruct (PyStr.is_continuation c).
Qed.

Lemma len_take (n : nat) (s : string) :
  PyStr.len (PySlice.take n s) = Nat.min n (PyStr.len s).
Proof.
  revert n. induction s as [|c s IH]; intros n; cbn [PySlice.take PyStr.len].
  - by rewrite Nat.min_0_r.
  - destruct (PyStr.is_continuation c) eqn:Hc; cbn [PyStr.len]; rewrite ?Hc.
    + apply IH.
    + destruct n as [|n]; [reflexivity|]. cbn [PyStr.len]. rewrite Hc, IH. lia.
Qed.

Lemma take_all (n : nat) (s : string) :
  (PyStr.len s <= n)%nat -> PySlice.take n s = s.
Proof.
  revert n. induction s as [|c s IH]; intros n; cbn [PySlice.take PyStr.len]; [done|].
  destruct (PyStr.is_continuation c).
  - intros H. by rewrite IH.
  - destruct n as [|n]; [lia|]. intros H. rewrite IH; [done | lia].
Qed.

Lemma take_prefix (n : nat) (s : string) :
  PyStr.startswith s (PySlice.take n s) = true.
Proof.
  unfold PyStr.startswith.
  revert n. induction s as [|c s IH]; intros n; cbn [PySlice.take]; [reflexivity|].
  destruct (PyStr.is_continuation c).
  - cbn. destruct (ascii_dec c c); [apply IH | done].
  - destruct n as [|n]; [reflexivity|]. cbn. destruct (ascii_dec c c); [apply IH | done].
Qed.

Lemma startswith_app (p q : string) : PyStr.startswith (p ++ q) p = true.
Proof.
  unfold PyStr.startswith. induction p as [|a p IH]; simpl; [by destruct q|].
  by destruct (ascii_dec a a).
Qed.

Lemma len_upto (k : Z) (s : string) :
  (Z.of_nat (PyStr.len (PySlice.upto k s))
   = Z.max 0 (Z.min (Z.of_nat (PyStr.len s))
                (if (0 <=? k)%Z then k else Z.of_nat (PyStr.len s) + k)))%Z.
Proof.
  unfold PySlice.upto. destruct (Z.leb_spec 0 k); rewrite len_take; lia.
Qed.

Lemma mem_app (c : ascii) (a b : string) :
  PyStr.mem c (a ++ b) = PyStr.mem c a || PyStr.mem c b.
Proof.
  induction a as [|x a IH]; [reflexivity|]. simpl. rewrite IH. by rewrite orb_assoc.
Qed.

Lemma mem_rev_app (c : ascii) (s t : string) :
  PyStr.mem c (String.rev_app s t) = PyStr.mem c s || PyStr.mem c t.
Proof.
  revert t. induction s as [|x s IH]; intros t; [reflexivity|].
  cbn [String.rev_app PyStr.mem]. rewrite IH. cbn [PyStr.mem].
  destruct (Ascii.eqb x c), (PyStr.mem c s), (PyStr.mem c t); reflexivity.
Qed.

Lemma mem_rev (c : ascii) (s : string) : PyStr.mem c (String.rev s) = PyStr.mem c s.
Proof. unfold String.rev. rewrite mem_rev_app. cbn. by rewrite orb_false_r. Qed.

Lemma lstrip_gen_unfold (fwd : bool) (a : ascii) (r : string) :
  PyStr.lstrip_gen fwd (String a r) =
    if PyStr.space1 a then PyStr.lstrip_gen fwd r
    else match r with
         | EmptyString => String a r
         | String b r2 =>
             if (if fwd then PyStr.space2 a b else PyStr.space2 b a)
             then PyStr.lstrip_gen fwd r2
             else match r2 with
                  | EmptyString => String a r
                  | String c r3 =>
                      if (if fwd then PyStr.space3 a b c else PyStr.space3 c b a)
                      then PyStr.lstrip_gen fwd r3
                      else String a r
                  end
         end.
Proof. reflexivity. Qed.

(** Stripping removes characters, it brings none in. *)
Lemma mem_lstrip_gen (fwd : bool) (c : ascii) (s : string) :
  PyStr.mem c (PyStr.lstrip_gen fwd s) = true -> PyStr.mem c s = true.
Proof.
  remember (String.length s) as n eqn:Hn. revert s Hn.
  induction n as [n IH] using lt_wf_ind. intros s Hn.
  destruct s as [|a r]; [done|]. rewrite lstrip_gen_unfold.
  assert (Hr : forall t, (String.length t < n)%nat ->
               PyStr.mem c (PyStr.lstrip_gen fwd t) = true -> PyStr.mem c t = true)
    by (intros t Ht; by apply (IH _ Ht)).
  cbn in Hn.
  destruct (PyStr.space1 a).
  { intros H. apply Hr in H; [|lia]. cbn [PyStr.mem]. by rewrite H, orb_true_r. }
  destruct r as [|b r2]; [done|].
  destruct (if fwd then PyStr.space2 a b else PyStr.space2 b a).
  { intros H. apply Hr in H; [|cbn in Hn; lia].
    cbn [PyStr.mem]. by rewrite H, !orb_true_r. }
  destruct r2 as [|d r3]; [done|].
  destruct (if fwd then PyStr.space3 a b d else PyStr.space3 d b a); [|done].
  intros H. apply Hr in H; [|cbn in Hn; lia].
  cbn [PyStr.mem]. by rewrite H, !orb_true_r.
Qed.

Lemma mem_strip (c : ascii) (s : string) :
  PyStr.mem c (PyStr.strip s) = true -> PyStr.mem c s = true.
Proof.
  unfold PyStr.strip, PyStr.rstrip, PyStr.lstrip. rewrite mem_rev.
  intros H. apply mem_lstrip_gen in H. rewrite mem_rev in H.
  by apply mem_lstrip_gen in H.
Qed.

Lemma mem_cons (c a : ascii) (r : string) :
  PyStr.mem c (String a r) = Ascii.eqb a c || PyStr.mem c r.
Proof. reflexivity. Qed.

Lemma replace_char_cons (old : ascii) (new : string) (a : ascii) (r : string) :
  PySlice.replace_char old new (String a r)
  = if Ascii.eqb a old then new ++ PySlice.replace_char old new r
    else String a (PySlice.replace_char old new r).
Proof. reflexivity. Qed.

Lemma mem_replace_char (c old : ascii) (s : string) :
  c <> "_"%char ->
  PyStr.mem c (PySlice.replace_char old "_" s)
  = PyStr.mem c s && negb (Ascii.eqb c old).
Proof.
  intros Hc. induction s as [|a s IH]; [reflexivity|].
  rewrite replace_char_cons, (mem_cons c a).
  destruct (Ascii.eqb_spec a old) as [->|Hne].
  - rewrite mem_app, IH. change (PyStr.mem c "_") with (Ascii.eqb "_" c || false).
    destruct (Ascii.eqb_spec "_"%char c) as [E|_]; [by destruct Hc|].
    rewrite (Ascii.eqb_sym old c).
    destruct (Ascii.eqb c old); [by rewrite andb_false_r | done].
  - rewrite mem_cons, IH.
    destruct (Ascii.eqb_spec a c) as [->|_]; [|done].
    destruct (Ascii.eqb_spec c old) as [E|_]; [by destruct Hne | done].
Qed.

(** Splitting: a string without the separator is one piece, and the first
    piece never holds the separator. *)
Lemma split_without_separator (sep : ascii) (s : string) :
  PyStr.mem sep s = false -> PyStr.split sep s = [s].
Proof.
  induction s as [|a s IH]; [reflexivity|]. cbn [PyStr.mem PyStr.split].
  intros [Ha Hs]%orb_false_elim. by rewrite Ha, (IH Hs).
Qed.

Lemma split_head (sep : ascii) (s : string) :
  exists first rest, PyStr.split sep s = first :: rest
                     /\ PyStr.mem sep first = false
                     /\ PyStr.startswith s first = true.
Proof.
  unfold PyStr.startswith.
  induction s as [|a s (first & rest & IH & Hmem & Hpre)]; cbn [PyStr.split].
  - by exists "", [].
  - destruct (Ascii.eqb a sep) eqn:Ha.
    + by exists "", (PyStr.split sep s).
    + rewrite IH. exists (String a first), rest. split; [done|]. split.
      * cbn. by rewrite Ha.
      * cbn. by destruct (ascii_dec a a).
Qed.

End PyStrFacts.

(** ** The string helpers *)

Module StringHelpersFacts.
Import StringHelpers PyStrFacts.

Example truncate_short : truncate_string "hello" 100 "..." = "hello".
Proof. reflexivity. Qed.

Example truncate_long : truncate_string "hello world" 8 "..." = "hello...".
Proof. reflexivity. Qed.

(** With a suffix longer than the limit the slice bound is negative and
    counts from the end: the result outgrows the limit. *)
Example truncate_below_suffix : truncate_string "abcdefgh" 2 "..." = "abcdefg...".
Proof. reflexivity. Qed.

(** X1: when the suffix is no longer than the limit, the result of
    [truncate_string] never has more than [max_len] characters: a string
    within the limit is returned as it is, a longer one is cut to its first
    [max_len - len(suffix)] characters followed by the suffix, exactly
    [max_len] characters in all. *)
Theorem truncate_string_fits (s : string) (max_len : Z) (suffix : string) :
  (Z.of_nat (PyStr.len suffix) <= max_len)%Z ->
  (Z.of_nat (PyStr.len (truncate_string s max_len suffix)) <= max_len)%Z
  /\ ((Z.of_nat (PyStr.len s) <= max_len)%Z -> truncate_string s max_len suffix = s)
  /\ ((max_len < Z.of_nat (PyStr.len s))%Z ->
      truncate_string s max_len suffix
      = PySlice.take (Z.to_nat (max_len - Z.of_nat (PyStr.len suffix))) s ++ suffix
      /\ Z.of_nat (PyStr.len (truncate_string s max_len suffix)) = max_len).
Proof.
  intros Hsuf. unfold truncate_string.
  destruct (Z.leb_spec (Z.of_nat (PyStr.len s)) max_len) as [Hle|Hgt].
  - split; [done|]. split; [done | lia].
  - assert (Hcut : PySlice.upto (max_len - Z.of_nat (PyStr.len suffix)) s
                   = PySlice.take (Z.to_nat (max_len - Z.of_nat (PyStr.len suffix))) s).
    { unfold PySlice.upto. destruct (Z.leb_spec 0 (max_len - Z.of_nat (PyStr.len suffix)));
        [done | lia]. }
    rewrite Hcut, len_app, len_take.
    split; [lia|]. split; [lia|]. intros _. split; [done | lia].
Qed.

Lemma truncate_string_fits_witness :
  (Z.of_nat (PyStr.len "...") <= 8)%Z
  /\ (Z.of_nat (PyStr.len (truncate_string "hello world" 8 "...")) <= 8)%Z.
Proof.
  split; [vm_compute; discriminate|].
  apply (truncate_string_fits "hello world" 8 "..."). vm_compute. discriminate.
Defined.

Example sanitize_short : sanitize_content "hello" 4000 = "hello".
Proof. reflexivity. Qed.

Example sanitize_long :
  sanitize_content "hello world" 5 = "hello" ++ PyStr.nl ++ "... (内容已截断)".
Proof. reflexivity. Qed.

Lemma truncation_mark_len : PyStr.len truncation_mark = 12%nat.
Proof. reflexivity. Qed.

(** X2: for a limit that is not negative, [sanitize_content] returns
    content within the limit unchanged; longer content is cut to its first
    [max_length] characters and the truncation mark is appended, so that the
    result has exactly [max_length + 12] characters, more than the limit. *)
Theorem sanitize_content_shape (content : string) (max_length : Z) :
  (0 <= max_length)%Z ->
  ((Z.of_nat (PyStr.len content) <= max_length)%Z ->
   sanitize_content content max_length = content)
  /\ ((max_length < Z.of_nat (PyStr.len content))%Z ->
      sanitize_content content max_length
      = PySlice.take (Z.to_nat max_length) content ++ truncation_mark
      /\ Z.of_nat (PyStr.len (sanitize_content content max_length)) = (max_length + 12)%Z)
  /\ PyStr.startswith (sanitize_content content max_length)
       (PySlice.take (Z.to_nat max_length) content) = true.
Proof.
  intros Hmax. unfold sanitize_content.
  destruct (Z.ltb_spec max_length (Z.of_nat (PyStr.len content))) as [Hgt|Hle].
  - unfold PySlice.upto. destruct (Z.leb_spec 0 max_length); [|lia].
    split; [lia|]. split.
    + intros _. split; [done|]. rewrite len_app, len_take, truncation_mark_len. lia.
    + apply startswith_app.
  - split; [done|]. split; [lia|]. apply take_prefix.
Qed.

Lemma sanitize_content_shape_witness :
  (0 <= 5)%Z /\ sanitize_content "hello" 5 = "hello".
Proof.
  split; [lia|].
  apply (sanitize_content_shape "hello" 5); [lia | vm_compute; discriminate].
Defined.

Example safe_filename_demo : safe_filename " a/b:c?.txt " = "a_b_c_.txt".
Proof. reflexivity. Qed.

Lemma unsafe_not_underscore (c : ascii) : c ∈ unsafe -> c <> "_"%char.
Proof. unfold unsafe. set_unfold. intros H ->. naive_solver. Qed.

(** X3: the name [safe_filename] returns holds none of the nine unsafe
    characters: no path separator, no colon, no quote, no wildcard. *)
Theorem safe_filename_has_no_unsafe_character (name : string) (c : ascii) :
  c ∈ unsafe -> PyStr.mem c (safe_filename name) = false.
Proof.
  intros Hc. pose proof (unsafe_not_underscore c Hc) as Hne.
  destruct (PyStr.mem c (safe_filename name)) eqn:Hmem; [|done].
  unfold safe_filename in Hmem. apply mem_strip in Hmem.
  cbn [foldl unsafe] in Hmem. rewrite !mem_replace_char in Hmem by done.
  unfold unsafe in Hc. set_unfold.
  repeat (destruct Hc as [->|Hc]; [rewrite Ascii.eqb_refl in Hmem; cbn in Hmem;
                                   by rewrite ?andb_false_r in Hmem|]).
  done.
Qed.

Lemma safe_filename_has_no_unsafe_character_witness :
  "/"%char ∈ unsafe /\ PyStr.mem "/" (safe_filename "../etc/passwd") = false.
Proof.
  assert (H : "/"%char ∈ unsafe) by (unfold unsafe; set_unfold; auto 10).
  split; [exact H|].
  apply (safe_filename_has_no_unsafe_character "../etc/passwd" "/" H).
Defined.

End StringHelpersFacts.

(** ** Sessions *)

Module SessionFacts.
Import Py Effects Session SessionSpec.

Section Methods.
Variable isoformat : Z -> string.

Lemma assoc_dict_set (k k' : string) (v : value) (d : list (string * value)) :
  assoc k' (dict_set k v d) = if String.eqb k' k then Some v else assoc k' d.
Proof.
  induction d as [|[k0 v0] d IH]; cbn [dict_set assoc].
  - by destruct (String.eqb k' k).
  - destruct (String.eqb_spec k k0) as [->|Hne]; cbn [assoc].
    + by destruct (String.eqb k' k0).
    + rewrite IH. destruct (String.eqb_spec k' k0) as [->|_]; [|done].
      destruct (String.eqb_spec k0 k) as [E|_]; [by destruct Hne | done].
Qed.

Lemma assoc_dict_update (k : string) (d kwargs : list (string * value)) :
  Forall (fun kv => kv.1 <> k) kwargs ->
  assoc k (dict_update d kwargs) = assoc k d.
Proof.
  unfold dict_update. revert d.
  induction kwargs as [|[k0 v0] kwargs IH]; intros d Hfree; [reflexivity|].
  inversion Hfree as [|? ? Hk0 Hrest]; subst. cbn [foldl fst snd] in *.
  rewrite (IH _ Hrest), assoc_dict_set.
  destruct (String.eqb_spec k k0) as [->|_]; [by destruct Hk0 | done].
Qed.

Lemma free_keywords_accepted (kwargs : list (string * value)) :
  free_keywords kwargs ->
  existsb (fun kv => String.eqb kv.1 "role" || String.eqb kv.1 "content"
                     || String.eqb kv.1 "self") kwargs = false.
Proof.
  induction 1 as [|[k v] kwargs (Hr & Hc & Hs) _ IH]; [reflexivity|].
  cbn [existsb fst] in *. rewrite IH.
  by rewrite (proj2 (String.eqb_neq _ _) Hr), (proj2 (String.eqb_neq _ _) Hc),
             (proj2 (String.eqb_neq _ _) Hs).
Qed.

Lemma llm_format_all_well_formed (l : list (list (string * value))) :
  Forall (fun m => is_Some (assoc "role" m) /\ is_Some (assoc "content" m)) l ->
  llm_format_all l = Ok (llm_view <$> l).
Proof.
  induction 1 as [|m l [[r Hr] [c Hc]] _ IH]; [reflexivity|].
  cbn [llm_format_all fmap list_fmap]. unfold llm_format, llm_view.
  by rewrite Hr, Hc, IH.
Qed.

Lemma history_of_well_formed (self : Session) (max_messages : Z) :
  well_formed self ->
  let n := List.length (messages self) in
  exists h,
    get_history max_messages self = Ok h
    /\ ((1 <= max_messages)%Z ->
        h = llm_view <$> drop (n - Z.to_nat max_messages) (messages self)
        /\ List.length h = Nat.min n (Z.to_nat max_messages))
    /\ (max_messages = 0%Z -> h = llm_view <$> messages self).
Proof.
  intros Hwf n. unfold get_history.
  destruct (Z.ltb_spec max_messages (Z.of_nat (List.length (messages self))))
    as [Hlt|Hge].
  - rewrite llm_format_all_well_formed
      by (unfold PySlice.list_from; destruct (_ <=? _)%Z; by apply Forall_drop).
    eexists. split; [reflexivity|]. split.
    + intros Hpos. unfold PySlice.list_from.
      destruct (Z.leb_spec 0 (- max_messages)); [lia|].
      replace (Z.to_nat (Z.of_nat (List.length (messages self)) + - max_messages))
        with (n - Z.to_nat max_messages)%nat by (subst n; lia).
      split; [done|]. rewrite length_fmap, length_drop. subst n. lia.
    + intros ->. by unfold PySlice.list_from.
  - rewrite llm_format_all_well_formed by done.
    eexists. split; [reflexivity|]. split.
    + intros Hpos.
      replace (n - Z.to_nat max_messages)%nat with 0%nat by (subst n; lia).
      split; [done|]. rewrite length_fmap. subst n. lia.
    + done.
Qed.

(** X4: on a session whose messages all have a role and a content,
    [get_history] never raises and returns, reduced to role and content
    and in order, the last [max_messages] messages, or all of them when
    there are fewer, for every [max_messages] of at least 1.  With
    [max_messages = 0] it returns all the messages, not none: the slice
    from "minus zero" starts at the first. *)
Theorem get_history_window (self : Session) (max_messages : Z) :
  well_formed self ->
  let n := List.length (messages self) in
  exists h,
    get_history max_messages self = Ok h
    /\ ((1 <= max_messages)%Z ->
        h = llm_view <$> drop (n - Z.to_nat max_messages) (messages self)
        /\ List.length h = Nat.min n (Z.to_nat max_messages))
    /\ (max_messages = 0%Z -> h = llm_view <$> messages self).
Proof. apply history_of_well_formed. Qed.

(** X5: [add_message] with keywords that name none of its parameters
    appends one message and keeps the session well formed; the history
    read back then ends with the role and content just added, whatever
    the keywords were. *)
Theorem add_message_then_history (self : Session) (t_msg t_upd : Z)
    (role content : string) (kwargs : list (string * value)) (max_messages : Z) :
  well_formed self ->
  free_keywords kwargs ->
  (1 <= max_messages)%Z ->
  exists self' h,
    add_message isoformat t_msg t_upd role content kwargs self = Ok self'
    /\ well_formed self'
    /\ List.length (messages self') = S (List.length (messages self))
    /\ get_history max_messages self' = Ok h
    /\ last h = Some (VDict [("role", VStr role); ("content", VStr content)]).
Proof.
  intros Hwf Hfree Hpos. unfold add_message.
  rewrite (free_keywords_accepted _ Hfree).
  set (msg := dict_update _ kwargs).
  assert (Hrole : assoc "role" msg = Some (VStr role)).
  { subst msg. rewrite assoc_dict_update; [reflexivity|].
    eapply Forall_impl; [exact Hfree|]. by intros kv (? & ? & ?). }
  assert (Hcontent : assoc "content" msg = Some (VStr content)).
  { subst msg. rewrite assoc_dict_update; [reflexivity|].
    eapply Forall_impl; [exact Hfree|]. by intros kv (? & ? & ?). }
  eexists.
  assert (Hwf' : Forall (fun m => is_Some (assoc "role" m) /\ is_Some (assoc "content" m))
                   (messages self ++ [msg])).
  { apply Forall_app. split; [exact Hwf|]. constructor; [|constructor].
    by rewrite Hrole, Hcontent. }
  destruct (history_of_well_formed
              {| key := key self; messages := messages self ++ [msg];
                 created_at := created_at self; updated_at := t_upd;
                 metadata := metadata self |} max_messages Hwf')
    as (h & Hh & Hwin & _).
  exists h. split; [reflexivity|]. split; [exact Hwf'|].
  cbn [messages] in *. split; [rewrite length_app; cbn; lia|]. split; [exact Hh|].
  destruct (Hwin Hpos) as [-> _].
  rewrite drop_app_le by (rewrite length_app; cbn; lia).
  rewrite fmap_app. change (llm_view <$> [msg]) with [llm_view msg].
  rewrite last_snoc. unfold llm_view. by rewrite Hrole, Hcontent.
Qed.

End Methods.

Import MoreSamples.

Lemma two_messages_well_formed : well_formed two_messages.
Proof. unfold well_formed. repeat constructor; by eexists. Qed.

Lemma get_history_window_witness :
  exists h,
    get_history 1 two_messages = Ok h
    /\ ((1 <= 1)%Z ->
        h = llm_view <$> drop (List.length (messages two_messages) - Z.to_nat 1)
                           (messages two_messages)
        /\ List.length h = Nat.min (List.length (messages two_messages)) (Z.to_nat 1))
    /\ (1%Z = 0%Z -> h = llm_view <$> messages two_messages).
Proof. apply (get_history_window two_messages 1 two_messages_well_formed). Defined.

Example history_of_one :
  get_history 1 two_messages
  = Ok [VDict [("role", VStr "assistant"); ("content", VStr "hello")]].
Proof. reflexivity. Qed.

(** A limit of zero gives the whole history. *)
Example history_of_zero :
  get_history 0 two_messages
  = Ok [VDict [("role", VStr "user"); ("content", VStr "hi")];
        VDict [("role", VStr "assistant"); ("content", VStr "hello")]].
Proof. reflexivity. Qed.

Lemma add_message_then_history_witness :
  exists self' h,
    add_message (fun _ => "2026-01-01T00:00:00") 5 6 "user" "more"
      [("name", VStr "bob")] two_messages = Ok self'
    /\ well_formed self'
    /\ List.length (messages self') = S (List.length (messages two_messages))
    /\ get_history 50 self' = Ok h
    /\ last h = Some (VDict [("role", VStr "user"); ("content", VStr "more")]).
Proof.
  apply (add_message_then_history (fun _ => "2026-01-01T00:00:00") two_messages 5 6
           "user" "more" [("name", VStr "bob")] 50 two_messages_well_formed).
  - constructor; [|constructor]. cbn. repeat split; discriminate.
  - lia.
Defined.

(** A keyword named like a parameter is refused. *)
Example add_message_with_role_keyword :
  add_message (fun _ => "t") 5 6 "user" "more" [("role", VStr "system")] two_messages
  = Raise "add_message() got multiple values for argument".
Proof. reflexivity. Qed.

End SessionFacts.

(** ** Channels and the allow list *)

Module ChannelFacts.
Import Py Events Channel ChannelSpec PyStrFacts.

Lemma listed_elem_of (allow_list : list string) (s : string) :
  listed allow_list s = true <-> s ∈ allow_list.
Proof.
  unfold listed. rewrite existsb_exists. split.
  - intros (x & Hin & Heq). apply String.eqb_eq in Heq as ->.
    by apply list_elem_of_In.
  - intros Hin. exists s. split; [by apply list_elem_of_In | apply String.eqb_refl].
Qed.

Lemma any_part_listed_spec (allow_list parts : list string) :
  any_part_listed allow_list parts = true
  <-> exists part, part ∈ parts /\ part <> "" /\ part ∈ allow_list.
Proof.
  induction parts as [|p parts IH]; cbn [any_part_listed].
  - split; [done|]. intros (part & Hin & _). by apply elem_of_nil in Hin.
  - destruct (PyStr.truthy p && listed allow_list p) eqn:Hp.
    + split; [|done]. intros _. apply andb_true_iff in Hp as [Ht Hl].
      exists p. split; [by apply elem_of_cons; left|].
      split; [by destruct p | by apply listed_elem_of].
    + rewrite IH. split.
      * intros (part & Hin & Hne & Hl). exists part.
        split; [by apply elem_of_cons; right | done].
      * intros (part & Hin & Hne & Hl). apply elem_of_cons in Hin as [->|Hin].
        -- apply listed_elem_of in Hl. rewrite Hl, andb_true_r in Hp.
           by destruct p.
        -- by exists part.
Qed.

Lemma is_allowed_passes (self : BaseChannel) (sender_id : string) :
  is_allowed self sender_id = true <-> passes self sender_id.
Proof.
  unfold is_allowed, passes.
  destruct (default [] (allow_from self)) as [|a l] eqn:Hlist.
  - split; [by left | done].
  - destruct (listed (a :: l) sender_id) eqn:Hl.
    + split; [|done]. intros _. right; left. by apply listed_elem_of.
    + assert (Hnot : ~ sender_id ∈ a :: l).
      { intros H. apply listed_elem_of in H. congruence. }
      destruct (PyStr.mem "|" sender_id) eqn:Hbar.
      * rewrite any_part_listed_spec. split; [by right; right|].
        by intros [H|[H|H]].
      * split; [done|]. intros [H|[H|(part & Hin & Hne & Hp)]]; [done | done |].
        rewrite (split_without_separator _ _ Hbar) in Hin.
        apply list_elem_of_singleton in Hin as ->. done.
Qed.

(** X6: a message handed to [_handle_message] reaches the bus exactly when
    its sender passes the allow list: with an empty or absent list every
    sender passes, otherwise the sender itself or one of its non-empty parts
    between bars must be listed.  A sender that passes has one event
    published, carrying the channel's name and the message as given; for
    one that does not, the bus is left as it was. *)
Theorem handle_message_gate (self : BaseChannel) (now : Z)
    (sender chat text : string) (media : option (list string))
    (meta : option (list (string * value))) (bus : Bus.MessageBus) :
  (is_allowed self sender = true <-> passes self sender)
  /\ (passes self sender ->
      _handle_message self now sender chat text media meta bus
      = Bus.publish_inbound
          {| channel := name self; sender_id := sender; chat_id := chat;
             content := text; timestamp := now; media := default [] media;
             metadata := default [] meta |} bus)
  /\ (~ passes self sender ->
      _handle_message self now sender chat text media meta bus = bus).
Proof.
  split; [apply is_allowed_passes|]. unfold _handle_message. split.
  - intros H. apply is_allowed_passes in H. by rewrite H.
  - intros H. destruct (is_allowed self sender) eqn:Hal; [|done].
    by apply is_allowed_passes in Hal.
Qed.

Lemma split_two (sep : ascii) (a b : string) :
  PyStr.mem sep a = false -> PyStr.mem sep b = false ->
  PyStr.split sep (a ++ String sep b) = [a; b].
Proof.
  intros Ha Hb. induction a as [|c a IH]; simpl.
  - by rewrite Ascii.eqb_refl, (split_without_separator _ _ Hb).
  - simpl in Ha. apply orb_false_elim in Ha as [Hc Ha].
    by rewrite Hc, (IH Ha).
Qed.

Lemma split_head_app (sep : ascii) (a b : string) :
  PyStr.mem sep a = false ->
  exists rest, PyStr.split sep (a ++ String sep b) = a :: rest.
Proof.
  intros Ha. induction a as [|c a IH]; simpl.
  - rewrite Ascii.eqb_refl. by eexists.
  - simpl in Ha. apply orb_false_elim in Ha as [Hc Ha].
    rewrite Hc. destruct (IH Ha) as [rest ->]. by eexists.
Qed.

(** X7: a Telegram user with a username is let in by either name: with a
    non-empty allow list, the sender id "id|username" passes exactly when
    the whole id, the numeric id or the username is listed. *)
Theorem telegram_user_allowed_by_id_or_username (self : BaseChannel)
    (user_id username : string) :
  PyStr.mem "|" user_id = false ->
  PyStr.mem "|" username = false ->
  user_id <> "" ->
  username <> "" ->
  default [] (allow_from self) <> [] ->
  telegram_sender_id user_id (Some username) = user_id ++ "|" ++ username
  /\ (is_allowed self (telegram_sender_id user_id (Some username)) = true
      <-> (user_id ++ "|" ++ username) ∈ default [] (allow_from self)
          \/ user_id ∈ default [] (allow_from self)
          \/ username ∈ default [] (allow_from self)).
Proof.
  intros Hid Hname Hid_ne Hname_ne Hlist.
  assert (Hsender : telegram_sender_id user_id (Some username)
                    = user_id ++ "|" ++ username).
  { unfold telegram_sender_id. by destruct username. }
  split; [exact Hsender|]. rewrite Hsender, is_allowed_passes. unfold passes.
  change (user_id ++ "|" ++ username) with (user_id ++ String "|" username).
  rewrite (split_two _ _ _ Hid Hname). split.
  - intros [H|[H|(part & Hin & Hne & Hp)]]; [done | by left |].
    set_unfold. destruct Hin as [->|[->|[]]]; auto.
  - intros [H|[H|H]]; [by right; left | |].
    + right; right. exists user_id. set_unfold. auto.
    + right; right. exists username. set_unfold. auto.
Qed.

Lemma telegram_user_allowed_by_id_or_username_witness :
  telegram_sender_id "1001" (Some "bob") = "1001" ++ "|" ++ "bob"
  /\ (is_allowed MoreSamples.guarded_channel (telegram_sender_id "1001" (Some "bob")) = true
      <-> ("1001" ++ "|" ++ "bob") ∈ default [] (allow_from MoreSamples.guarded_channel)
          \/ "1001" ∈ default [] (allow_from MoreSamples.guarded_channel)
          \/ "bob" ∈ default [] (allow_from MoreSamples.guarded_channel)).
Proof.
  apply (telegram_user_allowed_by_id_or_username MoreSamples.guarded_channel "1001" "bob");
    (reflexivity || discriminate).
Defined.

Example listed_by_number :
  is_allowed MoreSamples.guarded_channel (telegram_sender_id "1001" (Some "bob")) = true.
Proof. reflexivity. Qed.

Example not_listed :
  is_allowed MoreSamples.guarded_channel (telegram_sender_id "2002" (Some "bob")) = false.
Proof. reflexivity. Qed.

(** X8: the sender id taken from a WhatsApp JID holds no at-sign and is a
    prefix of the JID; from "phone@server" it is the phone. *)
Theorem whatsapp_sender_is_the_phone (sender : string) :
  PyStr.mem "@" (whatsapp_sender_id sender) = false
  /\ PyStr.startswith sender (whatsapp_sender_id sender) = true
  /\ forall phone server,
       PyStr.mem "@" phone = false ->
       sender = phone ++ "@" ++ server ->
       whatsapp_sender_id sender = phone.
Proof.
  unfold whatsapp_sender_id. split; [|split].
  - destruct (PyStr.mem "@" sender) eqn:Hat; [|done].
    by destruct (split_head "@" sender) as (first & rest & -> & Hmem & _).
  - destruct (PyStr.mem "@" sender) eqn:Hat.
    + by destruct (split_head "@" sender) as (first & rest & -> & _ & Hpre).
    + unfold PyStr.startswith. clear Hat.
      induction sender as [|a s IH]; [done|]. simpl. by destruct (ascii_dec a a).
  - intros phone server Hphone ->.
    change (phone ++ "@" ++ server) with (phone ++ String "@" server).
    assert (Hat : PyStr.mem "@" (phone ++ String "@" server) = true).
    { rewrite mem_app. simpl. by rewrite orb_true_r. }
    rewrite Hat. clear Hat.
    by destruct (split_head_app "@" phone server Hphone) as [rest ->].
Qed.

End ChannelFacts.

(** ** The outbound dispatcher *)

Module DispatcherFacts.
Import Effects Events Dispatcher DispatcherSpec.

Section ChannelManager.
Context {W : Type}.
Variable channels : gmap string (OutboundMessage -> M W unit).

Lemma deliverable_app (q1 q2 : list OutboundMessage) :
  deliverable channels (q1 ++ q2)
  = (deliverable channels q1 ++ deliverable channels q2)%list.
Proof. unfold deliverable. by rewrite List.filter_app, fmap_app. Qed.

Lemma send_all_app (l1 l2 : list (string * OutboundMessage)) (w : W) :
  send_all channels (l1 ++ l2) w = send_all channels l2 (send_all channels l1 w).
Proof. unfold send_all. by rewrite foldl_app. Qed.

Lemma dispatch_turn_sent (c : consumed) (s : state W) :
  sent (dispatch_turn channels c s)
  = (sent s ++ deliverable channels (messages_of [c]))%list
  /\ world (dispatch_turn channels c s)
     = send_all channels (deliverable channels (messages_of [c])) (world s).
Proof.
  destruct c as [msg|]; cbn [dispatch_turn messages_of omap list_omap].
  - unfold route, deliverable, send_all. cbn [List.filter].
    destruct (channels !! out_channel msg) as [send|] eqn:Hch.
    + rewrite bool_decide_eq_true_2 by done. cbn. by rewrite Hch.
    + rewrite bool_decide_eq_false_2 by (by intros [? ?]).
      cbn. by rewrite app_nil_r.
  - unfold deliverable, send_all. cbn. by rewrite app_nil_r.
Qed.

Lemma dispatch_outbound_cons (c : consumed) (waits : list consumed) (s : state W) :
  _dispatch_outbound channels (c :: waits) s
  = _dispatch_outbound channels waits (dispatch_turn channels c s).
Proof. reflexivity. Qed.

Lemma messages_of_cons (c : consumed) (waits : list consumed) :
  messages_of (c :: waits) = (messages_of [c] ++ messages_of waits)%list.
Proof. by destruct c. Qed.

(** X9: whatever the waits on the outbound queue give, the dispatcher
    calls [send] exactly for the consumed messages whose channel is
    registered, each on the channel it names and in the order they were
    consumed; a message for an unknown channel is dropped, and neither a
    timeout nor a [send] that raises stops the loop or changes what is
    sent afterwards. *)
Theorem dispatcher_routes_by_channel (waits : list consumed) (s : state W) :
  let delivered := deliverable channels (messages_of waits) in
  sent (_dispatch_outbound channels waits s) = (sent s ++ delivered)%list
  /\ world (_dispatch_outbound channels waits s)
     = send_all channels delivered (world s)
  /\ forall c m, (c, m) ∈ delivered <->
                 out_channel m = c /\ is_Some (channels !! c) /\ Message m ∈ waits.
Proof.
  cbv zeta. split; [|split].
  - revert s. induction waits as [|c waits IH]; intros s.
    + cbn. by rewrite app_nil_r.
    + rewrite dispatch_outbound_cons.
      rewrite IH, (proj1 (dispatch_turn_sent c s)), (messages_of_cons c waits),
        deliverable_app. by rewrite app_assoc.
  - revert s. induction waits as [|c waits IH]; intros s; [reflexivity|].
    rewrite dispatch_outbound_cons.
    rewrite IH, (proj2 (dispatch_turn_sent c s)), (messages_of_cons c waits),
      deliverable_app. by rewrite send_all_app.
  - intros c m. unfold deliverable, messages_of.
    rewrite list_elem_of_fmap. split.
    + intros (m' & [= -> ->] & Hin).
      apply list_elem_of_In, filter_In in Hin as [Hin Hch].
      apply bool_decide_eq_true in Hch. split; [done|]. split; [done|].
      apply list_elem_of_In, list_elem_of_omap in Hin as (x & Hx & Hm).
      by destruct x; simplify_eq.
    + intros (<- & Hch & Hin). exists m. split; [done|].
      apply list_elem_of_In, filter_In. split.
      * apply list_elem_of_In, list_elem_of_omap. by exists (Message m).
      * by apply bool_decide_eq_true.
Qed.

End ChannelManager.
End DispatcherFacts.

(** ** Configuration *)

Module ConfigFacts.
Import Config.

Section Methods.
Variable lower : string -> string.

Lemma truthy_nonempty (s : string) : PyStr.truthy s = true <-> s <> "".
Proof. by destruct s. Qed.

Lemma keyword_providers_fallback (p : ProvidersConfig) (kp : string * ProviderConfig) :
  In kp (keyword_providers p) -> In kp.2 (fallback_providers p).
Proof.
  unfold keyword_providers, fallback_providers. cbn [In].
  intros H. repeat (destruct H as [<-|H]; [cbn; tauto|]). done.
Qed.

(** X10: [get_api_key] answers [None] exactly when no provider has a key
    configured, whatever the model is called; a key it returns is never
    empty and is the key of one of the ten providers. *)
Theorem get_api_key_none_iff_no_key (self : Config) (model : option string) :
  (get_api_key lower self model = None
   <-> Forall (fun p => api_key p = "") (fallback_providers (providers self)))
  /\ forall k, get_api_key lower self model = Some k ->
               k <> "" /\ exists p, In p (fallback_providers (providers self))
                                    /\ api_key p = k.
Proof.
  unfold get_api_key, _match_provider. split.
  - destruct (List.find _ (keyword_providers _)) as [kp|] eqn:Hmatch; cbn [fmap option_fmap option_map].
    + split; [done|]. intros Hall.
      apply find_some in Hmatch as [Hin Hcond].
      apply andb_true_iff in Hcond as [_ Hkey].
      apply keyword_providers_fallback in Hin.
      rewrite Forall_forall in Hall. apply list_elem_of_In in Hin.
      rewrite (Hall _ Hin) in Hkey. done.
    + destruct (List.find _ (fallback_providers _)) as [p|] eqn:Hfall;
        cbn [fmap option_fmap option_map].
      * split; [done|]. intros Hall.
        apply find_some in Hfall as [Hin Hkey].
        rewrite Forall_forall in Hall. apply list_elem_of_In in Hin.
        rewrite (Hall _ Hin) in Hkey. done.
      * split; [|done]. intros _. apply Forall_forall. intros p Hin.
        apply list_elem_of_In in Hin.
        pose proof (find_none _ _ Hfall p Hin) as Hkey. cbn beta in Hkey.
        destruct (api_key p); [done | discriminate Hkey].
  - intros k.
    destruct (List.find _ (keyword_providers _)) as [kp|] eqn:Hmatch; cbn [fmap option_fmap option_map].
    + intros [= <-]. apply find_some in Hmatch as [Hin Hcond].
      apply andb_true_iff in Hcond as [_ Hkey].
      split; [by apply truthy_nonempty|].
      exists kp.2. split; [by apply keyword_providers_fallback | done].
    + destruct (List.find _ (fallback_providers _)) as [p|] eqn:Hfall;
        cbn [fmap option_fmap option_map]; [|done].
      intros [= <-]. apply find_some in Hfall as [Hin Hkey].
      split; [by apply truthy_nonempty | by exists p].
Qed.

End Methods.
End ConfigFacts.

(** ** The LiteLLM provider *)

Module LiteLLMFacts.
Import Py Base Effects Provider PyStrFacts.

Section Parse.
Variable json_loads : string -> option value.

(** X11: [_parse_response] raises exactly on an answer without choices.
    Otherwise it reads the first choice: the content is passed on, each
    raw tool call gives one request with the same id and name at the same
    position, arguments that are already parsed are kept and an argument
    text that is no JSON is wrapped under "raw"; an absent list of raw
    tool calls gives none, and the finish reason is never empty. *)
Theorem parse_response_reads_first_choice (response : raw_response) :
  (choices response = [] <-> exists e, _parse_response json_loads response = Raise e)
  /\ forall choice rest,
       choices response = choice :: rest ->
       exists r,
         _parse_response json_loads response = Ok r
         /\ content r = m_content (c_message choice)
         /\ finish_reason r <> ""
         /\ List.length (tool_calls r)
            = List.length (default [] (m_tool_calls (c_message choice)))
         /\ (m_tool_calls (c_message choice) = None -> tool_calls r = [])
         /\ forall i raw,
              default [] (m_tool_calls (c_message choice)) !! i = Some raw ->
              exists tc,
                tool_calls r !! i = Some tc
                /\ tc_id tc = r_id raw
                /\ tc_name tc = f_name (r_function raw)
                /\ (forall v, f_arguments (r_function raw) = inr v -> tc_arguments tc = v)
                /\ (forall text, f_arguments (r_function raw) = inl text ->
                                 json_loads text = None ->
                                 tc_arguments tc = VDict [("raw", VStr text)]).
Proof.
  unfold _parse_response. split.
  - destruct (choices response); split; try done; [by eexists | by intros [e ?]].
  - intros choice rest ->. cbv zeta.
    assert (Hreason : match c_finish_reason choice with
                      | Some r => if PyStr.truthy r then r else "stop"
                      | None => "stop"
                      end <> "")
      by (by destruct (c_finish_reason choice) as [[|a s]|]).
    destruct (m_tool_calls (c_message choice)) as [tcs|]; cbn [from_option id];
      (eexists; split; [reflexivity|]); cbn [content finish_reason tool_calls];
      (split; [done|]); (split; [exact Hreason|]).
    + split; [by rewrite length_fmap|]. split; [done|].
      intros i raw Hi. exists (parse_tool_call json_loads raw).
      split; [by rewrite list_lookup_fmap, Hi|].
      unfold parse_tool_call. cbn [tc_id tc_name tc_arguments].
      split; [done|]. split; [done|]. split.
      * by intros v ->.
      * by intros text -> ->.
    + split; [done|]. split; [done|]. intros i raw Hi. by destruct i.
Qed.

End Parse.

Lemma startswith_cons_app (p s : string) : PyStr.startswith (p ++ s) p = true.
Proof. apply startswith_app. Qed.

(** X12: a provider built with an API base that does not mention
    "openrouter", and with a key that is no OpenRouter key, is a custom
    endpoint: whatever model is asked for, the name sent to the backend
    starts with "hosted_vllm/" and the API base is passed along. *)
Theorem custom_endpoint_is_hosted_vllm (key : option string) (base default_name : string)
    (messages : list value) (tools : option (list tool_definition))
    (model : option string) (max_tokens : Z) (temperature : Q) :
  base <> "" ->
  PyStr.contains base "openrouter" = false ->
  (forall k, key = Some k -> PyStr.startswith k "sk-or-" = false) ->
  let self := init key (Some base) default_name in
  let kwargs := build_kwargs self messages tools model max_tokens temperature in
  is_vllm self = true
  /\ is_openrouter self = false
  /\ PyStr.startswith (k_model kwargs) "hosted_vllm/" = true
  /\ k_api_base kwargs = Some base.
Proof.
  intros Hbase Hor Hkey self kwargs.
  assert (Hopen : is_openrouter self = false).
  { subst self. unfold init. cbn [is_openrouter]. rewrite Hor, andb_false_r, orb_false_r.
    destruct key as [k|]; [|done]. by rewrite (Hkey k eq_refl), andb_false_r. }
  assert (Hvllm : is_vllm self = true).
  { subst self. unfold init in *. cbn [is_vllm is_openrouter] in *.
    rewrite Hopen. unfold opt_truthy. by destruct base. }
  split; [done|]. split; [done|]. subst kwargs. unfold build_kwargs.
  cbn [k_model k_api_base]. unfold resolve_model. rewrite Hvllm. split.
  - apply startswith_app.
  - subst self. cbn [api_base init]. unfold opt_truthy. by destruct base.
Qed.

Lemma custom_endpoint_is_hosted_vllm_witness :
  let self := init (Some "token") (Some "http://localhost:8000/v1") "llama-3" in
  is_vllm self = true
  /\ is_openrouter self = false
  /\ PyStr.startswith
       (k_model (build_kwargs self [] None (Some "openai/llama-3") 4096 (7 # 10)))
       "hosted_vllm/" = true
  /\ k_api_base (build_kwargs self [] None (Some "openai/llama-3") 4096 (7 # 10))
     = Some "http://localhost:8000/v1".
Proof.
  apply (custom_endpoint_is_hosted_vllm (Some "token") "http://localhost:8000/v1" "llama-3"
           [] None (Some "openai/llama-3") 4096 (7 # 10)).
  - discriminate.
  - reflexivity.
  - intros k [= <-]. reflexivity.
Defined.

Example openrouter_gemini :
  resolve_model (init (Some "sk-or-abc") None "anthropic/claude-opus-4-5")
    (Some "google/gemini-pro")
  = "gemini/openrouter/google/gemini-pro".
Proof. reflexivity. Qed.

End LiteLLMFacts.

(** ** The registry as a map *)

Module RegistryMapFacts.
Import Py Base Effects Registry RegistryInv.

Section ToolRegistry.
Context {W : Type}.
Variable py_str : value -> string.
Variable py_repr : value -> string.

(** X13: [register] is last-write-wins: after it, [get] of the tool's
    name gives the tool just registered, every other name is as before,
    and the number of tools grows by one for a new name and stays the
    same when the name replaces an earlier tool. *)
Theorem register_last_write_wins (tool : Tool W) (self : gmap string (Tool W)) :
  get (name tool) (register tool self) = Some tool
  /\ (forall n, n <> name tool -> get n (register tool self) = get n self)
  /\ len (register tool self)
     = (if has (name tool) self then len self else S (len self)).
Proof.
  unfold get, register, len, has. split; [apply lookup_insert_eq|]. split.
  - intros n Hn. by apply lookup_insert_ne.
  - destruct (self !! name tool) as [old|] eqn:Hold.
    + rewrite bool_decide_eq_true_2 by done.
      rewrite <- (insert_delete_id self (name tool) old Hold) at 2.
      rewrite <- insert_delete_eq.
      by rewrite !map_size_insert_None by apply lookup_delete_eq.
    + rewrite bool_decide_eq_false_2 by (by intros [? ?]).
      by apply map_size_insert_None.
Qed.

(** X14: [unregister] removes the name and nothing else, and is a no-op
    on a name that is not registered; executing an unregistered name
    answers with the not-found text and invokes no tool. *)
Theorem unregister_then_execute (n : string) (self : gmap string (Tool W))
    (params : value) (s : store W) :
  get n (unregister n self) = None
  /\ (forall m, m <> n -> get m (unregister n self) = get m self)
  /\ (get n self = None -> unregister n self = self)
  /\ execute py_str py_repr (unregister n self) n params s
     = (Ok ("错误：未找到工具 '" ++ n ++ "'"), s).
Proof.
  unfold get, unregister. split; [apply lookup_delete_eq|]. split.
  - intros m Hm. by apply lookup_delete_ne.
  - split; [apply delete_id|].
    unfold execute. by rewrite lookup_delete_eq.
Qed.

Lemma keyed_by_name_new : keyed_by_name (new (W := W)).
Proof. intros n t H. unfold new in H. by rewrite lookup_empty in H. Qed.

Lemma keyed_by_name_register (tool : Tool W) (self : gmap string (Tool W)) :
  keyed_by_name self -> keyed_by_name (register tool self).
Proof.
  intros Hinv n t H. unfold register in H.
  apply lookup_insert_Some in H as [[<- <-]|[_ H]]; [done | by apply Hinv].
Qed.

Lemma keyed_by_name_unregister (n : string) (self : gmap string (Tool W)) :
  keyed_by_name self -> keyed_by_name (unregister n self).
Proof.
  intros Hinv m t H. unfold unregister in H.
  apply lookup_delete_Some in H as [_ H]. by apply Hinv.
Qed.

(** X15: [register] and [unregister] keep every tool stored under its own
    name, and in such a registry the listings agree: the names advertised
    by [get_definitions] are the names [tool_names] lists, without
    repetition, [len] counts them, and [has] holds of exactly these. *)
Theorem registry_listings_agree (self : gmap string (Tool W)) :
  keyed_by_name (new (W := W))
  /\ (forall tool, keyed_by_name self -> keyed_by_name (register tool self))
  /\ (forall n, keyed_by_name self -> keyed_by_name (unregister n self))
  /\ (keyed_by_name self -> d_name <$> get_definitions self = tool_names self)
  /\ NoDup (tool_names self)
  /\ List.length (tool_names self) = len self
  /\ List.length (get_definitions self) = len self
  /\ forall n, has n self = true <-> n ∈ tool_names self.
Proof.
  split; [apply keyed_by_name_new|].
  split; [intros; by apply keyed_by_name_register|].
  split; [intros; by apply keyed_by_name_unregister|].
  unfold get_definitions, tool_names, len, has. split.
  - intros Hinv. rewrite <- list_fmap_compose.
    apply list_fmap_ext. intros i [k t] Hi. cbn.
    apply list_elem_of_lookup_2, elem_of_map_to_list in Hi. by apply Hinv.
  - split; [apply NoDup_fst_map_to_list|].
    split; [by rewrite length_fmap, length_map_to_list|].
    split; [by rewrite length_fmap, length_map_to_list|].
    intros n. rewrite bool_decide_eq_true. split.
    + intros [t Ht]. apply list_elem_of_fmap. exists (n, t).
      split; [done | by apply elem_of_map_to_list].
    + intros [[k t] [-> Hin]]%list_elem_of_fmap.
      apply elem_of_map_to_list in Hin. by exists t.
Qed.

End ToolRegistry.
End RegistryMapFacts.

(** ** Validation: booleans, undeclared arguments, arguments that are no mapping *)

Module ParameterFacts.
Import Py Base Effects Registry RegistrySpec ValidationSpec ValidationFacts.

Section Validate.
Variable py_str : value -> string.

Lemma eq_bool_as_int (x : value) (b : bool) :
  Py.eq x (VBool b) = Py.eq x (VInt (Z.b2z b)).
Proof. destruct b, x; reflexivity. Qed.

Lemma contains_bool_as_int (e : list value) (b : bool) :
  contains e (VBool b) = contains e (VInt (Z.b2z b)).
Proof.
  unfold contains. induction e as [|x e IH]; [reflexivity|].
  cbn [existsb]. by rewrite eq_bool_as_int, IH.
Qed.

Lemma type_mismatch_bool_as_int (t : option string) (b : bool) :
  t <> Some "boolean" ->
  type_mismatch t (VBool b) = type_mismatch t (VInt (Z.b2z b)).
Proof.
  intros Ht. destruct t as [t|]; [|reflexivity]. unfold type_mismatch, _TYPE_MAP.
  destruct (String.eqb t "string"); [reflexivity|].
  destruct (String.eqb t "integer"); [reflexivity|].
  destruct (String.eqb t "number"); [reflexivity|].
  destruct (String.eqb_spec t "boolean") as [->|_]; [by destruct Ht|].
  destruct (String.eqb t "array"); [reflexivity|].
  by destruct (String.eqb t "object").
Qed.

(** X16: under any schema that does not declare the type "boolean", a
    boolean is validated exactly as the integer it equals, 0 or 1: it is
    accepted where an integer or a number is asked for, and it is held to
    the same enum, minimum and maximum. *)
Theorem boolean_validates_as_integer (b : bool) (sch : schema) (path : string) :
  s_type sch <> Some "boolean" ->
  _validate py_str (VBool b) sch path = _validate py_str (VInt (Z.b2z b)) sch path.
Proof.
  intros Ht. rewrite !_validate_unfold, (type_mismatch_bool_as_int _ b Ht).
  destruct (type_mismatch (s_type sch) (VInt (Z.b2z b))); [reflexivity|].
  assert (Hnode : node_errors py_str (VBool b) sch path
                  = node_errors py_str (VInt (Z.b2z b)) sch path).
  { unfold node_errors, enum_errors, bound_errors, length_errors, lt_num, gt_num.
    destruct (s_enum sch) as [e|]; [rewrite contains_bool_as_int|]; by destruct b. }
  assert (Hobject : object_errors py_str (VBool b) sch path
                    = object_errors py_str (VInt (Z.b2z b)) sch path).
  { unfold object_errors. by destruct (type_is _ _). }
  assert (Harray : array_errors py_str (VBool b) sch path
                   = array_errors py_str (VInt (Z.b2z b)) sch path).
  { unfold array_errors. destruct (type_is _ _); [|reflexivity].
    by destruct (s_items sch). }
  by rewrite Hnode, Hobject, Harray.
Qed.

Lemma has_key_app_other (k k' : string) (v : value) (d : list (string * value)) :
  k' <> k -> has_key k' (d ++ [(k, v)]) = has_key k' d.
Proof.
  intros Hne. unfold has_key. induction d as [|[k0 v0] d IH]; cbn [app assoc].
  - by rewrite (proj2 (String.eqb_neq k' k) Hne).
  - by destruct (String.eqb k' k0).
Qed.

Lemma required_errors_app_other (req : list string) (k : string) (v : value)
    (d : list (string * value)) (path : string) :
  k ∉ req ->
  required_errors req (d ++ [(k, v)]) path = required_errors req d path.
Proof.
  induction req as [|k' req IH]; [reflexivity|]. intros Hk.
  apply not_elem_of_cons in Hk as [Hne Hk]. cbn [required_errors].
  rewrite IH by done. by rewrite has_key_app_other by done.
Qed.

(** X17: an argument the schema does not declare is ignored: given to an
    object whose schema has no property and no required name for it, and
    no enum, it changes none of the errors, so that a valid call stays
    valid whatever undeclared arguments are added. *)
Theorem undeclared_argument_is_ignored (d : list (string * value)) (k : string)
    (v : value) (sch : schema) (path : string) :
  assoc k (default [] (s_properties sch)) = None ->
  k ∉ default [] (s_required sch) ->
  s_enum sch = None ->
  _validate py_str (VDict (d ++ [(k, v)])) sch path = _validate py_str (VDict d) sch path.
Proof.
  intros Hprop Hreq Henum. rewrite !_validate_unfold.
  assert (Htype : type_mismatch (s_type sch) (VDict (d ++ [(k, v)]))
                  = type_mismatch (s_type sch) (VDict d)).
  { unfold type_mismatch. destruct (s_type sch) as [t|]; [|reflexivity].
    unfold _TYPE_MAP. by repeat destruct (String.eqb t _). }
  rewrite Htype. clear Htype.
  destruct (type_mismatch (s_type sch) (VDict d)); [reflexivity|].
  assert (Hnode : node_errors py_str (VDict (d ++ [(k, v)])) sch path
                  = node_errors py_str (VDict d) sch path).
  { unfold node_errors, enum_errors. by rewrite Henum. }
  assert (Hobject : object_errors py_str (VDict (d ++ [(k, v)])) sch path
                    = object_errors py_str (VDict d) sch path).
  { unfold object_errors. destruct (type_is _ _); [|reflexivity].
    rewrite required_errors_app_other by done. f_equal.
    unfold property_errors. rewrite flat_map_app. cbn [List.flat_map fst snd].
    by rewrite Hprop, !app_nil_r. }
  assert (Harray : array_errors py_str (VDict (d ++ [(k, v)])) sch path
                   = array_errors py_str (VDict d) sch path).
  { unfold array_errors. destruct (type_is _ _); [|reflexivity].
    by destruct (s_items sch). }
  by rewrite Hnode, Hobject, Harray.
Qed.

End Validate.

Section ToolRegistry.
Context {W : Type}.
Variable py_str : value -> string.
Variable py_repr : value -> string.

(** X18: arguments that are no mapping never reach a tool: on a
    registered tool [execute] answers with an error text and leaves the
    state as it was, and for a tool whose schema is of type object, or has
    no type, the text reports the one violation that the parameter should
    be an object. *)
Theorem non_mapping_arguments_are_rejected (self : gmap string (Tool W)) (n : string)
    (tool : Tool W) (params : value) (s : store W) :
  self !! n = Some tool ->
  (forall kwargs, params <> VDict kwargs) ->
  exists text,
    execute py_str py_repr self n params s = (Ok text, s)
    /\ (default "object" (s_type (default empty_schema (parameters tool))) = "object" ->
        text = invalid n ["parameter 应该是 object 类型"]).
Proof.
  intros Hget Hparams.
  rewrite (RegistryFacts.execute_registered py_str py_repr _ _ _ _ _ Hget).
  unfold validate_params.
  destruct (String.eqb_spec (default "object" (s_type (default empty_schema (parameters tool))))
              "object") as [Hobj|Hobj]; cbn [negb].
  - destruct params; try (eexists; split; [reflexivity|]; by intros _).
    by destruct (Hparams d).
  - eexists. split; [reflexivity|]. intros H. by destruct Hobj.
Qed.

End ToolRegistry.

Import Samples.

Lemma boolean_validates_as_integer_witness :
  let sch := Schema (Some "integer") None (Some (NInt 1)) None None None None None None in
  _validate show (VBool false) sch "n" = _validate show (VInt 0) sch "n"
  /\ _validate show (VBool false) sch "n" = ["n 必须 >= 1"].
Proof.
  split; [|reflexivity].
  apply (boolean_validates_as_integer show false
           (Schema (Some "integer") None (Some (NInt 1)) None None None None None None) "n").
  discriminate.
Defined.

Lemma undeclared_argument_is_ignored_witness :
  _validate show (VDict ([("text", VStr "hi")] ++ [("verbose", VBool true)]))
    (object_schema [("text", string_schema)] ["text"]) ""
  = _validate show (VDict [("text", VStr "hi")])
      (object_schema [("text", string_schema)] ["text"]) "".
Proof.
  apply (undeclared_argument_is_ignored show [("text", VStr "hi")] "verbose" (VBool true)
           (object_schema [("text", string_schema)] ["text"]) "").
  - reflexivity.
  - cbn. set_unfold. intros [H|H]; [discriminate H | exact H].
  - reflexivity.
Defined.

Lemma non_mapping_arguments_are_rejected_witness :
  exists text,
    execute show show echo_registry "echo" (VList [VStr "hi"]) fresh_store
    = (Ok text, fresh_store)
    /\ (default "object" (s_type (default empty_schema (parameters echo_tool))) = "object" ->
        text = invalid "echo" ["parameter 应该是 object 类型"]).
Proof.
  apply (non_mapping_arguments_are_rejected show show echo_registry "echo" echo_tool
           (VList [VStr "hi"]) fresh_store).
  - reflexivity.
  - discriminate.
Defined.

End ParameterFacts.

(** ** Spawning a subagent *)

Module SpawnFacts.
Import Py Base Effects Spawn SpawnSpec RegistrySpec PyStrFacts.

Lemma append_empty_r (s : string) : s ++ "" = s.
Proof.
  induction s as [|a s IH]; [reflexivity|].
  change (String a (s ++ "") = String a s). by rewrite IH.
Qed.

(** X19: the label shown for a task is the label given when it is not
    empty; otherwise it is the task itself when that has at most 30
    characters, and its first 30 characters followed by three dots when it
    has more, so that a label made from the task never has more than 33
    characters. *)
Theorem display_label_is_short (task : string) (label : option string) :
  (forall l, label = Some l -> l <> "" -> display_label task label = l)
  /\ (label = None \/ label = Some "" ->
      (PyStr.len (display_label task label) <= 33)%nat
      /\ ((PyStr.len task <= 30)%nat -> display_label task label = task)
      /\ ((30 < PyStr.len task)%nat ->
          display_label task label = PySlice.take 30 task ++ "..."
          /\ PyStr.len (display_label task label) = 33%nat)).
Proof.
  unfold display_label. split.
  - intros l -> Hl. by destruct l.
  - intros Hlabel.
    assert (Hfalse : Provider.opt_truthy label = false) by (by destruct Hlabel as [->| ->]).
    rewrite Hfalse. clear Hfalse Hlabel.
    destruct (Nat.ltb_spec 30 (PyStr.len task)) as [Hlong|Hshort].
    + rewrite len_app, len_take. change (PyStr.len "...") with 3%nat.
      split; [lia|]. split; [lia|]. intros _. split; [reflexivity | lia].
    + rewrite append_empty_r, take_all by done.
      split; [lia|]. split; [done | lia].
Qed.


Section Registry.
Variable py_str : value -> string.
Variable py_repr : value -> string.

Lemma validate_string (v : value) (path : string) :
  _validate py_str v (Schema (Some "string") None None None None None None None None) path
  = [] <-> exists s, v = VStr s.
Proof.
  destruct v; cbn; split; try discriminate; try (by intros [s [=]]).
  all: try (intros _; by eexists).
Qed.

Lemma assoc_elem_of {A} (k : string) (v : A) (d : list (string * A)) :
  assoc k d = Some v -> (k, v) ∈ d.
Proof.
  induction d as [|[k0 v0] d IH]; cbn [assoc]; [discriminate|].
  destruct (String.eqb_spec k k0) as [->|_].
  - intros [= ->]. apply elem_of_cons. by left.
  - intros H. apply elem_of_cons. right. by apply IH.
Qed.

Lemma spawn_property_errors (kwargs : list (string * value)) :
  ValidationSpec.property_errors py_str
    (default [] (s_properties (with_type parameters "object"))) "" kwargs = []
  <-> Forall (fun kv => kv.1 = "task" \/ kv.1 = "label" -> exists s, kv.2 = VStr s) kwargs.
Proof.
  unfold ValidationSpec.property_errors.
  induction kwargs as [|[k v] kwargs IH]; cbn [List.flat_map fst snd].
  - split; [constructor | reflexivity].
  - rewrite Forall_cons, <- IH. cbn [fst snd]. clear IH.
    cbn [with_type parameters s_properties default from_option id assoc].
    destruct (String.eqb_spec k "task") as [->|Htask].
    + unfold sub_path. cbn [PyStr.truthy]. split.
      * intros [H1 H2]%app_eq_nil. split; [|done]. intros _. by apply validate_string in H1.
      * intros [H1 H2]. rewrite H2, app_nil_r. apply validate_string. apply H1. by left.
    + destruct (String.eqb_spec k "label") as [->|Hlabel].
      * unfold sub_path. cbn [PyStr.truthy]. split.
        -- intros [H1 H2]%app_eq_nil. split; [|done]. intros _.
           by apply validate_string in H1.
        -- intros [H1 H2]. rewrite H2, app_nil_r. apply validate_string. apply H1.
           by right.
      * cbn [app]. split; [|by intros [_ H]].
        intros H. split; [|done]. by intros [?|?].
Qed.

Lemma spawn_validate_params (self : SpawnTool) (kwargs : list (string * value)) :
  validate_params py_str py_repr (as_tool self) (VDict kwargs)
  = Ok ((if has_key "task" kwargs then [] else ["缺少必需的 task"])
        ++ ValidationSpec.property_errors py_str
             (default [] (s_properties (with_type parameters "object"))) "" kwargs)%list.
Proof.
  unfold validate_params. cbn [as_tool Base.parameters default from_option id].
  change (negb (String.eqb (default "object" (s_type parameters)) "object")) with false.
  cbv iota. rewrite ValidationFacts._validate_unfold.
  change (type_mismatch (s_type (with_type parameters "object")) (VDict kwargs)) with false.
  cbv iota. unfold ValidationSpec.node_errors, ValidationSpec.object_errors,
    ValidationSpec.array_errors.
  cbn [with_type parameters s_type s_enum s_required s_items type_is enum_errors
         default from_option id required_errors app].
  repeat match goal with
         | |- context [String.eqb ?a ?b] =>
             let r := eval vm_compute in (String.eqb a b) in
             change (String.eqb a b) with r
         end.
  cbn [orb app]. cbv iota. rewrite !app_nil_r.
  unfold sub_path. cbn [PyStr.truthy]. by destruct (has_key "task" kwargs).
Qed.

Lemma spawn_valid_iff (self : SpawnTool) (kwargs : list (string * value)) :
  validate_params py_str py_repr (as_tool self) (VDict kwargs) = Ok []
  <-> valid_arguments kwargs.
Proof.
  rewrite spawn_validate_params. unfold valid_arguments.
  rewrite <- spawn_property_errors. unfold has_key.
  destruct (assoc "task" kwargs) as [v|]; cbn [app].
  - split.
    + intros [= H]. split; [by eexists | exact H].
    + intros [_ H]. by f_equal.
  - split; [discriminate | by intros [[? [=]] _]].
Qed.

(** X21: a call of the spawn tool through the registry starts a subagent
    exactly when a task is given, the task and the label, when given, are
    strings, and no argument is named like the receiver of the call: the
    tool is then invoked once, one task is registered under the next
    identifier, holding the task, its label and the origin last set by
    [set_context], and the text returned reports the label and the
    identifier.  Arguments that pass the schema but name the receiver are
    refused by the call itself: the answer is the text of the failure and
    nothing is spawned.  Any other arguments are answered with the text
    listing the violations, and nothing is spawned or invoked. *)
Theorem spawn_tool_through_registry (self : SpawnTool)
    (reg : gmap string (Tool manager)) (kwargs : list (string * value))
    (s : Registry.store manager) :
  reg !! "spawn" = Some (as_tool self) ->
  let out := Registry.execute py_str py_repr reg "spawn" (VDict kwargs) s in
  (valid_arguments kwargs -> bindable kwargs ->
   exists task,
     assoc "task" kwargs = Some (VStr task)
     /\ let m := Registry.world s in
        let task_id := uuid_source m (uuid_drawn m) in
        let shown := display_label task (label_argument kwargs) in
        out.1 = Ok (started_report shown task_id)
        /\ _running_tasks (Registry.world out.2)
           = <[task_id := {| bg_task_id := task_id; bg_task := task; bg_label := shown;
                             bg_origin :=
                               {| Subagent.o_channel := _origin_channel self;
                                  Subagent.o_chat_id := _origin_chat_id self |} |}]>
               (_running_tasks m)
        /\ Registry.invoked out.2
           = (Registry.invoked s
              ++ [{| Registry.inv_tool := "spawn"; Registry.inv_kwargs := kwargs |}])%list)
  /\ (valid_arguments kwargs -> ~ bindable kwargs ->
      Registry.world out.2 = Registry.world s
      /\ exists e, out.1 = Ok (failed "spawn" e))
  /\ (~ valid_arguments kwargs ->
      out.2 = s
      /\ exists errors, errors <> [] /\ out.1 = Ok (invalid "spawn" errors)).
Proof.
  intros Hget out. subst out.
  rewrite (RegistryFacts.execute_registered py_str py_repr _ _ _ _ _ Hget).
  split; [|split].
  - intros Hargs Hself. rewrite (proj2 (spawn_valid_iff self kwargs) Hargs).
    destruct Hargs as [[v Hv] Hall]. rewrite Forall_forall in Hall.
    destruct (Hall _ (assoc_elem_of _ _ _ Hv) (or_introl eq_refl)) as [task Htask].
    cbn [snd] in Htask. subst v.
    exists task. split; [done|]. cbv zeta.
    cbn [as_tool Base.execute Base.name]. unfold execute, label_argument.
    unfold bindable in Hself. rewrite Hself, Hv.
    destruct (assoc "label" kwargs) as [l|] eqn:Hl.
    + destruct (Hall _ (assoc_elem_of _ _ _ Hl) (or_intror eq_refl)) as [label Hlabel].
      cbn [snd] in Hlabel. subst l. repeat split.
    + repeat split.
  - intros Hargs Hself. rewrite (proj2 (spawn_valid_iff self kwargs) Hargs).
    cbn [as_tool Base.execute Base.name]. unfold execute, bindable in *.
    destruct (assoc "self" kwargs) as [v|]; [|done].
    split; [reflexivity | by eexists].
  - intros Hargs.
    destruct (validate_params py_str py_repr (as_tool self) (VDict kwargs))
      as [[|e es]|e] eqn:Hv.
    + by apply spawn_valid_iff in Hv.
    + split; [reflexivity|]. by exists (e :: es).
    + by rewrite spawn_validate_params in Hv.
Qed.

End Registry.

Import Samples MoreSamples.


Lemma spawn_tool_through_registry_witness :
  let out := Registry.execute show show spawn_registry "spawn"
               (VDict [("task", VStr "check the logs")]) idle_store in
  exists task,
    assoc "task" [("task", VStr "check the logs")] = Some (VStr task)
    /\ out.1 = Ok (started_report (display_label task None) "task0000")
    /\ _running_tasks (Registry.world out.2)
       = <["task0000" := {| bg_task_id := "task0000"; bg_task := task;
                            bg_label := display_label task None;
                            bg_origin := {| Subagent.o_channel := "telegram";
                                            Subagent.o_chat_id := "42" |} |}]>
           (_running_tasks idle_manager)
    /\ Registry.invoked out.2
       = [{| Registry.inv_tool := "spawn";
             Registry.inv_kwargs := [("task", VStr "check the logs")] |}].
Proof.
  assert (Hget : spawn_registry !! "spawn" = Some (as_tool telegram_spawn_tool))
    by reflexivity.
  assert (Hargs : valid_arguments [("task", VStr "check the logs")]).
  { split; [by eexists|]. constructor; [|constructor]. intros _. by eexists. }
  exact (proj1 (spawn_tool_through_registry show show telegram_spawn_tool spawn_registry
                  [("task", VStr "check the logs")] idle_store Hget) Hargs eq_refl).
Defined.

(** An argument named like the receiver passes the schema and is refused
    by the call: nothing is spawned. *)
Example spawn_with_receiver_keyword :
  let out := Registry.execute show show spawn_registry "spawn"
               (VDict [("task", VStr "check the logs"); ("self", VInt 1)]) idle_store in
  out.1 = Ok "执行 spawn 时出错：SpawnTool.execute() got multiple values for argument 'self'"
  /\ get_running_count (Registry.world out.2) = 0%nat.
Proof. split; reflexivity. Qed.

Example spawn_without_task :
  (Registry.execute show show spawn_registry "spawn"
     (VDict [("label", VStr "logs")]) idle_store).1
  = Ok "错误：工具 'spawn' 的参数无效：缺少必需的 task".
Proof. reflexivity. Qed.

End SpawnFacts.

(** ** The reasoning loop of a subagent *)

Module SubagentLoopFacts.
Import Py Base Effects Provider Subagent SubagentSpec SubagentLoopSpec RegistrySpec.

Section Manager.
Context {W : Type}.
Variable py_str : value -> string.
Variable py_repr : value -> string.
Variable json_dumps : value -> string.
Variable now : W -> Z.
Variable class_body : tool_class -> ctor_args -> Tool W.

(** One call through the registry records at most one invocation, and
    none under a name that is not registered. *)
Lemma execute_records_at_most_once (tools : gmap string (Tool W)) (n : string)
    (params : value) (st : Registry.store W) :
  exists text st' l,
    Registry.execute py_str py_repr tools n params st = (Ok text, st')
    /\ Registry.invoked st' = (Registry.invoked st ++ l)%list
    /\ (List.length l <= 1)%nat
    /\ (tools !! n = None -> text = not_found n).
Proof.
  destruct (tools !! n) as [tool|] eqn:Hget.
  - rewrite (RegistryFacts.execute_registered py_str py_repr _ _ _ _ _ Hget).
    destruct (validate_params py_str py_repr tool params) as [[|e es]|e].
    + destruct params;
        try (eexists _, _, []; rewrite app_nil_r; repeat split; [cbn; lia | done]).
      eexists _, _, [_]. cbn [Registry.invoked record_call].
      repeat split; [cbn; lia | done].
    + eexists _, _, []. rewrite app_nil_r. repeat split; [cbn; lia | done].
    + eexists _, _, []. rewrite app_nil_r. repeat split; [cbn; lia | done].
  - unfold Registry.execute. rewrite Hget.
    eexists _, _, []. rewrite app_nil_r. repeat split. cbn; lia.
Qed.

(** X22: a round of tool calls never fails and answers every call: each
    call is executed through the registry, one after the other in the
    order of the calls, and the transcript grows by exactly one tool
    message per call, in that order, each carrying the id and the name of
    its call and the text the registry returned for it.  A call of a tool
    that is not registered is answered with the not-found text.  At most
    one invocation is recorded per call, and neither the bus nor the
    record of backend calls is touched. *)
Theorem tool_calls_are_answered_in_order (tools : gmap string (Tool W))
    (calls : list ToolCallRequest) (messages : list value) (s : state W) :
  exists results st',
    answered py_str py_repr tools calls (store s) results st'
    /\ execute_tool_calls py_str py_repr tools calls messages s
       = (Ok (messages ++ tool_messages calls results)%list,
          {| store := st'; bus := bus s; chats := chats s |})
    /\ List.length results = List.length calls
    /\ (exists l, Registry.invoked st' = (Registry.invoked (store s) ++ l)%list
                  /\ (List.length l <= List.length calls)%nat)
    /\ forall i tc, calls !! i = Some tc -> tools !! tc_name tc = None ->
                    results !! i = Some (not_found (tc_name tc)).
Proof.
  revert messages s. induction calls as [|tc rest IH]; intros messages s.
  - exists [], (store s). split; [constructor|]. destruct s. cbn.
    rewrite app_nil_r. repeat split; try done. exists []. by rewrite app_nil_r.
  - cbn [execute_tool_calls]. unfold bind, on_store, zoom.
    destruct (execute_records_at_most_once tools (tc_name tc) (tc_arguments tc) (store s))
      as (text & st1 & l & Hrun & Hinv & Hlen & Hnone).
    rewrite Hrun. cbn [fst snd].
    destruct (IH (messages ++ [tool_message tc text])%list
                 {| store := st1; bus := bus s; chats := chats s |})
      as (results & st' & Hans & Hrest & Hres & (l' & Hinv' & Hlen') & Hunknown).
    cbn [store bus chats] in *.
    exists (text :: results), st'. rewrite Hrest.
    split; [by econstructor|].
    split; [by rewrite <- app_assoc|].
    split; [cbn; by rewrite Hres|]. split.
    + exists (l ++ l')%list.
      rewrite Hinv', Hinv, app_assoc. split; [done|].
      rewrite length_app. cbn [List.length]. lia.
    + intros [|i] tc' Hi Hget; cbn in Hi |- *.
      * injection Hi as <-. by rewrite (Hnone Hget).
      * by apply Hunknown.
Qed.

(** X23: when the first answer of the completion backend asks for no
    tool, the run ends there: the backend was called once, on the
    transcript of the system prompt and the task, no tool was invoked,
    and the one event published is the announcement of a success,
    written out, whose result is the content of that answer, or the canned
    message when the answer has no content. *)
Theorem subagent_reports_first_plain_answer (self : SubagentManager W)
    (task_id task label : string) (o : origin) (s : state W)
    (r : LLMResponse) (w' : W) :
  provider self (opening_transcript (_build_subagent_prompt self task) task)
    (Registry.get_definitions (build_tools class_body self)) (model self)
    (Registry.world (store s)) = (Ok r, w') ->
  has_tool_calls r = false ->
  exists s',
    _run_subagent py_str py_repr json_dumps now class_body self task_id task label o s
    = (Ok tt, s')
    /\ chats s'
       = (chats s ++ [opening_transcript (_build_subagent_prompt self task) task])%list
    /\ store s' = {| Registry.world := w';
                     Registry.invoked := Registry.invoked (store s) |}
    /\ Bus.inbound (bus s')
       = (Bus.inbound (bus s)
          ++ [announcement
                (success_text label task
                   (default "任务已完成，但未生成最终响应。" (content r)))
                o (now w')])%list
    /\ Bus.outbound (bus s') = Bus.outbound (bus s).
Proof.
  intros Hprov Htools.
  unfold _run_subagent, try_except, run_body, bind.
  change max_iterations with (S 14). cbn [agent_loop].
  unfold bind, provider_chat, bind, modify, on_world, on_store, zoom.
  cbn [fst snd store bus chats Registry.world Registry.invoked].
  change (initial_messages self task)
    with (opening_transcript (_build_subagent_prompt self task) task).
  rewrite Hprov. cbn [fst snd]. rewrite Htools. unfold ret. cbn [fst snd].
  unfold _announce_result. eexists. split; [reflexivity|].
  cbn [chats store bus Bus.inbound Bus.outbound Bus.publish_inbound Registry.world].
  split; [reflexivity|]. split; [reflexivity|]. split; [|reflexivity].
  unfold no_final_response.
  by rewrite (SubagentFacts.announce_content_ok).
Qed.

End Manager.

Import Samples MoreSamples.

Lemma subagent_reports_first_plain_answer_witness :
  exists s',
    _run_subagent show show (fun _ => "{}") Z.of_nat sample_class_body direct_manager
      "a1b2c3d4" "read the notes" "notes" cli_origin fresh_state
    = (Ok tt, s')
    /\ chats s'
       = (chats fresh_state
          ++ [opening_transcript (_build_subagent_prompt direct_manager "read the notes")
                "read the notes"])%list
    /\ store s' = {| Registry.world := 1%nat;
                     Registry.invoked := Registry.invoked (store fresh_state) |}
    /\ Bus.inbound (bus s')
       = (Bus.inbound (bus fresh_state)
          ++ [announcement
                (success_text "notes" "read the notes"
                   (default "任务已完成，但未生成最终响应。" (Some "the notes are empty")))
                cli_origin (Z.of_nat 1)])%list
    /\ Bus.outbound (bus s') = Bus.outbound (bus fresh_state).
Proof.
  apply (subagent_reports_first_plain_answer show show (fun _ => "{}") Z.of_nat
           sample_class_body direct_manager "a1b2c3d4" "read the notes" "notes" cli_origin
           fresh_state
           {| content := Some "the notes are empty"; tool_calls := [];
              finish_reason := "stop"; usage := [] |} 1%nat);
    reflexivity.
Defined.

(** A tool that is registered is answered with what it returns, one that
    is not with the not-found text, in the order of the calls. *)
Example two_calls_two_answers :
  (execute_tool_calls show show (build_tools sample_class_body direct_manager)
     [{| tc_id := "c1"; tc_name := "read_file"; tc_arguments := VDict [] |};
      {| tc_id := "c2"; tc_name := "spawn"; tc_arguments := VDict [] |}] [] fresh_state).1
  = Ok [tool_reply {| tc_id := "c1"; tc_name := "read_file"; tc_arguments := VDict [] |}
          "done";
        tool_reply {| tc_id := "c2"; tc_name := "spawn"; tc_arguments := VDict [] |}
          "错误：未找到工具 'spawn'"].
Proof. reflexivity. Qed.

End SubagentLoopFacts.

(** ** Session keys and session files *)

Module SessionFileFacts.
Import Session StringHelpers PyStrFacts.

Lemma replace_char_absent (c : ascii) (new s : string) :
  PyStr.mem c s = false -> PySlice.replace_char c new s = s.
Proof.
  induction s as [|a s IH]; [reflexivity|]. rewrite mem_cons, replace_char_cons.
  intros [Ha Hs]%orb_false_elim. by rewrite Ha, (IH Hs).
Qed.

Lemma replace_all_absent (l : list ascii) (s : string) :
  Forall (fun c => PyStr.mem c s = false) l ->
  foldl (fun name char => PySlice.replace_char char "_" name) s l = s.
Proof.
  induction 1 as [|c l Hc _ IH]; [reflexivity|].
  cbn [foldl]. by rewrite (replace_char_absent _ _ _ Hc).
Qed.

(** Replacing one character by one character acts byte by byte. *)
Lemma replace_one_cons (old new a : ascii) (r : string) :
  PySlice.replace_char old (String new "") (String a r)
  = String (if Ascii.eqb a old then new else a)
           (PySlice.replace_char old (String new "") r).
Proof. rewrite replace_char_cons. by destruct (Ascii.eqb a old). Qed.

Lemma replace_one_rev_app (old new : ascii) (s t : string) :
  String.rev_app (PySlice.replace_char old (String new "") s)
                 (PySlice.replace_char old (String new "") t)
  = PySlice.replace_char old (String new "") (String.rev_app s t).
Proof.
  revert t. induction s as [|a s IH]; intros t; [reflexivity|].
  rewrite replace_one_cons. cbn [String.rev_app].
  rewrite <- IH. by rewrite replace_one_cons.
Qed.

Lemma replace_one_rev (old new : ascii) (s : string) :
  String.rev (PySlice.replace_char old (String new "") s)
  = PySlice.replace_char old (String new "") (String.rev s).
Proof. unfold String.rev. by rewrite <- replace_one_rev_app. Qed.

(** A colon and an underscore are no part of any whitespace. *)
Lemma space1_colon (a : ascii) :
  PyStr.space1 (if Ascii.eqb a ":" then "_"%char else a) = PyStr.space1 a.
Proof. by destruct (Ascii.eqb_spec a ":") as [->|_]. Qed.

Lemma space2_colon (a b : ascii) :
  PyStr.space2 (if Ascii.eqb a ":" then "_"%char else a)
               (if Ascii.eqb b ":" then "_"%char else b)
  = PyStr.space2 a b.
Proof.
  by destruct (Ascii.eqb_spec a ":") as [->|_], (Ascii.eqb_spec b ":") as [->|_].
Qed.

Lemma space3_colon (a b c : ascii) :
  PyStr.space3 (if Ascii.eqb a ":" then "_"%char else a)
               (if Ascii.eqb b ":" then "_"%char else b)
               (if Ascii.eqb c ":" then "_"%char else c)
  = PyStr.space3 a b c.
Proof.
  by destruct (Ascii.eqb_spec a ":") as [->|_], (Ascii.eqb_spec b ":") as [->|_],
              (Ascii.eqb_spec c ":") as [->|_].
Qed.

Lemma lstrip_gen_colon (fwd : bool) (s : string) :
  PyStr.lstrip_gen fwd (PySlice.replace_char ":" "_" s)
  = PySlice.replace_char ":" "_" (PyStr.lstrip_gen fwd s).
Proof.
  remember (String.length s) as n eqn:Hn. revert s Hn.
  induction n as [n IH] using lt_wf_ind. intros s Hn.
  assert (Hr : forall t, (String.length t < n)%nat ->
               PyStr.lstrip_gen fwd (PySlice.replace_char ":" "_" t)
               = PySlice.replace_char ":" "_" (PyStr.lstrip_gen fwd t))
    by (intros t Ht; by apply (IH _ Ht)).
  clear IH. destruct s as [|a r]; [reflexivity|]. cbn [String.length] in Hn.
  rewrite (lstrip_gen_unfold fwd a r), replace_one_cons, lstrip_gen_unfold, space1_colon.
  destruct (PyStr.space1 a); [apply Hr; lia|].
  destruct r as [|b r2]; [by rewrite replace_one_cons|]. cbn [String.length] in Hn.
  rewrite (replace_one_cons _ _ b).
  assert (H2 : (if fwd
                then PyStr.space2 (if Ascii.eqb a ":" then "_"%char else a)
                                  (if Ascii.eqb b ":" then "_"%char else b)
                else PyStr.space2 (if Ascii.eqb b ":" then "_"%char else b)
                                  (if Ascii.eqb a ":" then "_"%char else a))
               = (if fwd then PyStr.space2 a b else PyStr.space2 b a))
    by (destruct fwd; apply space2_colon).
  rewrite H2. clear H2.
  destruct (if fwd then PyStr.space2 a b else PyStr.space2 b a); [apply Hr; lia|].
  destruct r2 as [|c r3]; [by rewrite !replace_one_cons|]. cbn [String.length] in Hn.
  rewrite (replace_one_cons _ _ c).
  assert (H3 : (if fwd
                then PyStr.space3 (if Ascii.eqb a ":" then "_"%char else a)
                                  (if Ascii.eqb b ":" then "_"%char else b)
                                  (if Ascii.eqb c ":" then "_"%char else c)
                else PyStr.space3 (if Ascii.eqb c ":" then "_"%char else c)
                                  (if Ascii.eqb b ":" then "_"%char else b)
                                  (if Ascii.eqb a ":" then "_"%char else a))
               = (if fwd then PyStr.space3 a b c else PyStr.space3 c b a))
    by (destruct fwd; apply space3_colon).
  rewrite H3. clear H3.
  destruct (if fwd then PyStr.space3 a b c else PyStr.space3 c b a); [apply Hr; lia|].
  by rewrite !replace_one_cons.
Qed.

(** [strip] commutes with replacing the colons by underscores. *)
Lemma strip_colon (s : string) :
  PyStr.strip (PySlice.replace_char ":" "_" s)
  = PySlice.replace_char ":" "_" (PyStr.strip s).
Proof.
  unfold PyStr.strip, PyStr.rstrip, PyStr.lstrip.
  by rewrite lstrip_gen_colon, (replace_one_rev ":" "_"), lstrip_gen_colon,
             (replace_one_rev ":" "_").
Qed.

Lemma underscores_back (k : string) :
  PyStr.mem "_" k = false ->
  PySlice.replace_char "_" ":" (PySlice.replace_char ":" "_" k) = k.
Proof.
  induction k as [|a k IH]; [reflexivity|]. rewrite mem_cons.
  intros [Ha Hk]%orb_false_elim. rewrite (replace_one_cons ":" "_"), replace_one_cons, (IH Hk).
  destruct (Ascii.eqb_spec a ":") as [->|_]; [reflexivity|]. by rewrite Ha.
Qed.

(** X24: the key shown by [list_sessions] for the file of a session is
    the key of the session, provided the key is not empty, has no
    whitespace at either end, and holds no underscore and none of the
    characters [safe_filename] replaces other than the colon: the file is
    then named after the key with its colons turned to underscores. *)
Theorem session_key_survives_the_file_name (k : string) :
  k <> "" ->
  PyStr.strip k = k ->
  PyStr.mem "_" k = false ->
  (forall c, c ∈ unsafe -> c <> ":"%char -> PyStr.mem c k = false) ->
  session_file_stem k = PySlice.replace_char ":" "_" k
  /\ listed_key (session_file_stem k) = k.
Proof.
  intros _ Hstrip Hunder Hunsafe.
  assert (Hstem : session_file_stem k = PySlice.replace_char ":" "_" k).
  { unfold session_file_stem, safe_filename. rewrite replace_all_absent.
    - by rewrite strip_colon, Hstrip.
    - apply Forall_forall. intros c Hc.
      rewrite mem_replace_char by (by apply StringHelpersFacts.unsafe_not_underscore).
      destruct (Ascii.eqb_spec c ":") as [->|Hne]; [by rewrite andb_false_r|].
      by rewrite (Hunsafe c Hc Hne). }
  split; [exact Hstem|]. unfold listed_key. rewrite Hstem. by apply underscores_back.
Qed.

Lemma session_key_survives_the_file_name_witness :
  session_file_stem "telegram:42" = "telegram_42"
  /\ listed_key (session_file_stem "telegram:42") = "telegram:42".
Proof.
  apply (session_key_survives_the_file_name "telegram:42").
  - discriminate.
  - reflexivity.
  - reflexivity.
  - intros c Hc Hne. unfold unsafe in Hc. set_unfold.
    repeat (destruct Hc as [->|Hc]; [try reflexivity; by destruct Hne|]). done.
Defined.

(** An underscore in the key does not survive: the session is listed under
    another key, and two keys can name the same file. *)
Example underscore_key_is_listed_with_a_colon :
  listed_key (session_file_stem "telegram:my_chat") = "telegram:my:chat".
Proof. reflexivity. Qed.

Example two_keys_one_file :
  session_file_stem "cli:a_b" = session_file_stem "cli:a:b".
Proof. reflexivity. Qed.

End SessionFileFacts.
